(** * WineGUI: the registry reader, the escape decoder, the Windows version
      resolver and the bottle directory scan of [src/helper.cc]

    A shallow embedding of the static methods of class [Helper] that read a
    bottle's registry files, and the properties of them that the specification
    states.  C++ [std::string] is [string] (a list of bytes), a thrown
    exception is the [Throw] case of [result], and the file system the code
    reads is an explicit [FileSystem] argument. *)

From Stdlib Require Import String Ascii List ZArith NArith Bool Arith Lia.
From Stdlib Require Import Permutation Sorted.
Import ListNotations.

Open Scope string_scope.

(** ** Exceptions and results *)

(** The exceptions the modelled code lets escape: [std::runtime_error] with
    its [what()] text, [std::out_of_range] of [std::vector::at] (index asked
    for, size of the vector), and [Glib::FileError] of [Glib::Dir]'s
    constructor. *)
Inductive exception : Type :=
| runtime_error (what : string)
| out_of_range (index size : nat)
| file_error (path : string).

Inductive result (A : Type) : Type :=
| Ok (a : A)
| Throw (e : exception).

Arguments Ok {A} a.
Arguments Throw {A} e.

Definition bind {A B : Type} (r : result A) (k : A -> result B) : result B :=
  match r with
  | Ok a => k a
  | Throw e => Throw e
  end.

Notation "x <- r ;; k" := (bind r (fun x => k))
  (at level 61, r at next level, right associativity).

(** ** Characters *)

Definition dquote : ascii := "034"%char.
Definition backslash : ascii := "\"%char.
Definition newline : ascii := "010"%char.
Definition NUL : ascii := "000"%char.

Definition code (c : ascii) : Z := Z.of_N (N_of_ascii c).

(** [(char) z]: conversion of an integer to a byte keeps the low eight bits. *)
Definition to_char (z : Z) : ascii := ascii_of_N (Z.to_N (z mod 256)).

Definition in_range (lo hi c : ascii) : bool :=
  ((code lo <=? code c) && (code c <=? code hi))%Z.

(** The <cctype> classifiers on a byte, as the "C" locale and the UTF-8
    locales have them: only ASCII letters and digits are classified or
    converted. *)
Definition isdigit (c : ascii) : bool := in_range "0" "9" c.
Definition isxdigit (c : ascii) : bool :=
  in_range "0" "9" c || in_range "a" "f" c || in_range "A" "F" c.
Definition tolower (c : ascii) : Z :=
  if in_range "A" "Z" c then (code c + 32)%Z else code c.
Definition toupper (c : ascii) : Z :=
  if in_range "a" "z" c then (code c - 32)%Z else code c.

(** ** The operations of [std::string] the code uses *)

Module StdString.

Definition empty (s : string) : bool :=
  match s with
  | EmptyString => true
  | String _ _ => false
  end.

(** [s.starts_with(pre)] *)
Definition starts_with (pre s : string) : bool := String.prefix pre s.

(** [s.starts_with(c)] for a character *)
Definition starts_with_char (c : ascii) (s : string) : bool :=
  match s with
  | EmptyString => false
  | String d _ => Ascii.eqb d c
  end.

(** [s.find(pat)]: the position of the first occurrence, [None] for [npos]. *)
Fixpoint find (pat s : string) : option nat :=
  if String.prefix pat s then Some 0
  else match s with
       | EmptyString => None
       | String _ s' => option_map S (find pat s')
       end.

(** [s.substr(pos)] for [pos <= s.size()], the only way the code calls it. *)
Fixpoint substr (pos : nat) (s : string) : string :=
  match pos, s with
  | O, _ => s
  | S n, String _ s' => substr n s'
  | S _, EmptyString => EmptyString
  end.

(** [s.erase(std::remove(s.begin(), s.end(), c), s.end())] *)
Fixpoint erase_remove (c : ascii) (s : string) : string :=
  match s with
  | EmptyString => EmptyString
  | String d s' =>
      if Ascii.eqb d c then erase_remove c s' else String d (erase_remove c s')
  end.

(** [s.find_last_of(set)]: the position of the last character of [s] that
    occurs in [set]. *)
Fixpoint find_last_of (set s : string) : option nat :=
  match s with
  | EmptyString => None
  | String c s' =>
      match find_last_of set s' with
      | Some n => Some (S n)
      | None =>
          if existsb (Ascii.eqb c) (list_ascii_of_string set) then Some 0
          else None
      end
  end.

End StdString.

Import StdString.

(** ** Files *)

(** What the code sees of the disk: the bytes of a file that
    [std::ifstream] can open, whether a path is a directory
    ([Glib::file_test] with [FILE_TEST_IS_DIR]), and the names a readable
    directory holds, in the order [Glib::Dir::read_name] yields them. *)
Record FileSystem : Type := {
  ifstream_open : string -> option string;
  file_test_is_dir : string -> bool;
  dir_open : string -> option (list string)
}.

(** The lines [while (std::getline(f, line))] iterates over, each with the
    value of [f.eof()] after it was read.  A line ends at a newline, which is
    dropped; the characters after the last newline form a last line, read
    with the end-of-file bit set; when nothing is left the read fails and the
    loop ends. *)
Fixpoint getlines (s : string) : list (string * bool) :=
  match s with
  | EmptyString => []
  | String c r =>
      if Ascii.eqb c newline then (EmptyString, false) :: getlines r
      else match getlines r with
           | [] => [(String c EmptyString, true)]
           | (l, e) :: t => (String c l, e) :: t
           end
  end.

(** ** [Helper::split] *)

(** The pieces of [s] between occurrences of [delimiter]; never empty. *)
Fixpoint split (s : string) (delimiter : ascii) : list string :=
  match s with
  | EmptyString => [EmptyString]
  | String c r =>
      if Ascii.eqb c delimiter then EmptyString :: split r delimiter
      else match split r delimiter with
           | [] => [String c EmptyString]
           | h :: t => String c h :: t
           end
  end.

(** [v.at(i)] *)
Definition at_ (v : list string) (i : nat) : result string :=
  match nth_error v i with
  | Some s => Ok s
  | None => Throw (out_of_range i (List.length v))
  end.

(** ** [Helper::unescape_reg_key_data] *)

(** The lambda [to_hex], called on hexadecimal digits only. *)
Definition to_hex (ch : ascii) : Z :=
  if isdigit ch then (code ch - code "0")%Z
  else (tolower ch - code "a" + 10)%Z.

Definition push (z : Z) (s : string) : string := String (to_char z) s.

(** The lambda [wchar_to_utf8]; [wc] is a 32-bit [wchar_t]. *)
Definition wchar_to_utf8 (wc : Z) : string :=
  (if (0 <=? wc) && (wc <=? 0x7f) then
     push wc ""
   else if (0x80 <=? wc) && (wc <=? 0x7ff) then
     push (Z.lor 0xc0 (Z.shiftr wc 6))
    (push (Z.lor 0x80 (Z.land wc 0x3f)) "")
   else if (0x800 <=? wc) && (wc <=? 0xffff) then
     push (Z.lor 0xe0 (Z.shiftr wc 12))
    (push (Z.lor 0x80 (Z.land (Z.shiftr wc 6) 0x3f))
    (push (Z.lor 0x80 (Z.land wc 0x3f)) ""))
   else if (0x10000 <=? wc) && (wc <=? 0x1fffff) then
     push (Z.lor 0xf0 (Z.shiftr wc 18))
    (push (Z.lor 0x80 (Z.land (Z.shiftr wc 12) 0x3f))
    (push (Z.lor 0x80 (Z.land (Z.shiftr wc 6) 0x3f))
    (push (Z.lor 0x80 (Z.land wc 0x3f)) "")))
   else if (0x200000 <=? wc) && (wc <=? 0x3ffffff) then
     push (Z.lor 0xf8 (Z.shiftr wc 24))
    (push (Z.lor 0x80 (Z.land (Z.shiftr wc 18) 0x3f))
    (push (Z.lor 0x80 (Z.land (Z.shiftr wc 12) 0x3f))
    (push (Z.lor 0x80 (Z.land (Z.shiftr wc 6) 0x3f))
    (push (Z.lor 0x80 (Z.land wc 0x3f)) ""))))
   else if (0x4000000 <=? wc) && (wc <=? 0x7fffffff) then
     push (Z.lor 0xfc (Z.shiftr wc 30))
    (push (Z.lor 0x80 (Z.land (Z.shiftr wc 24) 0x3f))
    (push (Z.lor 0x80 (Z.land (Z.shiftr wc 18) 0x3f))
    (push (Z.lor 0x80 (Z.land (Z.shiftr wc 12) 0x3f))
    (push (Z.lor 0x80 (Z.land (Z.shiftr wc 6) 0x3f))
    (push (Z.lor 0x80 (Z.land wc 0x3f)) "")))))
   else "")%Z.

(** [*p] and [p + 1] for a pointer [p] into [src.c_str()], kept as the text
    from [p] on: past the last byte a C string reads as NUL. *)
Definition deref (p : string) : ascii :=
  match p with
  | EmptyString => NUL
  | String c _ => c
  end.

Definition next (p : string) : string :=
  match p with
  | EmptyString => p
  | String _ r => r
  end.

Definition is_octal (c : ascii) : bool := in_range "0" "7" c.

(** One statement [if (test( *p)) wch = wch * base + digit( *p++);] of the
    decoder: the value it leaves in [wch], and where it leaves [p]. *)
Definition hex_digit (wch : Z) (p : string) : Z :=
  if isxdigit (deref p) then (wch * 16 + to_hex (deref p))%Z else wch.

Definition octal_digit (wch : Z) (p : string) : Z :=
  if is_octal (deref p) then (wch * 8 + (code (deref p) - code "0"))%Z else wch.

Definition skip_if (test : ascii -> bool) (p : string) : string :=
  if test (deref p) then next p else p.

(** The decoder's loop over [*p]; the result is what the loop appends
    to [dest] from [p] on.  A NUL byte inside the text ends the loop as the
    terminator of [c_str()] does. *)
Fixpoint unescape_from (p : string) : string :=
  match p with
  | EmptyString => ""
  | String c p1 =>
      if Ascii.eqb c NUL then ""
      else if Ascii.eqb c backslash then
        let d := deref p1 in
        let p2 := next p1 in
        if Ascii.eqb d NUL then ""                               (* break *)
        else if Ascii.eqb d "a" then String "007" (unescape_from p2)
        else if Ascii.eqb d "b" then String "008" (unescape_from p2)
        else if Ascii.eqb d "e" then String "027" (unescape_from p2)
        else if Ascii.eqb d "f" then String "012" (unescape_from p2)
        else if Ascii.eqb d "n" then String "010" (unescape_from p2)
        else if Ascii.eqb d "r" then String "013" (unescape_from p2)
        else if Ascii.eqb d "t" then String "009" (unescape_from p2)
        else if Ascii.eqb d "v" then String "011" (unescape_from p2)
        else if Ascii.eqb d "x" then
          if negb (isxdigit (deref p2)) then String "x" (unescape_from p2)
          else
            let w1 := to_hex (deref p2) in
            let p3 := next p2 in
            let w2 := hex_digit w1 p3 in
            let p4 := skip_if isxdigit p3 in
            let w3 := hex_digit w2 p4 in
            let p5 := skip_if isxdigit p4 in
            let w4 := hex_digit w3 p5 in
            let p6 := skip_if isxdigit p5 in
            wchar_to_utf8 w4 ++ unescape_from p6
        else if is_octal d then
          let w1 := (code d - code "0")%Z in
          let w2 := octal_digit w1 p2 in
          let p3 := skip_if is_octal p2 in
          let w3 := octal_digit w2 p3 in
          let p4 := skip_if is_octal p3 in
          wchar_to_utf8 w3 ++ unescape_from p4
        else String d (unescape_from p2)        (* unrecognized escape *)
      else String c (unescape_from p1)
  end.

Definition unescape_reg_key_data (src : string) : string := unescape_from src.

(** The number of backslashes a text ends with.  A backslash at the end of a
    text is a lone one when this number is odd: the backslashes before it
    pair up, each pair being the escape of a backslash. *)
Fixpoint leading_backslashes (l : list ascii) : nat :=
  match l with
  | [] => 0
  | c :: r => if Ascii.eqb c backslash then S (leading_backslashes r) else 0
  end.

Definition trailing_backslashes (s : string) : nat :=
  leading_backslashes (rev (list_ascii_of_string s)).

(** The text holds backslashes only. *)
Fixpoint all_backslash (s : string) : bool :=
  match s with
  | EmptyString => true
  | String c r => Ascii.eqb c backslash && all_backslash r
  end.

(** ** The registry reader *)

(** The text of every [std::runtime_error] the reader throws. *)
Definition could_not_open : string := "Could not open registry file!".

(** The body of the loop of [get_reg_value] over the lines that are left;
    [matched] is the local [match], the result is the final [output]. *)
Fixpoint get_reg_value_loop (key_name value_pattern : string) (matched : bool)
    (lines : list (string * bool)) : string :=
  match lines with
  | [] => ""
  | (line, _) :: rest =>
      if negb matched then
        get_reg_value_loop key_name value_pattern (starts_with key_name line) rest
      else
        match find value_pattern line with
        | Some pos =>
            erase_remove dquote (substr (pos + String.length value_pattern) line)
        | None => get_reg_value_loop key_name value_pattern matched rest
        end
  end.

(** The name of a value between two quotes. *)
Definition quoted (s : string) : string :=
  String dquote (s ++ String dquote "").

Definition value_pattern_of (value_name : string) : string :=
  String dquote (value_name ++ String dquote "=").

Definition get_reg_value (fs : FileSystem) (file_path key_name value_name : string)
    : result string :=
  let value_pattern := value_pattern_of value_name in
  match ifstream_open fs file_path with
  | Some content =>
      Ok (get_reg_value_loop key_name value_pattern false (getlines content))
  | None => Throw (runtime_error could_not_open)
  end.

Fixpoint get_reg_keys_loop (key_name : string) (matched : bool)
    (lines : list (string * bool)) : list string :=
  match lines with
  | [] => []
  | (line, eof) :: rest =>
      if negb matched then
        get_reg_keys_loop key_name (starts_with key_name line) rest
      else if empty line || eof then []        (* end of the key section *)
      else if negb (starts_with_char "#" line) then
        line :: get_reg_keys_loop key_name matched rest
      else get_reg_keys_loop key_name matched rest
  end.

Definition get_reg_keys (fs : FileSystem) (file_path key_name : string)
    : result (list string) :=
  match ifstream_open fs file_path with
  | Some content => Ok (get_reg_keys_loop key_name false (getlines content))
  | None => Throw (runtime_error could_not_open)
  end.

(** [line.find(filter) != npos] *)
Definition contains (filter line : string) : bool :=
  match find filter line with
  | Some _ => true
  | None => false
  end.

Fixpoint get_reg_keys_data_loop (key_name key_value_filter key_name_ignore_filter
    : string) (matched : bool) (lines : list (string * bool)) : list string :=
  match lines with
  | [] => []
  | (line, eof) :: rest =>
      if negb matched then
        get_reg_keys_data_loop key_name key_value_filter key_name_ignore_filter
          (starts_with key_name line) rest
      else if empty line || eof then []
      else
        let line := unescape_reg_key_data line in
        let more := get_reg_keys_data_loop key_name key_value_filter
                      key_name_ignore_filter matched rest in
        if negb (starts_with_char "#" line)
           && (empty key_value_filter || contains key_value_filter line)
           && (empty key_name_ignore_filter
               || negb (contains key_name_ignore_filter line))
        then
          match split line "=" with
          | _ :: second :: _ => erase_remove dquote second :: more
          | _ => more
          end
        else more
  end.

Definition get_reg_keys_data_filter_ignore (fs : FileSystem)
    (file_path key_name key_value_filter key_name_ignore_filter : string)
    : result (list string) :=
  match ifstream_open fs file_path with
  | Some content =>
      Ok (get_reg_keys_data_loop key_name key_value_filter
            key_name_ignore_filter false (getlines content))
  | None => Throw (runtime_error could_not_open)
  end.

Definition get_reg_keys_data_filter (fs : FileSystem)
    (file_path key_name key_value_filter : string) : result (list string) :=
  get_reg_keys_data_filter_ignore fs file_path key_name key_value_filter "".

Definition get_reg_keys_data (fs : FileSystem) (file_path key_name : string)
    : result (list string) :=
  get_reg_keys_data_filter fs file_path key_name "".

Fixpoint get_reg_meta_data_loop (meta_pattern : string)
    (lines : list (string * bool)) : string :=
  match lines with
  | [] => ""
  | (line, _) :: rest =>
      match find meta_pattern line with
      | Some pos =>
          erase_remove dquote (substr (pos + String.length meta_pattern) line)
      | None => get_reg_meta_data_loop meta_pattern rest
      end
  end.

Definition meta_pattern_of (meta_value_name : string) : string :=
  "#" ++ meta_value_name ++ "=".

Definition get_reg_meta_data (fs : FileSystem) (file_path meta_value_name : string)
    : result string :=
  let meta_pattern := meta_pattern_of meta_value_name in
  match ifstream_open fs file_path with
  | Some content => Ok (get_reg_meta_data_loop meta_pattern (getlines content))
  | None => Throw (runtime_error could_not_open)
  end.

(** ** [Helper::get_bottle_dir_from_prefix] and [Helper::get_folder_name] *)

Definition get_bottle_dir_from_prefix (prefix_path : string) : string :=
  match find_last_of "/\" prefix_path with
  | Some last_index =>
      let name := substr (last_index + 1) prefix_path in
      if starts_with_char "." name then substr 1 name else name
  | None => "- Unknown -"
  end.

Definition get_folder_name (prefix_path : string) : string :=
  get_bottle_dir_from_prefix prefix_path.

(** ** The table of Windows versions *)

Module BottleTypes.

(** Modelled from the spec: the enumeration [BottleTypes::Windows] is
    declared in bottle_types.h, which is not among the sources; its values
    are the ones the table [WindowsVersions] of helper.cc names. *)
Inductive Windows : Type :=
| Windows20 | Windows30 | Windows31 | WindowsNT351 | WindowsNT40
| Windows95 | Windows98 | WindowsME | Windows2000 | WindowsXP
| Windows2003 | WindowsVista | Windows2008 | Windows7 | Windows2008R2
| Windows8 | Windows81 | Windows10.

End BottleTypes.

Import BottleTypes.

Record WindowsVersionEntry : Type := {
  windows : Windows;
  version : string;
  versionNumber : string;
  buildNumber : string;
  productType : string
}.

Definition entry (w : Windows) (v n b t : string) : WindowsVersionEntry :=
  {| windows := w; version := v; versionNumber := n; buildNumber := b;
     productType := t |}.

Definition WindowsVersions : list WindowsVersionEntry :=
  [ entry Windows10 "win10" "10.0" "18362" "WinNT";
    entry Windows81 "win81" "6.3" "9600" "WinNT";
    entry Windows8 "win8" "6.2" "9200" "WinNT";
    entry Windows2008R2 "win2008r2" "6.1" "7601" "ServerNT";
    entry Windows7 "win7" "6.1" "7601" "WinNT";
    entry Windows2008 "win2008" "6.0" "6002" "ServerNT";
    entry WindowsVista "vista" "6.0" "6002" "WinNT";
    entry Windows2003 "win2003" "5.2" "3790" "ServerNT";
    entry WindowsXP "winxp64" "5.2" "3790" "WinNT";
    entry WindowsXP "winxp" "5.1" "2600" "WinNT";
    entry Windows2000 "win2k" "5.0" "2195" "WinNT";
    entry WindowsME "winme" "4.90" "3000" "";
    entry Windows98 "win98" "4.10" "2222" "";
    entry Windows95 "win95" "4.0" "950" "";
    entry WindowsNT40 "nt40" "4.0" "1381" "WinNT";
    entry WindowsNT351 "nt351" "3.51" "1057" "WinNT";
    entry Windows31 "win31" "3.10" "0" "";
    entry Windows30 "win30" "3.0" "0" "";
    entry Windows20 "win20" "2.0" "0" "" ].

(** Registry files and keys (the C++ literals spell each backslash twice, so
    the strings hold two backslashes between the parts of a key, as the
    registry files do). *)
Definition SystemReg : string := "system.reg".
Definition UserReg : string := "user.reg".
Definition RegKeyName9x : string := "[Software\\Microsoft\\Windows\\CurrentVersion]".
Definition RegKeyNameNT : string := "[Software\\Microsoft\\Windows NT\\CurrentVersion]".
Definition RegKeyType : string := "[System\\CurrentControlSet\\Control\\ProductOptions]".
Definition RegKeyWine : string := "[Software\\Wine]".
Definition RegKeyVirtualDesktop : string := "[Software\\Wine\\Explorer]".
Definition RegKeyVirtualDesktopResolution : string := "[Software\\Wine\\Explorer\\Desktops]".
Definition RegNameNTVersion : string := "CurrentVersion".
Definition RegNameNTBuildNumber : string := "CurrentBuildNumber".
Definition RegName9xVersion : string := "VersionNumber".
Definition RegNameProductType : string := "ProductType".
Definition RegNameWindowsVersion : string := "Version".
Definition RegNameVirtualDesktopDefault : string := "Default".

(** [sizeof(version_list)]: the size in bytes of a [std::vector] object (three
    pointers, 24 with the 64-bit ABI), whatever the vector holds. *)
Definition sizeof_vector : nat := 24.

(** ** [Helper::get_windows_version] *)

(** The loop over the user registry's version tag. *)
Fixpoint version_tag_loop (win_version : string) (tbl : list WindowsVersionEntry)
    : option Windows :=
  match tbl with
  | [] => None
  | e :: rest =>
      if String.eqb (version e) win_version then Some (windows e)
      else version_tag_loop win_version rest
  end.

(** The first loop of the NT branch: version, build number and, when the
    registry gave one, product type. *)
Fixpoint nt_build_loop (version_nt build_number_nt type_nt : string)
    (tbl : list WindowsVersionEntry) : option Windows :=
  match tbl with
  | [] => None
  | e :: rest =>
      if String.eqb (versionNumber e) version_nt
         && String.eqb (buildNumber e) build_number_nt then
        if negb (empty type_nt) then
          if String.eqb (productType e) type_nt then Some (windows e)
          else nt_build_loop version_nt build_number_nt type_nt rest
        else Some (windows e)
      else nt_build_loop version_nt build_number_nt type_nt rest
  end.

(** The fall-back loop of the NT branch: the build number is not looked at. *)
Fixpoint nt_version_loop (version_nt type_nt : string)
    (tbl : list WindowsVersionEntry) : option Windows :=
  match tbl with
  | [] => None
  | e :: rest =>
      if String.eqb (versionNumber e) version_nt then
        if negb (empty type_nt) then
          if String.eqb (productType e) type_nt then Some (windows e)
          else nt_version_loop version_nt type_nt rest
        else Some (windows e)
      else nt_version_loop version_nt type_nt rest
  end.

(** The loop of the 9x branch. *)
Fixpoint legacy_loop (current_version current_build_number : string)
    (tbl : list WindowsVersionEntry) : option Windows :=
  match tbl with
  | [] => None
  | e :: rest =>
      if String.eqb (versionNumber e) current_version
         && String.eqb (buildNumber e) current_build_number
      then Some (windows e)
      else legacy_loop current_version current_build_number rest
  end.

Section Resolver.

(** [Glib::build_filename], a function of the GLib library. *)
Variable build_filename : string -> string -> string.

(** Declared in headers that are not among the sources:
    [BottleTypes::WindowsEnumSize] and [BottleTypes::to_string] of
    bottle_types.h, [WineDefaults::WindowsOs] of wine_defaults.h. *)
Variable WindowsEnumSize : nat.
Variable to_string : Windows -> string.
Variable WindowsOs : Windows.

(** The entries [WindowsVersions[i]] for [i < WindowsEnumSize], which the
    loops visit in this order; the model covers
    [WindowsEnumSize <= length WindowsVersions] (beyond it the C++ reads
    past the end of the array). *)
Definition visited : list WindowsVersionEntry :=
  firstn WindowsEnumSize WindowsVersions.

Definition could_not_determine (prefix_path : string) : string :=
  "Could not determine Windows version, we assume " ++ to_string WindowsOs
  ++ ". Wine machine: " ++ get_folder_name prefix_path
  ++ String newline (String newline "Full location: ") ++ prefix_path.

(** The 9x branch, entered with the non-empty [VersionNumber] value. *)
Definition legacy_branch (version_9x : string) : result Windows :=
  let version_list := split version_9x "." in
  current_version <-
    (if (2 <=? sizeof_vector)%nat then
       major <- at_ version_list 0 ;;
       minor <- at_ version_list 1 ;;
       Ok (major ++ "." ++ minor)
     else Ok "") ;;
  current_build_number <-
    (if (3 <=? sizeof_vector)%nat then at_ version_list 2 else Ok "") ;;
  match legacy_loop current_version current_build_number visited with
  | Some w => Ok w
  | None => Ok WindowsOs
  end.

(** What follows the user registry's loop: the system registry. *)
Definition system_registry (fs : FileSystem) (prefix_path : string)
    : result Windows :=
  let system_reg_file_path := build_filename prefix_path SystemReg in
  version_nt <- get_reg_value fs system_reg_file_path RegKeyNameNT RegNameNTVersion ;;
  if negb (empty version_nt) then
    build_number_nt <-
      get_reg_value fs system_reg_file_path RegKeyNameNT RegNameNTBuildNumber ;;
    type_nt <-
      get_reg_value fs system_reg_file_path RegKeyType RegNameProductType ;;
    match nt_build_loop version_nt build_number_nt type_nt visited with
    | Some w => Ok w
    | None =>
        match nt_version_loop version_nt type_nt visited with
        | Some w => Ok w
        | None => Throw (runtime_error (could_not_determine prefix_path))
        end
    end
  else
    version_9x <-
      get_reg_value fs system_reg_file_path RegKeyName9x RegName9xVersion ;;
    if negb (empty version_9x) then legacy_branch version_9x
    else Throw (runtime_error (could_not_determine prefix_path)).

Definition get_windows_version (fs : FileSystem) (prefix_path : string)
    : result Windows :=
  let user_reg_file_path := build_filename prefix_path UserReg in
  win_version <-
    get_reg_value fs user_reg_file_path RegKeyWine RegNameWindowsVersion ;;
  match (if negb (empty win_version)
         then version_tag_loop win_version visited else None) with
  | Some w => Ok w
  | None => system_registry fs prefix_path
  end.

End Resolver.

(** ** [Helper::case_insensitive_compare] *)

(** [case_insensitive_less::operator()] *)
Definition case_insensitive_less (x y : ascii) : bool :=
  (toupper x <? toupper y)%Z.

(** [std::lexicographical_compare] over two strings. *)
Fixpoint lexicographical_compare (less : ascii -> ascii -> bool) (a b : string)
    : bool :=
  match a, b with
  | _, EmptyString => false
  | EmptyString, String _ _ => true
  | String x a', String y b' =>
      if less x y then true
      else if less y x then false
      else lexicographical_compare less a' b'
  end.

Definition case_insensitive_compare (a b : string) : bool :=
  lexicographical_compare case_insensitive_less a b.

(** The order of a sorted range of the C++ library: [a] may stand before [b]
    in a range sorted with [less] when [less b a] is false. *)
Definition not_after (less : string -> string -> bool) (a b : string) : Prop :=
  less b a = false.

(** ** The order the specification asks for *)

(** Written from the words of the specification, to be compared with the
    order the comparison of the code leaves: the place of a byte in the
    alphabet when case is ignored, a small ASCII letter taking the place of
    its capital. *)
Definition caseless_rank (c : ascii) : N :=
  if ((97 <=? N_of_ascii c) && (N_of_ascii c <=? 122))%N
  then (N_of_ascii c - 32)%N
  else N_of_ascii c.

(** A text as the places of its bytes. *)
Definition caseless_key (s : string) : list N :=
  map caseless_rank (list_ascii_of_string s).

(** Dictionary order: [a] stands before [b] or is equal to it. *)
Fixpoint dictionary_le (a b : list N) : bool :=
  match a, b with
  | [], _ => true
  | _ :: _, [] => false
  | x :: a', y :: b' => (x <? y)%N || ((x =? y)%N && dictionary_le a' b')
  end.

Definition caseless_le (a b : string) : bool :=
  dictionary_le (caseless_key a) (caseless_key b).

(** Sorted without regard to case: every path stands no later in the
    dictionary than each path after it. *)
Definition sorted_case_insensitively (paths : list string) : Prop :=
  StronglySorted (fun a b => caseless_le a b = true) paths.

(** ** [Helper::dir_exists] and [Helper::get_bottles_paths] *)

Definition dir_exists (fs : FileSystem) (dir_path : string) : bool :=
  file_test_is_dir fs dir_path.

Section Scanner.

Variable build_filename : string -> string -> string.

(** [std::sort] with a comparison function; the order it leaves equivalent
    elements in is not specified, so it stays a parameter. *)
Variable std_sort : (string -> string -> bool) -> list string -> list string.

(** The static [DefaultBottleWineDir]: ".wine" under the home directory. *)
Variable DefaultBottleWineDir : string.

(** The loop over [dir.read_name()]: it ends at the first empty name, which
    is what [read_name] returns when the directory has no entry left. *)
Fixpoint read_names_loop (fs : FileSystem) (dir_path : string)
    (names : list string) : list string :=
  match names with
  | [] => []
  | name :: rest =>
      if empty name then []
      else
        let path := build_filename dir_path name in
        if file_test_is_dir fs path
        then path :: read_names_loop fs dir_path rest
        else read_names_loop fs dir_path rest
  end.

Definition get_bottles_paths (fs : FileSystem) (dir_path : string)
    (display_default_wine_machine : bool) : result (list string) :=
  match dir_open fs dir_path with
  | None => Throw (file_error dir_path)
  | Some names =>
      let paths := read_names_loop fs dir_path names in
      let paths := std_sort case_insensitive_compare paths in
      if display_default_wine_machine && dir_exists fs DefaultBottleWineDir
      then Ok (paths ++ [DefaultBottleWineDir])%list
      else Ok paths
  end.

End Scanner.

(** ** Texts put together, to state what [Helper::split] and the readers undo *)

(** The pieces with [delimiter] between them. *)
Fixpoint join (pieces : list string) (delimiter : ascii) : string :=
  match pieces with
  | [] => ""
  | [p] => p
  | p :: rest => p ++ String delimiter (join rest delimiter)
  end.

(** How often [c] occurs in [s]. *)
Fixpoint count_char (c : ascii) (s : string) : nat :=
  match s with
  | EmptyString => 0
  | String d r => (if Ascii.eqb d c then 1 else 0) + count_char c r
  end.

(** [c] does not occur in [s]. *)
Definition free_of (c : ascii) (s : string) : Prop :=
  ~ In c (list_ascii_of_string s).

(** Written from the documentation of the readers of a key's data, which
    return what stands after the equals sign of a line: [value] is the text of
    [line] between its first equals sign and the next one or, when there is
    no other, the end of the line. *)
Definition between_equals_signs (line value : string) : Prop :=
  exists name rest : string,
    line = name ++ String "=" (value ++ rest)
    /\ free_of "=" name /\ free_of "=" value
    /\ (rest = "" \/ exists tail : string, rest = String "=" tail).

(** What a reader of a key's data may return for the lines [lines] of a
    file: a text free of quotes and equals signs that comes from one of the
    lines, which, once decoded, does not start with the number sign and
    passes the two filters, as the text between the first two equals signs
    of the decoded line, without its quotes. *)
Definition data_of (key_value_filter ignore_filter : string)
    (lines : list string) (item : string) : Prop :=
  free_of dquote item /\ free_of "=" item
  /\ exists line value : string,
       In line lines
       /\ starts_with_char "#" (unescape_reg_key_data line) = false
       /\ (key_value_filter = ""
           \/ contains key_value_filter (unescape_reg_key_data line) = true)
       /\ (ignore_filter = ""
           \/ contains ignore_filter (unescape_reg_key_data line) = false)
       /\ between_equals_signs (unescape_reg_key_data line) value
       /\ item = erase_remove dquote value.

(** Neither text compares less than the other: the two are equivalent for
    [std::sort]. *)
Definition equivalent (less : string -> string -> bool) (a b : string) : Prop :=
  less a b = false /\ less b a = false.

(** The text as [case_insensitive_less] sees it: the upper-case form of each
    byte. *)
Definition upper_keys (s : string) : list Z :=
  map toupper (list_ascii_of_string s).

(** [l] is [l'] with some of its elements left out. *)
Inductive subsequence {A : Type} : list A -> list A -> Prop :=
| subsequence_nil : subsequence [] []
| subsequence_skip (x : A) (l l' : list A) :
    subsequence l l' -> subsequence l (x :: l')
| subsequence_keep (x : A) (l l' : list A) :
    subsequence l l' -> subsequence (x :: l) (x :: l').

(** The loop of [get_reg_keys] keeps a line that does not start with the
    number sign. *)
Definition kept (line : string) : bool := negb (starts_with_char "#" line).

(** ** [Helper::read_file_lines] *)

Definition read_file_lines (fs : FileSystem) (file_path : string)
    : result (list string) :=
  match ifstream_open fs file_path with
  | Some content => Ok (map fst (getlines content))
  | None => Throw (runtime_error "Could not open file!")
  end.

(** ** The readers of one setting of a bottle *)

(** Modelled from the spec: the enumerations [BottleTypes::Bit] and
    [BottleTypes::AudioDriver] are declared in bottle_types.h, which is not
    among the sources; their values are the ones helper.cc returns. *)
Inductive Bit : Type := win32 | win64.

Inductive AudioDriver : Type := pulseaudio | alsa | oss | coreaudio | disabled.

Definition RegKeyAudio : string := "[Software\\Wine\\Drivers]".
Definition RegKeyMenuFiles : string := "[Software\\Wine\\MenuFiles]".
Definition RegNameAudio : string := "Audio".
Definition RegNameVirtualDesktop : string := "Desktop".

(** The end of the text of the errors about one bottle. *)
Definition for_wine_machine (prefix_path : string) : string :=
  get_folder_name prefix_path
  ++ String newline (String newline "Full location: ") ++ prefix_path.

Section Settings.

Variable build_filename : string -> string -> string.

Definition get_windows_bitness (fs : FileSystem) (prefix_path : string)
    : result Bit :=
  let file_path := build_filename prefix_path UserReg in
  let meta_value_name := "arch" in
  value <- get_reg_meta_data fs file_path meta_value_name ;;
  if negb (empty value) then
    if String.eqb value "win32" then Ok win32
    else if String.eqb value "win64" then Ok win64
    else
      Throw (runtime_error
               ("Could not determine Windows system bit (not win32 and not win64, value: "
                ++ value ++ "), for Wine machine: "
                ++ for_wine_machine prefix_path))
  else
    Throw (runtime_error
             ("Could not determine Windows system bit, for Wine machine: "
              ++ for_wine_machine prefix_path)).

Definition get_audio_driver (fs : FileSystem) (prefix_path : string)
    : result AudioDriver :=
  let file_path := build_filename prefix_path UserReg in
  value <- get_reg_value fs file_path RegKeyAudio RegNameAudio ;;
  if negb (empty value) then
    if String.eqb value "pulse" then Ok pulseaudio
    else if String.eqb value "alsa" then Ok alsa
    else if String.eqb value "oss" then Ok oss
    else if String.eqb value "coreaudio" then Ok coreaudio
    else if String.eqb value "disabled" then Ok disabled
    else Ok pulseaudio
  else Ok pulseaudio.

Definition get_virtual_desktop (fs : FileSystem) (prefix_path : string)
    : result string :=
  let file_path := build_filename prefix_path UserReg in
  emulate_desktop_value <-
    get_reg_value fs file_path RegKeyVirtualDesktop RegNameVirtualDesktop ;;
  if negb (empty emulate_desktop_value) then
    resolution_value <-
      get_reg_value fs file_path RegKeyVirtualDesktopResolution
        RegNameVirtualDesktopDefault ;;
    if negb (empty resolution_value) then Ok resolution_value else Ok ""
  else Ok "".

Definition get_menu_items (fs : FileSystem) (prefix_path : string)
    : result (list string) :=
  let file_path := build_filename prefix_path UserReg in
  get_reg_keys_data_filter_ignore fs file_path RegKeyMenuFiles
    "Start Menu" "applications-merged".

Definition get_uninstaller (fs : FileSystem) (prefix_path uninstallerKey : string)
    : result string :=
  let file_path := build_filename prefix_path SystemReg in
  let key_name :=
    "[Software\\Microsoft\\Windows\\CurrentVersion\\Uninstall\\"
    ++ uninstallerKey in
  get_reg_value fs file_path key_name "DisplayName".

Definition get_font_filename (fs : FileSystem) (prefix_path : string) (bit : Bit)
    (fontName : string) : result string :=
  let file_path := build_filename prefix_path SystemReg in
  let key_name :=
    match bit with
    | win32 => "[Software\\Microsoft\\Windows\\CurrentVersion\\Fonts]"
    | win64 =>
        "[Software\\Wow6432Node\\Microsoft\\Windows\\CurrentVersion\\Fonts]"
    end in
  get_reg_value fs file_path key_name fontName.

(** [Glib::file_test] with [FILE_TEST_IS_REGULAR], behind
    [Helper::file_exists]. *)
Variable file_test_is_regular : string -> bool.

Definition file_exists (file_path : string) : bool :=
  file_test_is_regular file_path.

Variable WindowsEnumSize : nat.
Variable to_string : Windows -> string.
Variable WindowsOs : Windows.

(** The handler catches [std::runtime_error]; [std::out_of_range] is no
    [runtime_error] and leaves the function. *)
Definition get_bottle_status (fs : FileSystem) (prefix_path : string)
    : result bool :=
  if dir_exists fs prefix_path
     && dir_exists fs (build_filename prefix_path "dosdevices")
     && file_exists (build_filename prefix_path SystemReg)
  then
    match get_windows_version build_filename WindowsEnumSize to_string
            WindowsOs fs prefix_path with
    | Ok _ => Ok true
    | Throw (runtime_error _) => Ok false
    | Throw e => Throw e
    end
  else Ok false.

End Settings.

(** The value of the meta line [#arch=] for a bitness, as
    [get_windows_bitness] compares it. *)
Definition arch_of (bit : Bit) : string :=
  match bit with
  | win32 => "win32"
  | win64 => "win64"
  end.

(** The value of [Audio] for a driver, as [get_audio_driver] compares it. *)
Definition audio_value_of (driver : AudioDriver) : string :=
  match driver with
  | pulseaudio => "pulse"
  | alsa => "alsa"
  | oss => "oss"
  | coreaudio => "coreaudio"
  | disabled => "disabled"
  end.

(** The meta line [#name=value] of a registry file. *)
Definition meta_line (name value : string) : string :=
  "#" ++ name ++ "=" ++ value.

(** ** What the code learns from the commands it runs *)

Definition WineExecutable : string := "wine".
Definition WineExecutable64 : string := "wine64".

Definition get_wine_executable_location (bit64 : bool) : string :=
  if bit64 then WineExecutable64 else WineExecutable.

(** The text the loops over the output of a command compare with ["0"]:
    the output without its newlines. *)
Definition without_newlines (output : string) : string :=
  erase_remove newline output.

Section Commands.

(** [Helper::exec]: the standard output of a shell command, or the
    [std::runtime_error] thrown when [popen] fails. *)
Variable exec : string -> result string.

Definition get_wine_version (wine_64_bit : bool) : result string :=
  output <- exec (get_wine_executable_location wine_64_bit ++ " --version") ;;
  if negb (empty output) then
    let results := split output "-" in
    if (2 <=? List.length results)%nat then
      result2 <- at_ results 1 ;;
      let results2 := split result2 " " in
      if (1 <=? List.length results2)%nat then
        version <- at_ results2 0 ;;
        Ok (without_newlines version)
      else
        Throw (runtime_error
                 ("Could not determine Wine version?"
                  ++ String newline "Something went wrong."))
    else
      Throw (runtime_error
               ("Could not determine Wine version?"
                ++ String newline "Something went wrong."))
  else
    Throw (runtime_error
             ("Could not receive Wine version!"
              ++ String newline (String newline "Is Wine installed?"))).

(** The command that asks the shell whether [program] can be run. *)
Definition command_v (program : string) : string :=
  "command -v " ++ program ++ " >/dev/null 2>&1; echo $?".

Definition determine_wine_executable : result Z :=
  let return_status := (-2)%Z in
  output32 <- exec (command_v (get_wine_executable_location false)) ;;
  let return_status :=
    if negb (empty output32) && String.eqb (without_newlines output32) "0"
    then 0%Z else return_status in
  return_status <-
    (if (return_status =? -2)%Z then
       output64 <- exec (command_v (get_wine_executable_location true)) ;;
       if negb (empty output64) && String.eqb (without_newlines output64) "0"
       then Ok 1%Z else Ok return_status
     else Ok return_status) ;;
  if (return_status =? -2)%Z then Ok (-1)%Z else Ok return_status.

End Commands.

(** The key [get_uninstaller] looks for: it has no closing bracket. *)
Definition uninstall_key (uninstallerKey : string) : string :=
  "[Software\\Microsoft\\Windows\\CurrentVersion\\Uninstall\\"
  ++ uninstallerKey.

(** A text that the decoder and the split at the equals sign leave as it is:
    no backslash, no NUL byte, no equals sign and no double quote in it. *)
Definition plain (s : string) : Prop :=
  free_of backslash s /\ free_of NUL s /\ free_of "=" s /\ free_of dquote s.

(** ** [Helper::get_image_location] *)

Section Images.

(** [Glib::get_system_data_dirs], [Glib::build_path] with the directory
    separator, [Glib::build_filename], and the test behind
    [Helper::file_exists]. *)
Variable system_data_dirs : list string.
Variable build_path : list string -> string.
Variable build_filename : string -> string -> string.
Variable file_test_is_regular : string -> bool.

(** The loop over the data directories; [None] when it ends without a
    [return]. *)
Fixpoint image_in_data_dirs (data_dirs : list string) (filename : string)
    : option string :=
  match data_dirs with
  | [] => None
  | data_dir :: rest =>
      let path_builder := [data_dir; "winegui"; "images"; filename] in
      let file_path := build_path path_builder in
      if file_exists file_test_is_regular file_path then Some file_path
      else image_in_data_dirs rest filename
  end.

Definition get_image_location (filename : string) : string :=
  match image_in_data_dirs system_data_dirs filename with
  | Some file_path => file_path
  | None =>
      let file_path := build_filename "../images" filename in
      let file_path2 := build_filename "../../images" filename in
      if file_exists file_test_is_regular file_path then file_path
      else if file_exists file_test_is_regular file_path2 then file_path2
      else ""
  end.

End Images.

(** ** Reading the bytes of [wchar_to_utf8] back *)

(** The code point a sequence of one to six bytes stands for, as the ranges
    of [wchar_to_utf8] lay it out: the bits of the first byte after its
    marker, then six bits of each byte that follows. *)
Definition utf8_payload (lead : Z) (bytes : list ascii) : Z :=
  fold_left (fun acc b => (acc * 64 + (code b - 0x80))%Z) bytes lead.

Definition utf8_value (s : string) : Z :=
  match list_ascii_of_string s with
  | [] => (-1)%Z
  | [b0] => code b0
  | b0 :: ([_] as rest) => utf8_payload (code b0 - 0xc0)%Z rest
  | b0 :: ([_; _] as rest) => utf8_payload (code b0 - 0xe0)%Z rest
  | b0 :: ([_; _; _] as rest) => utf8_payload (code b0 - 0xf0)%Z rest
  | b0 :: ([_; _; _; _] as rest) => utf8_payload (code b0 - 0xf8)%Z rest
  | b0 :: rest => utf8_payload (code b0 - 0xfc)%Z rest
  end.

(** ** Instances of what the code takes from its libraries and headers *)

(** A [Glib::build_filename] for a directory path that ends in no separator
    and a name that starts with none. *)
Definition join_path (dir name : string) : string := dir ++ "/" ++ name.

(** An insertion sort, one of the algorithms [std::sort] may be. *)
Fixpoint insert_sorted (less : string -> string -> bool) (x : string)
    (l : list string) : list string :=
  match l with
  | [] => [x]
  | y :: r => if less x y then x :: l else y :: insert_sorted less x r
  end.

Fixpoint insertion_sort (less : string -> string -> bool) (l : list string)
    : list string :=
  match l with
  | [] => []
  | x :: r => insert_sorted less x (insertion_sort less r)
  end.

(** The names of the enumeration's values, for the text of an error. *)
Definition windows_name (w : Windows) : string :=
  match w with
  | Windows20 => "Windows 2.0" | Windows30 => "Windows 3.0"
  | Windows31 => "Windows 3.1" | WindowsNT351 => "Windows NT 3.51"
  | WindowsNT40 => "Windows NT 4.0" | Windows95 => "Windows 95"
  | Windows98 => "Windows 98" | WindowsME => "Windows ME"
  | Windows2000 => "Windows 2000" | WindowsXP => "Windows XP"
  | Windows2003 => "Windows 2003" | WindowsVista => "Windows Vista"
  | Windows2008 => "Windows 2008" | Windows7 => "Windows 7"
  | Windows2008R2 => "Windows 2008 R2" | Windows8 => "Windows 8"
  | Windows81 => "Windows 8.1" | Windows10 => "Windows 10"
  end.

(** ** Files to run the code on *)

(** A file from its lines, each ended by a newline. *)
Fixpoint unlines (ls : list string) : string :=
  match ls with
  | [] => ""
  | l :: r => l ++ String newline (unlines r)
  end.

(** The line ["name"="value"] of a registry file. *)
Definition value_line (name value : string) : string :=
  quoted name ++ "=" ++ quoted value.

(** The first value listed under the key [k]. *)
Fixpoint lookup {A : Type} (k : string) (m : list (string * A)) : option A :=
  match m with
  | [] => None
  | (k', v) :: r => if String.eqb k k' then Some v else lookup k r
  end.

(** A disk that holds the given files and directories and nothing else. *)
Definition disk (files : list (string * string))
    (dirs : list (string * list string)) : FileSystem :=
  {| ifstream_open := fun p => lookup p files;
     file_test_is_dir := fun p =>
       match lookup p dirs with Some _ => true | None => false end;
     dir_open := fun p => lookup p dirs |}.

(** The files of some bottles. *)
Module Examples.

Definition bottle : string := "/home/user/.winegui/prefixes/Steam".

Definition stamp : string := " 1650000000".

(** A user registry that has no [Version] value under the Wine key. *)
Definition user_reg : list string :=
  [ "WINE REGISTRY Version 2";
    "#arch=win64";
    "";
    "[Software\\Wine\\Drivers]" ++ stamp;
    value_line "Audio" "pulse";
    "" ].

(** A system registry of Windows NT 6.1, build 7601, no product type. *)
Definition system_reg_nt : list string :=
  [ "WINE REGISTRY Version 2";
    "#arch=win64";
    "";
    RegKeyNameNT ++ stamp;
    value_line "CurrentBuild" "7601";
    value_line "CurrentBuildNumber" "7601";
    value_line "CurrentVersion" "6.1";
    "" ].

(** The same with a product type that no entry of the table has. *)
Definition system_reg_lanman : list string :=
  (system_reg_nt
   ++ [ (RegKeyType ++ stamp)%string;
        value_line "ProductType" "LanmanNT";
        "" ])%list.

(** A system registry with the 9x key only, and a two-part version. *)
Definition system_reg_9x : list string :=
  [ "WINE REGISTRY Version 2";
    "#arch=win32";
    "";
    RegKeyName9x ++ stamp;
    value_line "ProgramFilesDir" "C:\\Program Files";
    value_line "VersionNumber" "4.90";
    "" ].

(** Version 4.0 with the build number of Windows 95 and the product type
    of a workstation. *)
Definition system_reg_nt4 : list string :=
  [ (RegKeyNameNT ++ stamp)%string;
    value_line "CurrentBuildNumber" "950";
    value_line "CurrentVersion" "4.0";
    "";
    (RegKeyType ++ stamp)%string;
    value_line "ProductType" "WinNT";
    "" ].

Definition bottle_with (system_reg : list string) : FileSystem :=
  disk [ (join_path bottle UserReg, unlines user_reg);
         (join_path bottle SystemReg, unlines system_reg) ]
       [ (bottle, [UserReg; SystemReg]) ].

(** The virtual desktop: its key, then the key of the resolutions. *)
Definition explorer_reg : list string :=
  [ RegKeyVirtualDesktop ++ stamp;
    value_line "Desktop" "Default";
    "";
    RegKeyVirtualDesktopResolution ++ stamp;
    value_line "Default" "1024x768";
    "" ].

(** The same two sections, the longer key first. *)
Definition desktops_first_reg : list string :=
  [ RegKeyVirtualDesktopResolution ++ stamp;
    value_line "Default" "1024x768";
    "";
    RegKeyVirtualDesktop ++ stamp;
    value_line "Desktop" "Default";
    "" ].

(** The key of the virtual desktop without its closing bracket. *)
Definition open_key : string := "[Software\\Wine\\Explorer".

(** A value with two escaped quotes inside: [say \"hi\"]. *)
Definition greeting : string :=
  "say \" ++ String dquote ("hi\" ++ String dquote "").

Definition shell_reg : list string :=
  [ "[Software\\Classes\\txtfile\\shell\\open\\command]" ++ stamp;
    value_line "Command" greeting;
    "" ].

Definition reg_path : string := "/home/user/.wine/user.reg".

Definition one_file (lines : list string) : FileSystem :=
  disk [ (reg_path, unlines lines) ] [].

Definition empty_disk : FileSystem := disk [] [].

(** A directory of bottles, with a file among them, and the default
    bottle beside it. *)
Definition prefixes : string := "/home/user/.winegui/prefixes".
Definition default_bottle : string := "/home/user/.wine".

Definition bottles_disk : FileSystem :=
  disk []
       [ (prefixes, ["Zeta"; "notes.txt"; "alpha"; "Beta"]);
         (join_path prefixes "Zeta", []);
         (join_path prefixes "alpha", []);
         (join_path prefixes "Beta", []);
         (default_bottle, []) ].

End Examples.

(** More files of bottles. *)
Module MoreExamples.

(** The menu files of a bottle: a desktop file, a menu file, and a link
    outside the start menu. *)
Definition menu_reg : list string :=
  [ "WINE REGISTRY Version 2";
    "#arch=win64";
    "";
    RegKeyMenuFiles ++ Examples.stamp;
    "#time=1d8a0b0c0d0e0f0";
    value_line "/home/user/.local/share/applications/wine/Programs/Notepad.desktop"
      "C:\\users\\Public\\Start Menu\\Programs\\Notepad.lnk";
    value_line "/home/user/.config/menus/applications-merged/wine-Programs-Notepad.menu"
      "C:\\users\\Public\\Start Menu\\Programs\\Notepad.lnk";
    value_line "/home/user/Desktop/Notepad.desktop"
      "C:\\users\\Public\\Desktop\\Notepad.lnk";
    "" ].

Definition menu_bottle : FileSystem :=
  disk [ (join_path Examples.bottle UserReg, unlines menu_reg) ] [].

(** A bottle with its directories, and the 9x system registry. *)
Definition old_bottle : FileSystem :=
  disk [ (join_path Examples.bottle UserReg, unlines Examples.user_reg);
         (join_path Examples.bottle SystemReg, unlines Examples.system_reg_9x) ]
       [ (Examples.bottle, ["dosdevices"; UserReg; SystemReg]);
         (join_path Examples.bottle "dosdevices", ["c:"; "z:"]) ].

(** The same directories with the NT system registry. *)
Definition nt_bottle : FileSystem :=
  disk [ (join_path Examples.bottle UserReg, unlines Examples.user_reg);
         (join_path Examples.bottle SystemReg, unlines Examples.system_reg_nt) ]
       [ (Examples.bottle, ["dosdevices"; UserReg; SystemReg]);
         (join_path Examples.bottle "dosdevices", ["c:"; "z:"]) ].

(** The regular files of these bottles. *)
Definition is_registry_file (path : string) : bool :=
  String.eqb path (join_path Examples.bottle UserReg)
  || String.eqb path (join_path Examples.bottle SystemReg).

(** A user registry that names Windows 7, in a bottle with no system
    registry. *)
Definition user_reg_win7 : list string :=
  [ "WINE REGISTRY Version 2";
    "#arch=win32";
    "";
    RegKeyWine ++ Examples.stamp;
    "#time=1d8a0b0c0d0e0f0";
    value_line "Version" "win7";
    "" ].

Definition win7_bottle : FileSystem :=
  disk [ (join_path Examples.bottle UserReg, unlines user_reg_win7) ] [].

(** System registries: a build of version 10.0 that the table does not
    have, one without any version key, and Windows 98. *)
Definition system_reg_new_build : list string :=
  [ (RegKeyNameNT ++ Examples.stamp)%string;
    value_line "CurrentBuildNumber" "19044";
    value_line "CurrentVersion" "10.0";
    "" ].

Definition system_reg_no_version : list string :=
  [ "WINE REGISTRY Version 2";
    "#arch=win64";
    "" ].

Definition system_reg_win98 : list string :=
  [ (RegKeyName9x ++ Examples.stamp)%string;
    value_line "VersionNumber" "4.10.2222";
    "" ].

(** The uninstall keys of two programs with names that begin alike. *)
Definition uninstall_reg : list string :=
  [ (uninstall_key "7-Zip Extra]" ++ Examples.stamp)%string;
    value_line "DisplayName" "7-Zip Extra 9.20";
    "";
    (uninstall_key "7-Zip]" ++ Examples.stamp)%string;
    value_line "DisplayIcon" "C:\\Program Files\\7-Zip\\7zFM.exe";
    value_line "DisplayName" "7-Zip 21.07 (x64)";
    "" ].

Definition uninstall_bottle : FileSystem :=
  disk [ (join_path Examples.bottle SystemReg, unlines uninstall_reg) ] [].

(** A key with a value that holds an equals sign, and one with two. *)
Definition run_reg : list string :=
  [ ("[Software\\Microsoft\\Windows\\CurrentVersion\\Run]"
     ++ Examples.stamp)%string;
    value_line "Updater" "C:\\updater.exe /mode=quiet";
    value_line "Tray" "tray.exe";
    value_line "Sync" "sync.exe /from=a /to=b";
    "" ].

(** A shell that knows a wine of version 7.0-rc1 and no wine64. *)
Definition shell (command : string) : result string :=
  if String.eqb command "wine --version"
  then Ok ("wine-7.0-rc1 (Staging)" ++ String newline "")
  else if String.eqb command (command_v "wine")
  then Ok ("0" ++ String newline "")
  else if String.eqb command (command_v "wine64")
  then Ok ("127" ++ String newline "")
  else if String.eqb command "wine64 --version"
  then Ok ""
  else Throw (runtime_error "popen() failed!").

End MoreExamples.

(** * Properties *)

(** ** Strings *)

Lemma prefix_append (p s : string) : String.prefix p (p ++ s) = true.
Proof.
  induction p as [|c p IH]; simpl.
  - now destruct s.
  - destruct (ascii_dec c c) as [_|ne]; [exact IH | now elim ne].
Qed.

Lemma prefix_inv (p s : string) :
  String.prefix p s = true -> exists suffix, s = p ++ suffix.
Proof.
  revert s; induction p as [|c p IH]; intros s H.
  - now exists s.
  - destruct s as [|d s]; simpl in H; [discriminate|].
    destruct (ascii_dec c d) as [->|]; [|discriminate].
    destruct (IH _ H) as [suffix ->]. now exists suffix.
Qed.

Lemma find_at_start (pat s : string) :
  String.prefix pat s = true -> find pat s = Some 0.
Proof. intros H. destruct s; cbn [find]; rewrite H; reflexivity. Qed.

Lemma substr_append (p s : string) : substr (String.length p) (p ++ s) = s.
Proof. induction p as [|c p IH]; simpl; [now destruct s | exact IH]. Qed.

Lemma erase_remove_append (c : ascii) (s t : string) :
  erase_remove c (s ++ t) = erase_remove c s ++ erase_remove c t.
Proof.
  induction s as [|d s IH]; simpl; [reflexivity|].
  destruct (Ascii.eqb d c); simpl; now rewrite IH.
Qed.

Lemma erase_remove_absent (c : ascii) (s : string) :
  ~ In c (list_ascii_of_string s) -> erase_remove c s = s.
Proof.
  induction s as [|d s IH]; simpl; intros H; [reflexivity|].
  destruct (Ascii.eqb_spec d c) as [->|_].
  - elim H. now left.
  - f_equal. apply IH. intros i. apply H. now right.
Qed.

Lemma append_empty_r (s : string) : s ++ "" = s.
Proof. induction s as [|c s IH]; simpl; [reflexivity | now rewrite IH]. Qed.

Lemma append_assoc (s t u : string) : (s ++ t) ++ u = s ++ (t ++ u).
Proof. induction s as [|c s IH]; simpl; [reflexivity | now rewrite IH]. Qed.

Lemma erase_remove_quoted (s : string) :
  erase_remove dquote (quoted s) = erase_remove dquote s.
Proof.
  unfold quoted. cbn [erase_remove]. rewrite Ascii.eqb_refl.
  rewrite erase_remove_append. cbn [erase_remove]. rewrite Ascii.eqb_refl.
  apply append_empty_r.
Qed.

Lemma value_line_pattern (name value : string) :
  value_line name value = value_pattern_of name ++ quoted value.
Proof.
  unfold value_line, value_pattern_of, quoted. simpl. f_equal.
  rewrite !append_assoc. reflexivity.
Qed.

(** A file written line by line, each line ended by a newline, is read
    back as these lines, none of them with the end-of-file bit. *)
Lemma getlines_line (l rest : string) :
  ~ In newline (list_ascii_of_string l) ->
  getlines (l ++ String newline rest) = (l, false) :: getlines rest.
Proof.
  induction l as [|c l IH]; simpl; intros Hl.
  - reflexivity.
  - destruct (Ascii.eqb_spec c newline) as [->|_]; [elim Hl; now left|].
    rewrite IH by (intros Hin; apply Hl; now right). reflexivity.
Qed.

Lemma getlines_unlines (ls : list string) :
  Forall (fun l => ~ In newline (list_ascii_of_string l)) ls ->
  getlines (unlines ls) = map (fun l => (l, false)) ls.
Proof.
  induction 1 as [|l ls Hl _ IH]; simpl; [reflexivity|].
  now rewrite getlines_line, IH.
Qed.

(** ** The loops of the registry reader *)

(** No line of [lines] starts with [key_name]. *)
Definition no_header (key_name : string) (lines : list (string * bool)) : Prop :=
  Forall (fun l => starts_with key_name (fst l) = false) lines.

(** No line of [lines] contains [pattern]. *)
Definition no_occurrence (pattern : string) (lines : list (string * bool)) : Prop :=
  Forall (fun l => find pattern (fst l) = None) lines.

Section ReaderLoops.

Variables key_name pattern : string.

Lemma value_loop_before_header pre rest :
  no_header key_name pre ->
  get_reg_value_loop key_name pattern false (pre ++ rest)
  = get_reg_value_loop key_name pattern false rest.
Proof.
  induction 1 as [|[l e] pre Hl _ IH]; simpl; [reflexivity|].
  simpl in Hl. now rewrite Hl.
Qed.

Lemma value_loop_after_header skipped rest :
  no_occurrence pattern skipped ->
  get_reg_value_loop key_name pattern true (skipped ++ rest)
  = get_reg_value_loop key_name pattern true rest.
Proof.
  induction 1 as [|[l e] skipped Hl _ IH]; simpl; [reflexivity|].
  simpl in Hl. now rewrite Hl.
Qed.

Lemma value_loop_header pre hdr eh rest :
  no_header key_name pre -> starts_with key_name hdr = true ->
  get_reg_value_loop key_name pattern false (pre ++ (hdr, eh) :: rest)
  = get_reg_value_loop key_name pattern true rest.
Proof.
  intros Hpre Hhdr. rewrite value_loop_before_header by assumption.
  simpl. now rewrite Hhdr.
Qed.

Lemma value_loop_absent rest :
  no_occurrence pattern rest ->
  get_reg_value_loop key_name pattern true rest = "".
Proof.
  intros H. rewrite <- (app_nil_r rest).
  now rewrite value_loop_after_header.
Qed.

Lemma value_loop_found skipped line el post pos :
  no_occurrence pattern skipped -> find pattern line = Some pos ->
  get_reg_value_loop key_name pattern true (skipped ++ (line, el) :: post)
  = erase_remove dquote (substr (pos + String.length pattern) line).
Proof.
  intros Hs Hf. rewrite value_loop_after_header by assumption.
  simpl. now rewrite Hf.
Qed.

Lemma keys_loop_header pre hdr eh rest :
  no_header key_name pre -> starts_with key_name hdr = true ->
  get_reg_keys_loop key_name false (pre ++ (hdr, eh) :: rest)
  = get_reg_keys_loop key_name true rest.
Proof.
  intros Hpre Hhdr.
  induction Hpre as [|[l e] pre Hl _ IH]; simpl.
  - now rewrite Hhdr.
  - simpl in Hl. now rewrite Hl.
Qed.

Lemma keys_loop_no_header lines :
  no_header key_name lines -> get_reg_keys_loop key_name false lines = [].
Proof.
  induction 1 as [|[l e] pre Hl _ IH]; simpl; [reflexivity|].
  simpl in Hl. now rewrite Hl.
Qed.

Variables key_value_filter key_name_ignore_filter : string.

Lemma data_loop_header pre hdr eh rest :
  no_header key_name pre -> starts_with key_name hdr = true ->
  get_reg_keys_data_loop key_name key_value_filter key_name_ignore_filter
    false (pre ++ (hdr, eh) :: rest)
  = get_reg_keys_data_loop key_name key_value_filter key_name_ignore_filter
      true rest.
Proof.
  intros Hpre Hhdr.
  induction Hpre as [|[l e] pre Hl _ IH]; simpl.
  - now rewrite Hhdr.
  - simpl in Hl. now rewrite Hl.
Qed.

Lemma data_loop_no_header lines :
  no_header key_name lines ->
  get_reg_keys_data_loop key_name key_value_filter key_name_ignore_filter
    false lines = [].
Proof.
  induction 1 as [|[l e] pre Hl _ IH]; simpl; [reflexivity|].
  simpl in Hl. now rewrite Hl.
Qed.

End ReaderLoops.

Lemma value_loop_no_header key_name pattern lines :
  no_header key_name lines ->
  get_reg_value_loop key_name pattern false lines = "".
Proof.
  intros H. rewrite <- (app_nil_r lines).
  now rewrite value_loop_before_header.
Qed.

Lemma meta_loop_absent pattern lines :
  no_occurrence pattern lines -> get_reg_meta_data_loop pattern lines = "".
Proof.
  induction 1 as [|[l e] rest Hl _ IH]; simpl; [reflexivity|].
  simpl in Hl. now rewrite Hl.
Qed.

(** ** The escape decoder on the escapes of the specification *)

Lemma unescape_from_after_plain (a b : string) :
  free_of backslash a -> free_of NUL a ->
  unescape_from (a ++ b) = a ++ unescape_from b.
Proof.
  unfold free_of.
  induction a as [|c a IH]; intros Hbs Hnul; [reflexivity|].
  cbn [append unescape_from].
  destruct (Ascii.eqb_spec c NUL) as [->|_]; [elim Hnul; now left|].
  destruct (Ascii.eqb_spec c backslash) as [->|_]; [elim Hbs; now left|].
  rewrite IH; [reflexivity| |]; intros H; [apply Hbs | apply Hnul]; now right.
Qed.

Lemma isxdigit_digits (c : ascii) :
  isxdigit c = true ->
  In c (list_ascii_of_string "0123456789abcdefABCDEF").
Proof.
  destruct c as [[] [] [] [] [] [] [] []]; intros H;
    try (vm_compute in H; discriminate H); simpl; auto 30.
Qed.

Lemma is_octal_digits (c : ascii) :
  is_octal c = true -> In c (list_ascii_of_string "01234567").
Proof.
  destruct c as [[] [] [] [] [] [] [] []]; intros H;
    try (vm_compute in H; discriminate H); simpl; auto 30.
Qed.

Lemma not_in_cons {A : Type} (x y : A) (l : list A) :
  ~ In x (y :: l) -> y <> x /\ ~ In x l.
Proof. intros H. split; intros H'; apply H; [now left | now right]. Qed.

(** After the escape x41 the decoder goes on with [rest] when [rest] does
    not begin with one more hexadecimal digit. *)
Lemma unescape_from_x41 (rest : string) :
  isxdigit (deref rest) = false ->
  unescape_from ("\x41" ++ rest) = "A" ++ unescape_from rest.
Proof.
  intros Hx.
  change (unescape_from ("\x41" ++ rest))
    with (wchar_to_utf8 (hex_digit (hex_digit 65 rest) (skip_if isxdigit rest))
          ++ unescape_from (skip_if isxdigit (skip_if isxdigit rest))).
  unfold hex_digit, skip_if. repeat (rewrite Hx; cbv iota). reflexivity.
Qed.

(** An escape the decoder has no case for. *)
Lemma unescape_from_unrecognized (d : ascii) (rest : string) :
  d <> NUL ->
  ~ In d (list_ascii_of_string "abefnrtvx01234567") ->
  unescape_from (String backslash (String d rest))
  = String d (unescape_from rest).
Proof.
  intros Hnul Hd. cbn [list_ascii_of_string] in Hd.
  repeat (apply not_in_cons in Hd; destruct Hd as [? Hd]).
  assert (Ho : is_octal d = false).
  { destruct (is_octal d) eqn:Ho; [|reflexivity].
    apply is_octal_digits in Ho. cbn [list_ascii_of_string In] in Ho.
    intuition congruence. }
  cbn [unescape_from deref next].
  change (Ascii.eqb backslash NUL) with false.
  change (Ascii.eqb backslash backslash) with true. cbv iota.
  repeat match goal with
         | |- context [Ascii.eqb d ?c] =>
             destruct (Ascii.eqb_spec d c) as [->|_]; [congruence|]
         end.
  now rewrite Ho.
Qed.

(** C6: wherever they stand in a text, after text [before] without escapes
    and before any text [rest], the decoder turns backslash-n into a newline
    and backslash-t into a tab, the octal escape 101 into the letter A, the
    hexadecimal escape x41 into the letter A when no further hexadecimal
    digit follows it, and an escape it has no case for, such as backslash-q,
    into the character after the backslash; it then goes on with [rest]. *)
Theorem unescape_known_escapes :
  forall before rest : string,
    free_of backslash before -> free_of NUL before ->
    unescape_reg_key_data (before ++ "\n" ++ rest)
    = before ++ String newline (unescape_reg_key_data rest)
    /\ unescape_reg_key_data (before ++ "\t" ++ rest)
       = before ++ String "009" (unescape_reg_key_data rest)
    /\ ((forall c r, rest = String c r ->
           ~ In c (list_ascii_of_string "0123456789abcdefABCDEF")) ->
        unescape_reg_key_data (before ++ "\x41" ++ rest)
        = before ++ "A" ++ unescape_reg_key_data rest)
    /\ unescape_reg_key_data (before ++ "\101" ++ rest)
       = before ++ "A" ++ unescape_reg_key_data rest
    /\ (forall d : ascii,
          d <> NUL ->
          ~ In d (list_ascii_of_string "abefnrtvx01234567") ->
          unescape_reg_key_data (before ++ String backslash (String d rest))
          = before ++ String d (unescape_reg_key_data rest)).
Proof.
  intros before rest Hbs Hnul. unfold unescape_reg_key_data.
  assert (Hplain : forall b, unescape_from (before ++ b)
                             = before ++ unescape_from b)
    by (intros b; now apply unescape_from_after_plain).
  split; [now rewrite Hplain|]. split; [now rewrite Hplain|].
  split; [|split; [now rewrite Hplain|]].
  - intros Hrest. rewrite Hplain. f_equal. apply unescape_from_x41.
    destruct rest as [|c r]; [reflexivity|]. cbn [deref].
    destruct (isxdigit c) eqn:Hc; [|reflexivity].
    elim (Hrest c r eq_refl). now apply isxdigit_digits.
  - intros d Hd0 Hd. rewrite Hplain. f_equal.
    now apply unescape_from_unrecognized.
Qed.

Lemma unescape_known_escapes_witness :
  unescape_reg_key_data "a\nb" = String "a" (String newline "b")
  /\ unescape_reg_key_data "a\tb" = String "a" (String "009" "b")
  /\ unescape_reg_key_data "a\x41b" = String "a" (String "208" (String "155" ""))
  /\ unescape_reg_key_data "a\x41 b" = "aA b"
  /\ unescape_reg_key_data "a\101b" = "aAb"
  /\ unescape_reg_key_data "a\qb" = "aqb"
  /\ unescape_reg_key_data "a\zb" = "azb".
Proof.
  assert (Hbs : free_of backslash "a") by (intros [H|[]]; discriminate H).
  assert (Hnul : free_of NUL "a") by (intros [H|[]]; discriminate H).
  destruct (unescape_known_escapes "a" "b" Hbs Hnul) as (Hn & Ht & _ & Ho & Hd).
  destruct (unescape_known_escapes "a" " b" Hbs Hnul) as (_ & _ & Hx & _ & _).
  split; [exact Hn|]. split; [exact Ht|]. split; [reflexivity|].
  split.
  - apply Hx. intros c r H. injection H as <- _.
    intros Hin; simpl in Hin;
      repeat (destruct Hin as [Hin|Hin]; [discriminate Hin|]); exact Hin.
  - split; [exact Ho|].
    split; apply Hd; try discriminate;
      intros Hin; simpl in Hin;
      repeat (destruct Hin as [Hin|Hin]; [discriminate Hin|]); exact Hin.
Defined.

(** The escapes of the specification, each as a whole text. *)
Example unescape_escapes_alone :
  unescape_reg_key_data "\n" = String newline ""
  /\ unescape_reg_key_data "\t" = String "009" ""
  /\ unescape_reg_key_data "\x41" = "A"
  /\ unescape_reg_key_data "\101" = "A"
  /\ unescape_reg_key_data "\q" = "q".
Proof. repeat split; reflexivity. Qed.

(** ** The registry reader *)

(** Solves a statement about every line of a file that is given in full. *)
Ltac each_line := vm_compute; repeat (constructor; try reflexivity).

Lemma find_in_empty (value_name : string) :
  find (value_pattern_of value_name) "" = None.
Proof. reflexivity. Qed.

(** C4 (amended): in a file that opens, let [hdr] be the first line that
    starts with the key.  If the first line after it that contains the
    pattern is the line of [value_name] with the value [value], then
    [get_reg_value] returns [value] with every double quote removed, which is
    [value] itself when it holds no double quote; and if no line after [hdr]
    contains the pattern it returns the empty string, not an error. *)
Theorem get_reg_value_after_header :
  forall (fs : FileSystem) (file_path key_name value_name content : string)
         (pre : list (string * bool)) (hdr : string) (eh : bool)
         (rest : list (string * bool)),
    ifstream_open fs file_path = Some content ->
    getlines content = (pre ++ (hdr, eh) :: rest)%list ->
    no_header key_name pre ->
    starts_with key_name hdr = true ->
    (forall skipped value el post,
        rest = (skipped ++ (value_line value_name value, el) :: post)%list ->
        no_occurrence (value_pattern_of value_name) skipped ->
        get_reg_value fs file_path key_name value_name
        = Ok (erase_remove dquote value)
        /\ (~ In dquote (list_ascii_of_string value) ->
            get_reg_value fs file_path key_name value_name = Ok value))
    /\ (no_occurrence (value_pattern_of value_name) rest ->
        get_reg_value fs file_path key_name value_name = Ok "").
Proof.
  intros fs file_path key_name value_name content pre hdr eh rest
         Hopen Hlines Hpre Hhdr.
  unfold get_reg_value. rewrite Hopen, Hlines.
  rewrite value_loop_header by assumption.
  split.
  - intros skipped value el post -> Hskipped.
    assert (Hres : get_reg_value_loop key_name (value_pattern_of value_name) true
                     (skipped ++ (value_line value_name value, el) :: post)
                   = erase_remove dquote value).
    { rewrite value_loop_found with (pos := 0) by
        (try assumption; apply find_at_start; rewrite value_line_pattern;
         apply prefix_append).
      rewrite value_line_pattern, Nat.add_0_l, substr_append.
      apply erase_remove_quoted. }
    rewrite Hres. split; [reflexivity|].
    intros Hq. now rewrite erase_remove_absent.
  - intros Habsent. now rewrite value_loop_absent.
Qed.

Lemma get_reg_value_after_header_witness :
  get_reg_value (Examples.one_file Examples.explorer_reg) Examples.reg_path
    RegKeyVirtualDesktop "Desktop" = Ok "Default"
  /\ get_reg_value (Examples.one_file Examples.explorer_reg) Examples.reg_path
       RegKeyVirtualDesktop "Resolution" = Ok "".
Proof.
  pose proof (get_reg_value_after_header
                (Examples.one_file Examples.explorer_reg) Examples.reg_path
                RegKeyVirtualDesktop "Desktop"
                (unlines Examples.explorer_reg) []
                (RegKeyVirtualDesktop ++ Examples.stamp) false
                (tl (getlines (unlines Examples.explorer_reg)))
                eq_refl eq_refl (Forall_nil _) eq_refl) as [Hfound _].
  pose proof (get_reg_value_after_header
                (Examples.one_file Examples.explorer_reg) Examples.reg_path
                RegKeyVirtualDesktop "Resolution"
                (unlines Examples.explorer_reg) []
                (RegKeyVirtualDesktop ++ Examples.stamp) false
                (tl (getlines (unlines Examples.explorer_reg)))
                eq_refl eq_refl (Forall_nil _) eq_refl) as [_ Habsent].
  split.
  - refine (proj2 (Hfound [] "Default" false
                     (tl (tl (getlines (unlines Examples.explorer_reg))))
                     eq_refl (Forall_nil _)) _).
    vm_compute. intros [H|[H|[H|[H|[H|[H|[H|[]]]]]]]]; discriminate H.
  - apply Habsent. each_line.
Defined.

(** C4, as stated, fails on a value that holds escaped quotes: the line gives
    the value [say \"hi\"], and [get_reg_value] returns [say \hi\], the
    interior of the value without its quotes. *)
Lemma get_reg_value_interior_quotes :
  map fst (getlines (unlines Examples.shell_reg)) = Examples.shell_reg
  /\ nth_error Examples.shell_reg 1
     = Some (value_line "Command" Examples.greeting)
  /\ get_reg_value (Examples.one_file Examples.shell_reg) Examples.reg_path
       "[Software\\Classes\\txtfile\\shell\\open\\command]" "Command"
     = Ok "say \hi\"
  /\ get_reg_value (Examples.one_file Examples.shell_reg) Examples.reg_path
       "[Software\\Classes\\txtfile\\shell\\open\\command]" "Command"
     <> Ok Examples.greeting.
Proof.
  repeat split; try reflexivity.
  vm_compute. discriminate.
Qed.

(** C5 (amended): when the file cannot be opened, every operation of the
    reader throws a [std::runtime_error] whose text is the fixed message
    [Could not open registry file!], the same for every path; when the file
    opens and no line starts with the key, or no line after the header (for
    the meta data: no line at all) contains the pattern, the result is empty
    and nothing is thrown. *)
Theorem registry_reader_failures :
  forall (fs : FileSystem)
         (file_path key_name value_name key_value_filter ignore_filter : string),
    (ifstream_open fs file_path = None ->
     get_reg_value fs file_path key_name value_name
     = Throw (runtime_error "Could not open registry file!")
     /\ get_reg_keys fs file_path key_name
        = Throw (runtime_error "Could not open registry file!")
     /\ get_reg_keys_data_filter_ignore fs file_path key_name key_value_filter
          ignore_filter
        = Throw (runtime_error "Could not open registry file!")
     /\ get_reg_meta_data fs file_path value_name
        = Throw (runtime_error "Could not open registry file!"))
    /\ (forall content : string,
         ifstream_open fs file_path = Some content ->
         (no_header key_name (getlines content) ->
          get_reg_value fs file_path key_name value_name = Ok ""
          /\ get_reg_keys fs file_path key_name = Ok []
          /\ get_reg_keys_data_filter_ignore fs file_path key_name
               key_value_filter ignore_filter = Ok [])
         /\ (forall pre hdr eh rest,
              getlines content = (pre ++ (hdr, eh) :: rest)%list ->
              no_header key_name pre ->
              starts_with key_name hdr = true ->
              no_occurrence (value_pattern_of value_name) rest ->
              get_reg_value fs file_path key_name value_name = Ok "")
         /\ (no_occurrence (meta_pattern_of value_name) (getlines content) ->
             get_reg_meta_data fs file_path value_name = Ok "")).
Proof.
  intros fs file_path key_name value_name key_value_filter ignore_filter.
  unfold get_reg_value, get_reg_keys, get_reg_keys_data_filter_ignore,
    get_reg_meta_data.
  split.
  - intros ->. repeat split.
  - intros content ->. repeat split.
    + now rewrite value_loop_no_header.
    + now rewrite keys_loop_no_header.
    + now rewrite data_loop_no_header.
    + intros pre hdr eh rest -> Hpre Hhdr Habsent.
      rewrite value_loop_header by assumption.
      now rewrite value_loop_absent.
    + intros Habsent. now rewrite meta_loop_absent.
Qed.

Lemma registry_reader_failures_witness :
  get_reg_meta_data Examples.empty_disk Examples.reg_path "arch"
  = Throw (runtime_error "Could not open registry file!")
  /\ get_reg_keys (Examples.one_file Examples.explorer_reg) Examples.reg_path
       RegKeyWine = Ok [].
Proof.
  split.
  - apply (registry_reader_failures Examples.empty_disk Examples.reg_path
             RegKeyWine "arch" "" ""). reflexivity.
  - pose proof (proj2 (registry_reader_failures
                         (Examples.one_file Examples.explorer_reg)
                         Examples.reg_path RegKeyWine "Version" "" "")
                      (unlines Examples.explorer_reg) eq_refl)
      as (Hnokey & _ & _).
    destruct Hnokey as (_ & Hkeys & _); [each_line | exact Hkeys].
Defined.

(** C5, as stated, fails: the message of the error is the same text for
    every file and names neither the path nor the file. *)
Lemma could_not_open_names_no_file :
  ifstream_open Examples.empty_disk Examples.reg_path = None
  /\ get_reg_value Examples.empty_disk Examples.reg_path RegKeyWine "Version"
     = Throw (runtime_error could_not_open)
  /\ get_reg_keys Examples.empty_disk Examples.reg_path RegKeyWine
     = Throw (runtime_error could_not_open)
  /\ get_reg_meta_data Examples.empty_disk Examples.reg_path "arch"
     = Throw (runtime_error could_not_open)
  /\ contains Examples.reg_path could_not_open = false
  /\ contains UserReg could_not_open = false.
Proof. repeat split. Qed.

(** C9: once a line has matched the key, the scan goes on past a blank line:
    when no line of the key's section contains the pattern, the value comes
    from the first line after the blank line that contains it, whatever
    section that line belongs to. *)
Theorem get_reg_value_reads_past_blank_line :
  forall (fs : FileSystem) (file_path key_name value_name content : string)
         (pre : list (string * bool)) (hdr : string) (eh : bool)
         (section later : list (string * bool)) (line : string) (el : bool)
         (post : list (string * bool)) (pos : nat),
    ifstream_open fs file_path = Some content ->
    getlines content
    = (pre ++ (hdr, eh) :: section ++ ("", false) :: later
           ++ (line, el) :: post)%list ->
    no_header key_name pre ->
    starts_with key_name hdr = true ->
    no_occurrence (value_pattern_of value_name) section ->
    no_occurrence (value_pattern_of value_name) later ->
    find (value_pattern_of value_name) line = Some pos ->
    get_reg_value fs file_path key_name value_name
    = Ok (erase_remove dquote
            (substr (pos + String.length (value_pattern_of value_name)) line)).
Proof.
  intros fs file_path key_name value_name content pre hdr eh section later
         line el post pos Hopen Hlines Hpre Hhdr Hsection Hlater Hfind.
  unfold get_reg_value. rewrite Hopen, Hlines.
  rewrite value_loop_header by assumption.
  change (section ++ ("", false) :: later ++ (line, el) :: post)%list
    with (section ++ (("", false) :: later) ++ (line, el) :: post)%list.
  rewrite app_assoc.
  rewrite value_loop_found with (pos := pos); [reflexivity | | assumption].
  apply Forall_app. split; [assumption|].
  constructor; [apply find_in_empty | assumption].
Qed.

Lemma get_reg_value_reads_past_blank_line_witness :
  get_reg_value (Examples.one_file Examples.explorer_reg) Examples.reg_path
    RegKeyVirtualDesktop "Default" = Ok "1024x768".
Proof.
  apply (get_reg_value_reads_past_blank_line
           (Examples.one_file Examples.explorer_reg) Examples.reg_path
           RegKeyVirtualDesktop "Default" (unlines Examples.explorer_reg)
           [] (RegKeyVirtualDesktop ++ Examples.stamp) false
           [(value_line "Desktop" "Default", false)]
           [((RegKeyVirtualDesktopResolution ++ Examples.stamp)%string, false)]
           (value_line "Default" "1024x768") false [("", false)] 0).
  - reflexivity.
  - reflexivity.
  - constructor.
  - reflexivity.
  - each_line.
  - each_line.
  - reflexivity.
Defined.

(** C10 (amended): a line is taken for the header of the key when it starts
    with the key string, whatever follows it on the line: the three readers
    then treat the lines after it as the key's.  A key string that ends with
    the closing bracket is no prefix of the header of a longer key, which has
    a backslash at that place. *)
Theorem key_matching_is_by_prefix :
  forall (fs : FileSystem) (file_path key_name suffix content : string)
         (pre : list (string * bool)) (eh : bool) (rest : list (string * bool)),
    ifstream_open fs file_path = Some content ->
    getlines content = (pre ++ ((key_name ++ suffix)%string, eh) :: rest)%list ->
    no_header key_name pre ->
    (forall value_name,
        get_reg_value fs file_path key_name value_name
        = Ok (get_reg_value_loop key_name (value_pattern_of value_name) true rest))
    /\ get_reg_keys fs file_path key_name
       = Ok (get_reg_keys_loop key_name true rest)
    /\ (forall key_value_filter ignore_filter,
           get_reg_keys_data_filter_ignore fs file_path key_name
             key_value_filter ignore_filter
           = Ok (get_reg_keys_data_loop key_name key_value_filter ignore_filter
                   true rest))
    /\ (forall path more : string,
           starts_with (path ++ "]") (path ++ "\" ++ more) = false).
Proof.
  intros fs file_path key_name suffix content pre eh rest Hopen Hlines Hpre.
  unfold get_reg_value, get_reg_keys, get_reg_keys_data_filter_ignore.
  rewrite Hopen, Hlines.
  assert (Hhdr : starts_with key_name (key_name ++ suffix) = true)
    by apply prefix_append.
  repeat split.
  - intros value_name. now rewrite value_loop_header.
  - now rewrite keys_loop_header.
  - intros f i. now rewrite data_loop_header.
  - intros path more. unfold starts_with.
    induction path as [|c path IH]; simpl; [reflexivity|].
    destruct (ascii_dec c c) as [_|ne]; [exact IH | now elim ne].
Qed.

Lemma key_matching_is_by_prefix_witness :
  get_reg_keys (Examples.one_file Examples.desktops_first_reg)
    Examples.reg_path Examples.open_key
  = Ok [value_line "Default" "1024x768"]
  /\ get_reg_value (Examples.one_file Examples.desktops_first_reg)
       Examples.reg_path Examples.open_key "Default" = Ok "1024x768".
Proof.
  pose proof (key_matching_is_by_prefix
                (Examples.one_file Examples.desktops_first_reg)
                Examples.reg_path Examples.open_key
                ("\\Desktops]" ++ Examples.stamp)
                (unlines Examples.desktops_first_reg) [] false
                (tl (getlines (unlines Examples.desktops_first_reg)))
                eq_refl eq_refl (Forall_nil _)) as (Hvalue & Hkeys & _).
  split.
  - exact Hkeys.
  - exact (Hvalue "Default").
Defined.

(** C10, as stated, fails: the key [[Software\\Wine\\Explorer]] with its
    closing bracket does not match the header of
    [[Software\\Wine\\Explorer\\Desktops]] that stands first in the file; the
    readers go on to the header of the key itself. *)
Lemma bracketed_key_skips_longer_header :
  map fst (getlines (unlines Examples.desktops_first_reg))
  = Examples.desktops_first_reg
  /\ starts_with RegKeyVirtualDesktop
       (RegKeyVirtualDesktopResolution ++ Examples.stamp) = false
  /\ get_reg_keys (Examples.one_file Examples.desktops_first_reg)
       Examples.reg_path RegKeyVirtualDesktop
     = Ok [value_line "Desktop" "Default"]
  /\ get_reg_keys_data_filter_ignore
       (Examples.one_file Examples.desktops_first_reg)
       Examples.reg_path RegKeyVirtualDesktop "" ""
     = Ok ["Default"]
  /\ get_reg_value (Examples.one_file Examples.desktops_first_reg)
       Examples.reg_path RegKeyVirtualDesktop "Default" = Ok "".
Proof. repeat split. Qed.

(** ** The version resolver *)

Section ResolverFacts.

Variable build_filename : string -> string -> string.
Variable WindowsEnumSize : nat.
Variable to_string : Windows -> string.
Variable WindowsOs : Windows.

(** With a product type from the registry, the first loop returns only an
    entry that matches all three strings. *)
Lemma nt_build_loop_none version_nt build_number_nt type_nt tbl :
  type_nt <> "" ->
  (forall e, In e tbl ->
     ~ (versionNumber e = version_nt /\ buildNumber e = build_number_nt
        /\ productType e = type_nt)) ->
  nt_build_loop version_nt build_number_nt type_nt tbl = None.
Proof.
  intros Ht. induction tbl as [|e tbl IH]; intros Hno; simpl; [reflexivity|].
  rewrite IH by (intros e' He'; apply Hno; now right).
  destruct (String.eqb_spec (versionNumber e) version_nt) as [Hv|_];
    [|reflexivity].
  destruct (String.eqb_spec (buildNumber e) build_number_nt) as [Hb|_];
    [|reflexivity].
  destruct type_nt as [|c t]; [now elim Ht|]. simpl.
  destruct (String.eqb_spec (productType e) (String c t)) as [Hp|_];
    [|reflexivity].
  elim (Hno e (or_introl eq_refl)). auto.
Qed.

(** With a product type from the registry, the second loop returns the
    first entry that matches version number and product type. *)
Lemma nt_version_loop_find version_nt type_nt tbl :
  type_nt <> "" ->
  nt_version_loop version_nt type_nt tbl
  = option_map windows
      (List.find (fun e => String.eqb (versionNumber e) version_nt
                           && String.eqb (productType e) type_nt) tbl).
Proof.
  intros Ht. induction tbl as [|e tbl IH]; simpl; [reflexivity|].
  rewrite IH.
  destruct (String.eqb (versionNumber e) version_nt); [|reflexivity].
  destruct type_nt as [|c t]; [now elim Ht|]. simpl.
  now destruct (String.eqb (productType e) (String c t)).
Qed.

Lemma empty_false (s : string) : s <> "" -> empty s = false.
Proof. destruct s; [intros H; now elim H | reflexivity]. Qed.

(** C1 (amended): for a bottle whose user registry has no Wine [Version]
    value and whose system registry reports version 6.1 and build number
    7601 with no product type, the resolver returns Windows2008R2, the
    first entry of the table with that version and build number. *)
Theorem nt_6_1_build_7601_is_windows2008r2 :
  forall (fs : FileSystem) (prefix_path : string),
    4 <= WindowsEnumSize <= List.length WindowsVersions ->
    get_reg_value fs (build_filename prefix_path UserReg)
      RegKeyWine RegNameWindowsVersion = Ok "" ->
    get_reg_value fs (build_filename prefix_path SystemReg)
      RegKeyNameNT RegNameNTVersion = Ok "6.1" ->
    get_reg_value fs (build_filename prefix_path SystemReg)
      RegKeyNameNT RegNameNTBuildNumber = Ok "7601" ->
    get_reg_value fs (build_filename prefix_path SystemReg)
      RegKeyType RegNameProductType = Ok "" ->
    get_windows_version build_filename WindowsEnumSize to_string WindowsOs
      fs prefix_path = Ok Windows2008R2.
Proof.
  intros fs prefix_path [Hsize _] Huser Hversion Hbuild Htype.
  unfold get_windows_version, system_registry.
  rewrite Huser. cbn [bind empty negb].
  rewrite Hversion. cbn [bind empty negb].
  rewrite Hbuild, Htype. cbn [bind].
  unfold visited. revert Hsize. generalize WindowsEnumSize as n.
  intros n Hsize. do 4 (destruct n as [|n]; [lia|]).
  reflexivity.
Qed.

(** C2 (amended): in the NT branch, when the registry gives a product type
    and no visited entry matches version number, build number and product
    type together, the resolver returns the first entry that matches
    version number and product type, and throws the error of an
    undetermined version when there is none. *)
Theorem nt_product_type_must_match :
  forall (fs : FileSystem) (prefix_path version_nt build_number_nt type_nt
          : string),
    WindowsEnumSize <= List.length WindowsVersions ->
    get_reg_value fs (build_filename prefix_path UserReg)
      RegKeyWine RegNameWindowsVersion = Ok "" ->
    get_reg_value fs (build_filename prefix_path SystemReg)
      RegKeyNameNT RegNameNTVersion = Ok version_nt ->
    version_nt <> "" ->
    get_reg_value fs (build_filename prefix_path SystemReg)
      RegKeyNameNT RegNameNTBuildNumber = Ok build_number_nt ->
    get_reg_value fs (build_filename prefix_path SystemReg)
      RegKeyType RegNameProductType = Ok type_nt ->
    type_nt <> "" ->
    (forall e, In e (visited WindowsEnumSize) ->
       ~ (versionNumber e = version_nt /\ buildNumber e = build_number_nt
          /\ productType e = type_nt)) ->
    get_windows_version build_filename WindowsEnumSize to_string WindowsOs
      fs prefix_path
    = match List.find (fun e => String.eqb (versionNumber e) version_nt
                                && String.eqb (productType e) type_nt)
              (visited WindowsEnumSize) with
      | Some e => Ok (windows e)
      | None =>
          Throw (runtime_error
                   (could_not_determine to_string WindowsOs prefix_path))
      end.
Proof.
  intros fs prefix_path version_nt build_number_nt type_nt
         _ Huser Hversion Hv Hbuild Htype Ht Hno.
  unfold get_windows_version, system_registry.
  rewrite Huser. cbn [bind empty negb].
  rewrite Hversion. cbn [bind]. rewrite (empty_false _ Hv). cbn [negb].
  rewrite Hbuild, Htype. cbn [bind].
  rewrite nt_build_loop_none by assumption.
  rewrite nt_version_loop_find by assumption.
  now destruct (List.find _ _).
Qed.

End ResolverFacts.

Lemma nt_6_1_build_7601_is_windows2008r2_witness :
  get_windows_version join_path 19 windows_name WindowsXP
    (Examples.bottle_with Examples.system_reg_nt) Examples.bottle
  = Ok Windows2008R2.
Proof.
  apply (nt_6_1_build_7601_is_windows2008r2 join_path 19 windows_name WindowsXP
           (Examples.bottle_with Examples.system_reg_nt) Examples.bottle).
  - simpl. lia.
  - reflexivity.
  - reflexivity.
  - reflexivity.
  - reflexivity.
Defined.

(** The registry values of the bottle with the system registry
    [Examples.system_reg_nt], as [get_reg_value] reads them. *)
Lemma system_reg_nt_values :
  let fs := Examples.bottle_with Examples.system_reg_nt in
  get_reg_value fs (join_path Examples.bottle UserReg)
    RegKeyWine RegNameWindowsVersion = Ok ""
  /\ get_reg_value fs (join_path Examples.bottle SystemReg)
       RegKeyNameNT RegNameNTVersion = Ok "6.1"
  /\ get_reg_value fs (join_path Examples.bottle SystemReg)
       RegKeyNameNT RegNameNTBuildNumber = Ok "7601"
  /\ get_reg_value fs (join_path Examples.bottle SystemReg)
       RegKeyType RegNameProductType = Ok "".
Proof. repeat split. Qed.

(** C1, as stated, fails: on a bottle with version 6.1, build number 7601 and
    no product type the resolver does not return Windows7, whatever the
    number of entries [WindowsEnumSize] the loops visit: the entry of
    Windows2008R2 stands before the entry of Windows7 in the table. *)
Lemma windows7_is_not_returned :
  (let fs := Examples.bottle_with Examples.system_reg_nt in
   get_reg_value fs (join_path Examples.bottle UserReg)
     RegKeyWine RegNameWindowsVersion = Ok ""
   /\ get_reg_value fs (join_path Examples.bottle SystemReg)
        RegKeyNameNT RegNameNTVersion = Ok "6.1"
   /\ get_reg_value fs (join_path Examples.bottle SystemReg)
        RegKeyNameNT RegNameNTBuildNumber = Ok "7601"
   /\ get_reg_value fs (join_path Examples.bottle SystemReg)
        RegKeyType RegNameProductType = Ok "")
  /\ get_windows_version join_path (List.length WindowsVersions) windows_name
       WindowsXP (Examples.bottle_with Examples.system_reg_nt) Examples.bottle
     = Ok Windows2008R2
  /\ ~ (exists n : nat,
          get_windows_version join_path n windows_name WindowsXP
            (Examples.bottle_with Examples.system_reg_nt) Examples.bottle
          = Ok Windows7).
Proof.
  split; [exact system_reg_nt_values|]. split; [reflexivity|].
  intros [n H].
  destruct system_reg_nt_values as (Huser & Hversion & Hbuild & Htype).
  unfold get_windows_version, system_registry in H.
  rewrite Huser in H. cbn [bind empty negb] in H.
  rewrite Hversion in H. cbn [bind empty negb] in H.
  rewrite Hbuild, Htype in H. cbn [bind] in H. unfold visited in H.
  do 4 (destruct n as [|n]; [discriminate H|]).
  discriminate H.
Qed.

Lemma nt_product_type_must_match_witness :
  get_windows_version join_path 19 windows_name WindowsXP
    (Examples.bottle_with Examples.system_reg_lanman) Examples.bottle
  = Throw (runtime_error
             (could_not_determine windows_name WindowsXP Examples.bottle))
  /\ get_windows_version join_path 19 windows_name WindowsXP
       (Examples.bottle_with Examples.system_reg_nt4) Examples.bottle
     = Ok WindowsNT40.
Proof.
  split.
  - apply (nt_product_type_must_match join_path 19 windows_name WindowsXP
             (Examples.bottle_with Examples.system_reg_lanman) Examples.bottle
             "6.1" "7601" "LanmanNT");
      try reflexivity; try discriminate; try (simpl; lia).
    intros e He (_ & _ & Ht). vm_compute in He.
    repeat (destruct He as [<-|He]; [discriminate Ht|]). exact He.
  - apply (nt_product_type_must_match join_path 19 windows_name WindowsXP
             (Examples.bottle_with Examples.system_reg_nt4) Examples.bottle
             "4.0" "950" "WinNT");
      try reflexivity; try discriminate; try (simpl; lia).
    intros e He (Hv & Hb & Ht). vm_compute in He.
    repeat (destruct He as [<-|He];
            [discriminate Hv || discriminate Hb || discriminate Ht|]).
    exact He.
Defined.

Lemma visited_in_table (n : nat) (e : WindowsVersionEntry) :
  In e (visited n) -> In e WindowsVersions.
Proof.
  unfold visited. intros He.
  rewrite <- (firstn_skipn n WindowsVersions). apply in_or_app. now left.
Qed.

(** No entry of the table has the product type [LanmanNT]. *)
Lemma no_lanman_entry (n : nat) (e : WindowsVersionEntry) :
  In e (visited n) -> productType e <> "LanmanNT".
Proof.
  intros He. apply visited_in_table in He. vm_compute in He.
  repeat (destruct He as [<-|He]; [discriminate|]). elim He.
Qed.

(** C2, as stated, fails: with version 6.1, build number 7601 and the product
    type [LanmanNT], which no entry has, the first entry that matches version
    and build number is the one of Windows2008R2, and the resolver throws
    instead of returning it, whatever [WindowsEnumSize] is; with version 4.0,
    build number 950 and product type [WinNT] the first such entry is the one
    of Windows95, and the resolver returns WindowsNT40. *)
Lemma first_build_match_is_not_accepted :
  (let fs := Examples.bottle_with Examples.system_reg_lanman in
   get_reg_value fs (join_path Examples.bottle UserReg)
     RegKeyWine RegNameWindowsVersion = Ok ""
   /\ get_reg_value fs (join_path Examples.bottle SystemReg)
        RegKeyNameNT RegNameNTVersion = Ok "6.1"
   /\ get_reg_value fs (join_path Examples.bottle SystemReg)
        RegKeyNameNT RegNameNTBuildNumber = Ok "7601"
   /\ get_reg_value fs (join_path Examples.bottle SystemReg)
        RegKeyType RegNameProductType = Ok "LanmanNT")
  /\ option_map windows
       (List.find (fun e => String.eqb (versionNumber e) "6.1"
                            && String.eqb (buildNumber e) "7601")
          WindowsVersions) = Some Windows2008R2
  /\ (forall n : nat,
         get_windows_version join_path n windows_name WindowsXP
           (Examples.bottle_with Examples.system_reg_lanman) Examples.bottle
         = Throw (runtime_error
                    (could_not_determine windows_name WindowsXP
                       Examples.bottle)))
  /\ option_map windows
       (List.find (fun e => String.eqb (versionNumber e) "4.0"
                            && String.eqb (buildNumber e) "950")
          WindowsVersions) = Some Windows95
  /\ get_windows_version join_path (List.length WindowsVersions) windows_name
       WindowsXP (Examples.bottle_with Examples.system_reg_nt4)
       Examples.bottle = Ok WindowsNT40.
Proof.
  split; [repeat split|]. split; [reflexivity|].
  split; [|split; reflexivity].
  intros n.
  unfold get_windows_version, system_registry.
  change (get_reg_value _ (join_path Examples.bottle UserReg) _ _)
    with (@Ok string "").
  cbn [bind empty negb].
  change (get_reg_value _ _ RegKeyNameNT RegNameNTVersion)
    with (@Ok string "6.1").
  cbn [bind empty negb].
  change (get_reg_value _ _ RegKeyNameNT RegNameNTBuildNumber)
    with (@Ok string "7601").
  change (get_reg_value _ _ RegKeyType RegNameProductType)
    with (@Ok string "LanmanNT").
  cbn [bind].
  rewrite nt_build_loop_none;
    [ | discriminate
      | intros e He (_ & _ & Ht); exact (no_lanman_entry n e He Ht) ].
  rewrite nt_version_loop_find by discriminate.
  destruct (List.find _ _) as [e|] eqn:Hfind; [|reflexivity].
  apply find_some in Hfind. destruct Hfind as [He Hmatch].
  apply andb_prop in Hmatch. destruct Hmatch as [_ Ht].
  apply String.eqb_eq in Ht. elim (no_lanman_entry n e He Ht).
Qed.

(** C3 (the code at the failing input): the 9x key gives the version [4.90],
    which has two parts; the branch asks for a third with [at(2)], and the
    resolver throws [std::out_of_range] instead of returning an entry or the
    default version. *)
Theorem legacy_two_part_version_throws :
  forall (WindowsEnumSize : nat) (to_string : Windows -> string)
         (WindowsOs : Windows),
    get_windows_version join_path WindowsEnumSize to_string WindowsOs
      (Examples.bottle_with Examples.system_reg_9x) Examples.bottle
    = Throw (out_of_range 2 2).
Proof. intros. reflexivity. Qed.

(** The 9x branch throws for every version string with fewer than three
    parts, and returns for every other one. *)
Lemma legacy_branch_needs_three_parts :
  forall (WindowsEnumSize : nat) (WindowsOs : Windows) (version_9x : string),
    (List.length (split version_9x ".") < 3 ->
     exists i, legacy_branch WindowsEnumSize WindowsOs version_9x
               = Throw (out_of_range i (List.length (split version_9x "."))))
    /\ (3 <= List.length (split version_9x ".") ->
        exists w, legacy_branch WindowsEnumSize WindowsOs version_9x = Ok w).
Proof.
  intros n os v. unfold legacy_branch.
  destruct (split v ".") as [|a [|b [|c l]]]; simpl; split; intros H;
    try lia; try (eexists; reflexivity).
  destruct (legacy_loop _ _ _); eexists; reflexivity.
Qed.

(** ** The escape decoder and a backslash at the end *)

Lemma leading_snoc (l : list ascii) (c : ascii) :
  leading_backslashes (l ++ [c])
  = if forallb (fun d => Ascii.eqb d backslash) l && Ascii.eqb c backslash
    then S (List.length l) else leading_backslashes l.
Proof.
  induction l as [|d l IH]; simpl.
  - now destruct (Ascii.eqb c backslash).
  - destruct (Ascii.eqb d backslash); simpl; [|reflexivity].
    rewrite IH. now destruct (forallb _ l && Ascii.eqb c backslash).
Qed.

Lemma all_backslash_forallb (s : string) :
  forallb (fun d => Ascii.eqb d backslash) (rev (list_ascii_of_string s))
  = all_backslash s.
Proof.
  induction s as [|c s IH]; simpl; [reflexivity|].
  rewrite forallb_app, IH. simpl. rewrite andb_true_r. apply andb_comm.
Qed.

Lemma length_list_ascii (s : string) :
  List.length (list_ascii_of_string s) = String.length s.
Proof. induction s; simpl; congruence. Qed.

Lemma trailing_cons (c : ascii) (r : string) :
  trailing_backslashes (String c r)
  = if all_backslash (String c r) then S (String.length r)
    else trailing_backslashes r.
Proof.
  unfold trailing_backslashes. simpl.
  rewrite leading_snoc, all_backslash_forallb, length_rev, length_list_ascii.
  now rewrite andb_comm.
Qed.

Lemma trailing_all (s : string) :
  all_backslash s = true -> trailing_backslashes s = String.length s.
Proof.
  destruct s as [|c r]; [reflexivity|]. intros H.
  rewrite trailing_cons, H. reflexivity.
Qed.

Lemma trailing_skip (c : ascii) (r : string) :
  Ascii.eqb c backslash = false ->
  trailing_backslashes (String c r) = trailing_backslashes r.
Proof. intros H. rewrite trailing_cons. simpl. now rewrite H. Qed.

Lemma trailing_escape (d : ascii) (r : string) :
  Ascii.eqb d backslash = false ->
  trailing_backslashes (String backslash (String d r)) = trailing_backslashes r.
Proof.
  intros H. rewrite trailing_cons. simpl. rewrite H. simpl.
  now apply trailing_skip.
Qed.

Lemma trailing_pair (r : string) :
  Nat.even (trailing_backslashes (String backslash (String backslash r)))
  = Nat.even (trailing_backslashes r).
Proof.
  rewrite trailing_cons. cbn [all_backslash]. rewrite Ascii.eqb_refl.
  cbn [andb]. destruct (all_backslash r) eqn:Hall.
  - rewrite trailing_all by assumption. reflexivity.
  - rewrite trailing_cons. cbn [all_backslash]. rewrite Hall.
    rewrite andb_false_r. reflexivity.
Qed.

Lemma xdigit_not_backslash (c : ascii) :
  isxdigit c = true -> Ascii.eqb c backslash = false.
Proof.
  destruct c as [[] [] [] [] [] [] [] []]; intros H; try reflexivity;
    vm_compute in H; discriminate H.
Qed.

Lemma octal_not_backslash (c : ascii) :
  is_octal c = true -> Ascii.eqb c backslash = false.
Proof.
  destruct c as [[] [] [] [] [] [] [] []]; intros H; try reflexivity;
    vm_compute in H; discriminate H.
Qed.


Section AppendBackslash.

Variable test : ascii -> bool.
Hypothesis test_backslash : test backslash = false.
Hypothesis test_NUL : test NUL = false.

Lemma test_deref_append (p : string) :
  test (deref (p ++ "\")) = test (deref p).
Proof.
  destruct p; [exact (eq_trans test_backslash (eq_sym test_NUL)) | reflexivity].
Qed.

Lemma skip_if_append (p : string) :
  skip_if test (p ++ "\") = skip_if test p ++ "\".
Proof.
  unfold skip_if. destruct p as [|h r]; simpl.
  - change (test "\"%char) with (test backslash).
    change (test "000"%char) with (test NUL).
    now rewrite test_backslash, test_NUL.
  - now destruct (test h).
Qed.

Lemma skip_if_length (p : string) :
  String.length (skip_if test p) <= String.length p.
Proof.
  unfold skip_if. destruct (test (deref p)); [|lia].
  destruct p; simpl; lia.
Qed.

Lemma skip_if_trailing (p : string) :
  (forall c, test c = true -> Ascii.eqb c backslash = false) ->
  trailing_backslashes (skip_if test p) = trailing_backslashes p.
Proof.
  intros Htest. unfold skip_if. destruct (test (deref p)) eqn:Ht; [|reflexivity].
  destruct p as [|h r]; [reflexivity|]. simpl in *.
  symmetry. apply trailing_skip. now apply Htest.
Qed.

End AppendBackslash.

Lemma hex_digit_append (w : Z) (p : string) :
  hex_digit w (p ++ "\") = hex_digit w p.
Proof. now destruct p. Qed.

Lemma octal_digit_append (w : Z) (p : string) :
  octal_digit w (p ++ "\") = octal_digit w p.
Proof. now destruct p. Qed.

Ltac known_escape IH Hlen Heven :=
  f_equal; apply IH; [lia|];
  rewrite trailing_escape in Heven by reflexivity; exact Heven.

Lemma lone_backslash_dropped (n : nat) (s : string) :
  String.length s <= n ->
  Nat.even (trailing_backslashes s) = true ->
  unescape_from (s ++ "\") = unescape_from s.
Proof.
  revert s. induction n as [|n IH]; intros s Hlen Heven.
  - destruct s; [reflexivity | simpl in Hlen; lia].
  - destruct s as [|c p1]; [reflexivity|].
    simpl in Hlen. cbn [append unescape_from].
    destruct (Ascii.eqb c NUL) eqn:Ec0; [reflexivity|].
    destruct (Ascii.eqb_spec c backslash) as [->|Hc].
    2:{ f_equal. apply IH; [lia|]. rewrite trailing_skip in Heven; [assumption|].
        now apply Ascii.eqb_neq. }
    destruct p1 as [|d p2]; [discriminate Heven|].
    simpl in Hlen. cbn [append deref next].
    destruct (Ascii.eqb d NUL) eqn:Ed0; [reflexivity|].
    destruct (Ascii.eqb_spec d "a") as [->|_]; [known_escape IH Hlen Heven|].
    destruct (Ascii.eqb_spec d "b") as [->|_]; [known_escape IH Hlen Heven|].
    destruct (Ascii.eqb_spec d "e") as [->|_]; [known_escape IH Hlen Heven|].
    destruct (Ascii.eqb_spec d "f") as [->|_]; [known_escape IH Hlen Heven|].
    destruct (Ascii.eqb_spec d "n") as [->|_]; [known_escape IH Hlen Heven|].
    destruct (Ascii.eqb_spec d "r") as [->|_]; [known_escape IH Hlen Heven|].
    destruct (Ascii.eqb_spec d "t") as [->|_]; [known_escape IH Hlen Heven|].
    destruct (Ascii.eqb_spec d "v") as [->|_]; [known_escape IH Hlen Heven|].
    destruct (Ascii.eqb_spec d "x") as [->|_].
    { rewrite trailing_escape in Heven by reflexivity.
      rewrite (test_deref_append isxdigit) by reflexivity.
      destruct (isxdigit (deref p2)) eqn:Hx; cbn [negb].
      - destruct p2 as [|h p3]; [discriminate Hx|]. simpl in Hx, Hlen.
        rewrite trailing_skip in Heven by now apply xdigit_not_backslash.
        cbn [append deref next].
        rewrite !(skip_if_append isxdigit), !hex_digit_append by reflexivity.
        f_equal. apply IH.
        + pose proof (skip_if_length isxdigit p3).
          pose proof (skip_if_length isxdigit (skip_if isxdigit p3)).
          pose proof (skip_if_length isxdigit
                        (skip_if isxdigit (skip_if isxdigit p3))).
          lia.
        + rewrite !skip_if_trailing by exact xdigit_not_backslash.
          exact Heven.
      - f_equal. apply IH; [lia | exact Heven]. }
    destruct (is_octal d) eqn:Ho.
    { rewrite trailing_escape in Heven by now apply octal_not_backslash.
      rewrite !(skip_if_append is_octal), !octal_digit_append by reflexivity.
      f_equal. apply IH.
      - pose proof (skip_if_length is_octal p2).
        pose proof (skip_if_length is_octal (skip_if is_octal p2)).
        lia.
      - rewrite !skip_if_trailing by exact octal_not_backslash.
        exact Heven. }
    f_equal. apply IH; [lia|].
    destruct (Ascii.eqb_spec d backslash) as [->|Hd].
    + now rewrite trailing_pair in Heven.
    + rewrite trailing_escape in Heven; [assumption|].
      now apply Ascii.eqb_neq.
Qed.

Lemma trailing_backslashes_snoc (s : string) :
  trailing_backslashes (s ++ "\") = S (trailing_backslashes s).
Proof.
  unfold trailing_backslashes.
  assert (H : list_ascii_of_string (s ++ "\")
              = (list_ascii_of_string s ++ [backslash])%list)
    by (induction s as [|c s IH]; simpl; [reflexivity | now rewrite IH]).
  rewrite H, rev_app_distr. reflexivity.
Qed.

(** C7: the decoder is a total function from texts to texts, with no error
    case; and for an input that ends in a lone backslash (the backslashes at
    its end are odd in number, so the last one is not the escaped character
    of the one before it) the output is the output for the input without
    that last backslash. *)
Theorem unescape_drops_lone_trailing_backslash :
  forall s : string,
    (exists dest : string, unescape_reg_key_data (s ++ "\") = dest)
    /\ (Nat.odd (trailing_backslashes (s ++ "\")) = true ->
        unescape_reg_key_data (s ++ "\") = unescape_reg_key_data s).
Proof.
  intros s. split; [eexists; reflexivity|].
  rewrite trailing_backslashes_snoc, Nat.odd_succ. intros Heven.
  now apply (lone_backslash_dropped (String.length s)).
Qed.

Lemma unescape_drops_lone_trailing_backslash_witness :
  unescape_reg_key_data "C:\\windows\\\" = unescape_reg_key_data "C:\\windows\\"
  /\ unescape_reg_key_data "C:\\windows\\" = "C:\windows\".
Proof.
  split; [|reflexivity].
  apply (unescape_drops_lone_trailing_backslash "C:\\windows\\").
  reflexivity.
Defined.

(** ** The directory scan *)

Lemma case_insensitive_compare_asym (a b : string) :
  case_insensitive_compare a b = true -> case_insensitive_compare b a = false.
Proof.
  unfold case_insensitive_compare, case_insensitive_less.
  revert b; induction a as [|x a IH]; intros [|y b]; simpl; try congruence.
  destruct (Z.ltb_spec (toupper x) (toupper y));
    destruct (Z.ltb_spec (toupper y) (toupper x));
    try lia; try congruence.
  apply IH.
Qed.

Lemma case_insensitive_compare_trans (a b c : string) :
  case_insensitive_compare a b = true ->
  case_insensitive_compare b c = true ->
  case_insensitive_compare a c = true.
Proof.
  unfold case_insensitive_compare, case_insensitive_less.
  revert b c; induction a as [|x a IH]; intros [|y b] [|z c]; simpl;
    try congruence.
  destruct (Z.ltb_spec (toupper x) (toupper y));
    destruct (Z.ltb_spec (toupper y) (toupper x));
    destruct (Z.ltb_spec (toupper y) (toupper z));
    destruct (Z.ltb_spec (toupper z) (toupper y));
    destruct (Z.ltb_spec (toupper x) (toupper z));
    destruct (Z.ltb_spec (toupper z) (toupper x));
    try lia; try congruence.
  apply IH.
Qed.

Section InsertionSort.

Variable less : string -> string -> bool.
Hypothesis less_asym : forall a b, less a b = true -> less b a = false.
Hypothesis less_trans :
  forall a b c, less a b = true -> less b c = true -> less a c = true.

Lemma insert_sorted_permutation (x : string) (l : list string) :
  Permutation (x :: l) (insert_sorted less x l).
Proof.
  induction l as [|y r IH]; simpl; [reflexivity|].
  destruct (less x y); [reflexivity|].
  rewrite perm_swap. now apply perm_skip.
Qed.

Lemma insertion_sort_permutation (l : list string) :
  Permutation l (insertion_sort less l).
Proof.
  induction l as [|x r IH]; simpl; [reflexivity|].
  rewrite <- insert_sorted_permutation. now apply perm_skip.
Qed.

Lemma insert_sorted_sorted (x : string) (l : list string) :
  StronglySorted (not_after less) l ->
  StronglySorted (not_after less) (insert_sorted less x l).
Proof.
  induction 1 as [|y r Hr IH Hy]; simpl.
  - constructor; constructor.
  - destruct (less x y) eqn:Hxy.
    + constructor; [now constructor|].
      constructor; [now apply less_asym|].
      apply Forall_forall. intros z Hz.
      rewrite Forall_forall in Hy. specialize (Hy z Hz).
      unfold not_after in *. destruct (less z x) eqn:Hzx; [|reflexivity].
      rewrite (less_trans _ _ _ Hzx Hxy) in Hy. discriminate Hy.
    + constructor; [exact IH|].
      apply (Permutation_Forall (insert_sorted_permutation x r)).
      constructor; assumption.
Qed.

Lemma insertion_sort_sorted (l : list string) :
  StronglySorted (not_after less) (insertion_sort less l).
Proof.
  induction l as [|x r IH]; simpl; [constructor|].
  now apply insert_sorted_sorted.
Qed.

End InsertionSort.

(** The comparison of the code and the order of the specification: the place
    [toupper] gives a byte is its place without case, so a text the
    comparison does not put after another stands no later in the
    dictionary. *)
Lemma toupper_caseless_rank (c : ascii) :
  toupper c = Z.of_N (caseless_rank c).
Proof. destruct c as [[] [] [] [] [] [] [] []]; reflexivity. Qed.

Lemma not_after_caseless_le (a b : string) :
  not_after case_insensitive_compare a b -> caseless_le a b = true.
Proof.
  unfold not_after, case_insensitive_compare, case_insensitive_less,
    caseless_le, caseless_key.
  revert b; induction a as [|x a IH]; intros [|y b]; cbn; intros H;
    try reflexivity; try discriminate H.
  rewrite !toupper_caseless_rank in H.
  destruct (Z.ltb_spec (Z.of_N (caseless_rank y)) (Z.of_N (caseless_rank x)));
    [discriminate H|].
  destruct (Z.ltb_spec (Z.of_N (caseless_rank x)) (Z.of_N (caseless_rank y))).
  - destruct (N.ltb_spec (caseless_rank x) (caseless_rank y));
      [reflexivity | lia].
  - rewrite (IH b H).
    destruct (N.ltb_spec (caseless_rank x) (caseless_rank y));
      [reflexivity|].
    destruct (N.eqb_spec (caseless_rank x) (caseless_rank y));
      [reflexivity | lia].
Qed.

Lemma dictionary_le_antisym (a b : list N) :
  dictionary_le a b = true -> dictionary_le b a = true -> a = b.
Proof.
  revert b; induction a as [|x a IH]; intros [|y b]; cbn;
    try reflexivity; try discriminate.
  destruct (N.ltb_spec x y), (N.ltb_spec y x), (N.eqb_spec x y),
    (N.eqb_spec y x); cbn; try discriminate; try lia.
  intros Hab Hba. f_equal; [assumption | now apply IH].
Qed.

(** A list without two paths that are equal up to case has one sorted
    arrangement only. *)
Lemma sorted_case_insensitively_unique (l1 l2 : list string) :
  NoDup (map caseless_key l1) ->
  Permutation l1 l2 ->
  sorted_case_insensitively l1 -> sorted_case_insensitively l2 ->
  l1 = l2.
Proof.
  unfold sorted_case_insensitively.
  revert l2; induction l1 as [|s1 r1 IH]; intros l2 Hnd Hperm H1 H2.
  - now apply Permutation_nil in Hperm.
  - destruct l2 as [|s2 r2];
      [now apply Permutation_sym, Permutation_nil in Hperm|].
    apply StronglySorted_inv in H1, H2.
    destruct H1 as [Hr1 Hs1], H2 as [Hr2 Hs2].
    rewrite Forall_forall in Hs1, Hs2.
    inversion Hnd as [|? ? Hfresh Hnd']; subst.
    assert (Heq : s1 = s2).
    { pose proof (Permutation_in s1 Hperm (or_introl eq_refl)) as [Hin|Hin];
        [now symmetry|].
      pose proof (Permutation_in s2 (Permutation_sym Hperm)
                    (or_introl eq_refl)) as [Hin'|Hin']; [assumption|].
      elim Hfresh.
      rewrite (dictionary_le_antisym _ _ (Hs1 s2 Hin') (Hs2 s1 Hin)).
      now apply in_map. }
    subst s2. f_equal.
    apply IH; try assumption. now apply Permutation_cons_inv in Hperm.
Qed.

(** A range that [std::sort] left sorted by the comparison of the code is
    sorted without regard to case. *)
Lemma sorted_by_compare (l : list string) :
  StronglySorted (not_after case_insensitive_compare) l ->
  sorted_case_insensitively l.
Proof.
  induction 1 as [|a l _ IH Ha]; [constructor|].
  constructor; [exact IH|].
  apply (Forall_impl _ (not_after_caseless_le a) Ha).
Qed.

Section ScannerFacts.

Variable build_filename : string -> string -> string.
Variable std_sort : (string -> string -> bool) -> list string -> list string.
Variable DefaultBottleWineDir : string.

(** What [std::sort] promises for the comparison the code gives it: the
    range holds the same elements afterwards, and no element compares less
    than one before it. *)
Hypothesis std_sort_permutation :
  forall l, Permutation l (std_sort case_insensitive_compare l).
Hypothesis std_sort_sorted :
  forall l, StronglySorted (not_after case_insensitive_compare)
              (std_sort case_insensitive_compare l).

Lemma read_names_loop_filter (fs : FileSystem) (dir_path : string)
    (names : list string) :
  Forall (fun name => name <> "") names ->
  read_names_loop build_filename fs dir_path names
  = filter (file_test_is_dir fs) (map (build_filename dir_path) names).
Proof.
  induction 1 as [|name rest Hname _ IH]; simpl; [reflexivity|].
  destruct name; [now elim Hname|]. simpl. now rewrite IH.
Qed.

(** C8: for a directory that can be read, [get_bottles_paths] returns the
    paths of its entries that are directories, each once per entry, sorted
    without regard to case (every path stands no later in the dictionary,
    small letters taken as capitals, than each path after it), followed,
    when the caller asks for it and the default bottle is a directory on the
    disk, by the path of the default bottle as the last element, whatever
    its place in that order would be.  When no two of the directories are
    equal up to case the sorted part is the one sorted arrangement there
    is. *)
Theorem get_bottles_paths_sorted_subdirectories :
  forall (fs : FileSystem) (dir_path : string) (display_default : bool)
         (names : list string),
    dir_open fs dir_path = Some names ->
    Forall (fun name => name <> "") names ->
    exists sorted : list string,
      get_bottles_paths build_filename std_sort DefaultBottleWineDir
        fs dir_path display_default
      = Ok (sorted
            ++ (if display_default && file_test_is_dir fs DefaultBottleWineDir
                then [DefaultBottleWineDir] else []))%list
      /\ Permutation
           (filter (file_test_is_dir fs) (map (build_filename dir_path) names))
           sorted
      /\ sorted_case_insensitively sorted
      /\ (forall expected : list string,
            Permutation
              (filter (file_test_is_dir fs)
                 (map (build_filename dir_path) names))
              expected ->
            NoDup (map caseless_key expected) ->
            sorted_case_insensitively expected ->
            sorted = expected).
Proof.
  intros fs dir_path display_default names Hopen Hnames.
  exists (std_sort case_insensitive_compare
            (read_names_loop build_filename fs dir_path names)).
  assert (Hperm : Permutation
                    (filter (file_test_is_dir fs)
                       (map (build_filename dir_path) names))
                    (std_sort case_insensitive_compare
                       (read_names_loop build_filename fs dir_path names))).
  { rewrite <- read_names_loop_filter by assumption.
    apply std_sort_permutation. }
  assert (Hsorted : sorted_case_insensitively
                      (std_sort case_insensitive_compare
                         (read_names_loop build_filename fs dir_path names))).
  { apply sorted_by_compare, std_sort_sorted. }
  unfold get_bottles_paths, dir_exists. rewrite Hopen.
  split; [|split; [exact Hperm|split; [exact Hsorted|]]].
  - destruct (display_default && file_test_is_dir fs DefaultBottleWineDir);
      [reflexivity | now rewrite app_nil_r].
  - intros expected Hexpected Hnodup Hexp_sorted. symmetry.
    apply sorted_case_insensitively_unique; try assumption.
    now rewrite <- Hperm.
Qed.

End ScannerFacts.

Lemma get_bottles_paths_sorted_subdirectories_witness :
  get_bottles_paths join_path insertion_sort Examples.default_bottle
    Examples.bottles_disk Examples.prefixes true
  = Ok [ join_path Examples.prefixes "alpha";
         join_path Examples.prefixes "Beta";
         join_path Examples.prefixes "Zeta";
         Examples.default_bottle ].
Proof.
  destruct (get_bottles_paths_sorted_subdirectories
              join_path insertion_sort Examples.default_bottle
              (insertion_sort_permutation case_insensitive_compare)
              (insertion_sort_sorted case_insensitive_compare
                 case_insensitive_compare_asym case_insensitive_compare_trans)
              Examples.bottles_disk Examples.prefixes true
              ["Zeta"; "notes.txt"; "alpha"; "Beta"] eq_refl)
    as (sorted & Hresult & _ & _ & Hunique).
  - repeat constructor; discriminate.
  - rewrite Hresult.
    rewrite (Hunique [ join_path Examples.prefixes "alpha";
                       join_path Examples.prefixes "Beta";
                       join_path Examples.prefixes "Zeta" ]).
    + reflexivity.
    + change (Permutation
                [ join_path Examples.prefixes "Zeta";
                  join_path Examples.prefixes "alpha";
                  join_path Examples.prefixes "Beta" ]
                [ join_path Examples.prefixes "alpha";
                  join_path Examples.prefixes "Beta";
                  join_path Examples.prefixes "Zeta" ]).
      eapply perm_trans; [apply perm_swap|]. apply perm_skip, perm_swap.
    + repeat constructor; cbn [map In]; intros H;
        repeat (destruct H as [H|H]; [vm_compute in H; discriminate H|]);
        exact H.
    + repeat constructor.
Defined.

(** The scan of the specification: Zeta, alpha and Beta, and the default
    bottle on the disk. *)
Example get_bottles_paths_zeta_alpha_beta :
  get_bottles_paths join_path insertion_sort Examples.default_bottle
    Examples.bottles_disk Examples.prefixes true
  = Ok [ join_path Examples.prefixes "alpha";
         join_path Examples.prefixes "Beta";
         join_path Examples.prefixes "Zeta";
         Examples.default_bottle ].
Proof. reflexivity. Qed.

(** * Further properties of the code *)

(** ** [Helper::split] *)

Lemma split_not_nil (s : string) (d : ascii) : split s d <> [].
Proof.
  destruct s as [|c r]; simpl; [discriminate|].
  destruct (Ascii.eqb c d); [discriminate|].
  destruct (split r d); discriminate.
Qed.

Lemma join_cons (p : string) (rest : list string) (d : ascii) :
  rest <> [] -> join (p :: rest) d = p ++ String d (join rest d).
Proof. destruct rest; [intros H; now elim H | reflexivity]. Qed.

Lemma free_of_cons (d c : ascii) (s : string) :
  free_of d (String c s) <-> c <> d /\ free_of d s.
Proof.
  unfold free_of. simpl. split.
  - intros H. split; intros H'; apply H; [now left | now right].
  - intros [Hc Hs] [Heq|Hin]; [now apply Hc | now apply Hs].
Qed.

(** X1: the pieces [split] returns, put together again with the delimiter
    between them, are the text that was split; no piece holds the delimiter;
    and there is one piece more than the text has delimiters (so at least
    one piece, also for the empty text). *)
Theorem split_join_round_trip :
  forall (s : string) (delimiter : ascii),
    join (split s delimiter) delimiter = s
    /\ Forall (free_of delimiter) (split s delimiter)
    /\ List.length (split s delimiter) = S (count_char delimiter s).
Proof.
  intros s d. induction s as [|c r (IHjoin & IHfree & IHlen)]; simpl.
  - repeat split. constructor; [intros []|constructor].
  - destruct (Ascii.eqb_spec c d) as [->|Hc].
    + repeat split.
      * rewrite join_cons by apply split_not_nil. simpl. now rewrite IHjoin.
      * constructor; [intros []|assumption].
      * simpl. now rewrite IHlen.
    + pose proof (split_not_nil r d) as Hne.
      destruct (split r d) as [|h t]; [now elim Hne|].
      repeat split.
      * destruct t as [|h' t']; simpl in *; now rewrite IHjoin.
      * inversion IHfree as [|? ? Hh Ht]; subst.
        constructor; [|assumption]. now apply free_of_cons.
      * exact IHlen.
Qed.

Lemma split_free (p : string) (d : ascii) :
  free_of d p -> split p d = [p].
Proof.
  induction p as [|c p IH]; intros Hp; [reflexivity|].
  apply free_of_cons in Hp. destruct Hp as [Hc Hp]. simpl.
  destruct (Ascii.eqb_spec c d) as [->|_]; [now elim Hc|].
  now rewrite IH.
Qed.

Lemma split_append_delimiter (p r : string) (d : ascii) :
  free_of d p -> split (p ++ String d r) d = p :: split r d.
Proof.
  induction p as [|c p IH]; intros Hp.
  - cbn [append split]. now rewrite Ascii.eqb_refl.
  - apply free_of_cons in Hp. destruct Hp as [Hc Hp]. cbn [append split].
    destruct (Ascii.eqb_spec c d) as [->|_]; [now elim Hc|].
    now rewrite IH.
Qed.

(** X2: a list of at least one piece, none of which holds the delimiter, is
    what [split] returns for the pieces joined with the delimiter. *)
Theorem split_of_join :
  forall (pieces : list string) (delimiter : ascii),
    pieces <> [] ->
    Forall (free_of delimiter) pieces ->
    split (join pieces delimiter) delimiter = pieces.
Proof.
  intros pieces d Hne Hfree. induction Hfree as [|p rest Hp Hrest IH];
    [now elim Hne|].
  destruct rest as [|q rest'].
  - now apply split_free.
  - rewrite join_cons by discriminate.
    rewrite split_append_delimiter by assumption.
    now rewrite IH by discriminate.
Qed.

Lemma split_of_join_witness :
  split (join ["1024"; "768"] "x") "x" = ["1024"; "768"].
Proof.
  apply split_of_join; [discriminate|].
  repeat constructor; intros H; simpl in H;
    repeat (destruct H as [H|H]; [discriminate H|]); exact H.
Defined.

(** ** [Helper::case_insensitive_compare] *)

Lemma case_insensitive_compare_irrefl (a : string) :
  case_insensitive_compare a a = false.
Proof.
  unfold case_insensitive_compare, case_insensitive_less.
  induction a as [|x a IH]; simpl; [reflexivity|].
  now rewrite Z.ltb_irrefl.
Qed.

Lemma equivalent_upper_keys (a b : string) :
  equivalent case_insensitive_compare a b <-> upper_keys a = upper_keys b.
Proof.
  unfold equivalent, upper_keys, case_insensitive_compare, case_insensitive_less.
  revert b; induction a as [|x a IH]; intros [|y b]; simpl;
    try (split; [intros [H1 H2]; discriminate | discriminate]).
  - split; [reflexivity | now split].
  - destruct (Z.ltb_spec (toupper x) (toupper y));
      destruct (Z.ltb_spec (toupper y) (toupper x));
      try (split; [intros [H1 H2]; discriminate
                  | intros Heq; injection Heq as Hk _; lia]).
    rewrite IH. split.
    + intros ->. f_equal. lia.
    + intros Heq. now injection Heq.
Qed.

(** X3: the comparison given to [std::sort] is a strict weak ordering, which
    is what [std::sort] requires of it: no text is less than itself, less is
    transitive, and so is being equivalent (neither less than the other). *)
Theorem case_insensitive_compare_strict_weak_order :
  (forall a, case_insensitive_compare a a = false)
  /\ (forall a b c,
         case_insensitive_compare a b = true ->
         case_insensitive_compare b c = true ->
         case_insensitive_compare a c = true)
  /\ (forall a b c,
         equivalent case_insensitive_compare a b ->
         equivalent case_insensitive_compare b c ->
         equivalent case_insensitive_compare a c).
Proof.
  split; [exact case_insensitive_compare_irrefl|].
  split; [exact case_insensitive_compare_trans|].
  intros a b c Hab Hbc. apply equivalent_upper_keys.
  apply equivalent_upper_keys in Hab, Hbc. congruence.
Qed.

Lemma case_insensitive_compare_strict_weak_order_witness :
  case_insensitive_compare "alpha" "Zeta" = true
  /\ equivalent case_insensitive_compare "beta" "BETA".
Proof.
  destruct case_insensitive_compare_strict_weak_order as (_ & Htrans & Hequiv).
  split.
  - apply (Htrans "alpha" "Beta" "Zeta"); reflexivity.
  - apply (Hequiv "beta" "Beta" "BETA"); split; reflexivity.
Defined.

(** X4: two texts are equivalent for the comparison exactly when they are
    equal byte by byte after [toupper], that is up to the case of ASCII
    letters; their order after [std::sort] is then not determined. *)
Theorem case_insensitive_compare_equivalence :
  forall a b : string,
    equivalent case_insensitive_compare a b <-> upper_keys a = upper_keys b.
Proof. exact equivalent_upper_keys. Qed.

(** ** More on the escape decoder *)

Lemma string_length_append (s t : string) :
  String.length (s ++ t) = String.length s + String.length t.
Proof. induction s as [|c s IH]; simpl; [reflexivity | now rewrite IH]. Qed.

(** X5: text before the first backslash and the first NUL byte is copied as
    it is; a text with neither is its own decoding. *)
Theorem unescape_plain_prefix :
  forall a b : string,
    free_of backslash a -> free_of NUL a ->
    unescape_reg_key_data (a ++ b) = a ++ unescape_reg_key_data b.
Proof.
  unfold unescape_reg_key_data.
  induction a as [|c a IH]; intros b Hbs Hnul; [reflexivity|].
  apply free_of_cons in Hbs, Hnul.
  destruct Hbs as [Hc1 Hbs], Hnul as [Hc2 Hnul].
  cbn [append unescape_from].
  destruct (Ascii.eqb_spec c NUL) as [->|_]; [now elim Hc2|].
  destruct (Ascii.eqb_spec c backslash) as [->|_]; [now elim Hc1|].
  now rewrite IH.
Qed.

Ltac no_such_char :=
  intros H; simpl in H; repeat (destruct H as [H|H]; [discriminate H|]);
  exact H.

Lemma unescape_plain_prefix_witness :
  unescape_reg_key_data "C:\\users\\Public\\Start Menu"
  = "C:" ++ unescape_reg_key_data "\\users\\Public\\Start Menu"
  /\ unescape_reg_key_data "1024x768" = "1024x768".
Proof.
  split.
  - apply (unescape_plain_prefix "C:" "\\users\\Public\\Start Menu");
      no_such_char.
  - rewrite <- (append_empty_r "1024x768") at 1.
    rewrite (unescape_plain_prefix "1024x768" ""); [reflexivity| |];
      no_such_char.
Defined.

Section NulSuffix.

(** What follows a NUL byte in the text. *)
Variable tail : string.

Let suffix : string := String NUL tail.

Lemma deref_append_nul (p : string) : deref (p ++ suffix) = deref p.
Proof. now destruct p. Qed.

Lemma next_append_nul (p : string) :
  p <> "" -> next (p ++ suffix) = next p ++ suffix.
Proof. destruct p; [intros H; now elim H | reflexivity]. Qed.

Lemma skip_if_append_nul (test : ascii -> bool) (p : string) :
  test NUL = false -> skip_if test (p ++ suffix) = skip_if test p ++ suffix.
Proof.
  intros Htest. unfold skip_if. rewrite deref_append_nul.
  destruct p as [|h r]; simpl.
  - change "000"%char with NUL. now rewrite Htest.
  - now destruct (test h).
Qed.

Lemma hex_digit_append_nul (w : Z) (p : string) :
  hex_digit w (p ++ suffix) = hex_digit w p.
Proof. unfold hex_digit. now rewrite deref_append_nul. Qed.

Lemma octal_digit_append_nul (w : Z) (p : string) :
  octal_digit w (p ++ suffix) = octal_digit w p.
Proof. unfold octal_digit. now rewrite deref_append_nul. Qed.

Lemma unescape_from_nul (n : nat) (p : string) :
  String.length p <= n -> unescape_from (p ++ suffix) = unescape_from p.
Proof.
  revert p. induction n as [|n IH]; intros p Hlen.
  - destruct p; [reflexivity | simpl in Hlen; lia].
  - destruct p as [|c p1]; [reflexivity|].
    simpl in Hlen. cbn [append unescape_from].
    destruct (Ascii.eqb c NUL); [reflexivity|].
    destruct (Ascii.eqb c backslash); [|f_equal; apply IH; lia].
    rewrite deref_append_nul.
    destruct p1 as [|d p2]; [reflexivity|].
    simpl in Hlen. cbn [append deref next].
    repeat match goal with
           | |- context [Ascii.eqb d ?k] =>
               destruct (Ascii.eqb d k); [try reflexivity; f_equal; apply IH; lia|]
           end.
    destruct (Ascii.eqb d "x").
    + rewrite deref_append_nul.
      destruct (isxdigit (deref p2)) eqn:Hx; cbn [negb];
        [|f_equal; apply IH; lia].
      destruct p2 as [|h p3]; [discriminate Hx|]. simpl in Hlen.
      cbn [append deref next].
      rewrite !skip_if_append_nul, !hex_digit_append_nul by reflexivity.
      f_equal. apply IH.
      pose proof (skip_if_length isxdigit p3).
      pose proof (skip_if_length isxdigit (skip_if isxdigit p3)).
      pose proof (skip_if_length isxdigit
                    (skip_if isxdigit (skip_if isxdigit p3))).
      lia.
    + destruct (is_octal d); [|f_equal; apply IH; lia].
      rewrite !skip_if_append_nul, !octal_digit_append_nul by reflexivity.
      f_equal. apply IH.
      pose proof (skip_if_length is_octal p2).
      pose proof (skip_if_length is_octal (skip_if is_octal p2)).
      lia.
Qed.

End NulSuffix.

(** X6: the decoder reads its input as a C string: a NUL byte ends the
    decoding, and what follows it in the [std::string] has no effect on the
    result. *)
Theorem unescape_stops_at_nul :
  forall a b : string,
    unescape_reg_key_data (a ++ String NUL b) = unescape_reg_key_data a.
Proof.
  intros a b. apply (unescape_from_nul b (String.length a)). lia.
Qed.

(** *** The decoding is never longer than the text *)

Lemma to_hex_range (c : ascii) :
  isxdigit c = true -> (0 <= to_hex c <= 15)%Z.
Proof.
  destruct c as [[] [] [] [] [] [] [] []]; intros H;
    try (vm_compute in H; discriminate H);
    vm_compute; split; discriminate.
Qed.

Lemma octal_range (c : ascii) :
  is_octal c = true -> (0 <= code c - code "0" <= 7)%Z.
Proof.
  destruct c as [[] [] [] [] [] [] [] []]; intros H;
    try (vm_compute in H; discriminate H);
    vm_compute; split; discriminate.
Qed.

Lemma hex_digit_range (w bound : Z) (p : string) :
  (0 <= w <= bound)%Z -> (0 <= hex_digit w p <= 16 * bound + 15)%Z.
Proof.
  intros Hw. unfold hex_digit.
  destruct (isxdigit (deref p)) eqn:Hx; [|lia].
  pose proof (to_hex_range _ Hx). lia.
Qed.

Lemma octal_digit_range (w bound : Z) (p : string) :
  (0 <= w <= bound)%Z -> (0 <= octal_digit w p <= 8 * bound + 7)%Z.
Proof.
  intros Hw. unfold octal_digit.
  destruct (is_octal (deref p)) eqn:Ho; [|lia].
  pose proof (octal_range _ Ho). lia.
Qed.

(** The number of bytes of the encoding, by the range of the code point. *)
Lemma wchar_to_utf8_length (wc : Z) :
  ((0 <= wc <= 0x7f)%Z -> String.length (wchar_to_utf8 wc) = 1)
  /\ ((0x80 <= wc <= 0x7ff)%Z -> String.length (wchar_to_utf8 wc) = 2)
  /\ ((0x800 <= wc <= 0xffff)%Z -> String.length (wchar_to_utf8 wc) = 3).
Proof.
  unfold wchar_to_utf8.
  repeat split; intros H;
    repeat match goal with
           | |- context [(?a <=? ?b)%Z] => destruct (Z.leb_spec a b); try lia
           end;
    reflexivity.
Qed.

Lemma wchar_to_utf8_short (wc : Z) :
  ((0 <= wc <= 511)%Z -> String.length (wchar_to_utf8 wc) <= 2)
  /\ ((0 <= wc <= 65535)%Z -> String.length (wchar_to_utf8 wc) <= 3).
Proof.
  destruct (wchar_to_utf8_length wc) as (H1 & H2 & H3).
  split; intros H.
  - destruct (Z.le_gt_cases wc 0x7f); [rewrite H1 | rewrite H2]; lia.
  - destruct (Z.le_gt_cases wc 0x7f); [rewrite H1; lia|].
    destruct (Z.le_gt_cases wc 0x7ff); [rewrite H2 | rewrite H3]; lia.
Qed.

Lemma unescape_from_length (n : nat) (p : string) :
  String.length p <= n -> String.length (unescape_from p) <= String.length p.
Proof.
  revert p. induction n as [|n IH]; intros p Hlen.
  - destruct p; [simpl; lia | simpl in Hlen; lia].
  - destruct p as [|c p1]; [simpl; lia|].
    simpl in Hlen. cbn [unescape_from].
    destruct (Ascii.eqb c NUL); [cbn [String.length]; lia|].
    destruct (Ascii.eqb c backslash);
      [|specialize (IH p1 ltac:(lia)); cbn [String.length]; lia].
    destruct p1 as [|d p2]; [simpl; lia|].
    simpl in Hlen. cbn [deref next].
    repeat match goal with
           | |- context [Ascii.eqb d ?k] =>
               destruct (Ascii.eqb d k);
               [first [ cbn [String.length]; lia
                      | specialize (IH p2 ltac:(lia)); cbn [String.length]; lia ]|]
           end.
    destruct (Ascii.eqb d "x").
    + destruct (isxdigit (deref p2)) eqn:Hx; cbn [negb];
        [|specialize (IH p2 ltac:(lia)); cbn [String.length]; lia].
      destruct p2 as [|h p3]; [discriminate Hx|]. simpl in Hlen, Hx.
      cbn [deref next]. rewrite string_length_append.
      pose proof (skip_if_length isxdigit p3).
      pose proof (skip_if_length isxdigit (skip_if isxdigit p3)).
      pose proof (skip_if_length isxdigit
                    (skip_if isxdigit (skip_if isxdigit p3))).
      match goal with
      | |- context [unescape_from ?q] => specialize (IH q ltac:(lia))
      end.
      match goal with
      | |- context [wchar_to_utf8 ?w] =>
          assert (Hw : (0 <= w <= 65535)%Z)
      end.
      { pose proof (to_hex_range _ Hx) as Hr1.
        pose proof (hex_digit_range _ 15 p3 Hr1) as Hr2.
        pose proof (hex_digit_range _ _ (skip_if isxdigit p3) Hr2) as Hr3.
        pose proof (hex_digit_range _ _
                      (skip_if isxdigit (skip_if isxdigit p3)) Hr3) as Hr4.
        lia. }
      apply wchar_to_utf8_short in Hw. cbn [String.length]. lia.
    + destruct (is_octal d) eqn:Ho;
        [|specialize (IH p2 ltac:(lia)); cbn [String.length]; lia].
      rewrite string_length_append.
      pose proof (skip_if_length is_octal p2).
      pose proof (skip_if_length is_octal (skip_if is_octal p2)).
      match goal with
      | |- context [unescape_from ?q] => specialize (IH q ltac:(lia))
      end.
      match goal with
      | |- context [wchar_to_utf8 ?w] =>
          assert (Hw : (0 <= w <= 511)%Z)
      end.
      { pose proof (octal_range _ Ho) as Hr1.
        pose proof (octal_digit_range _ 7 p2 Hr1) as Hr2.
        pose proof (octal_digit_range _ _ (skip_if is_octal p2) Hr2) as Hr3.
        lia. }
      apply wchar_to_utf8_short in Hw. cbn [String.length]. lia.
Qed.

(** X7: the decoding of a text has at most as many bytes as the text, so the
    [dest.reserve(src.length())] of the decoder is room enough for all of
    [dest]: every escape is at least as long as the bytes it stands for. *)
Theorem unescape_never_longer :
  forall src : string,
    String.length (unescape_reg_key_data src) <= String.length src.
Proof. intros src. now apply (unescape_from_length (String.length src)). Qed.

(** ** Reading a file line by line *)

Lemma getlines_last_line (last : string) :
  free_of newline last -> last <> "" -> getlines last = [(last, true)].
Proof.
  induction last as [|c r IH]; intros Hfree Hne; [now elim Hne|].
  apply free_of_cons in Hfree. destruct Hfree as [Hc Hr]. simpl.
  destruct (Ascii.eqb_spec c newline) as [->|_]; [now elim Hc|].
  destruct r as [|c' r']; [reflexivity|].
  rewrite IH by (assumption || discriminate). reflexivity.
Qed.

Lemma getlines_unlines_append (ls : list string) (rest : string) :
  Forall (free_of newline) ls ->
  getlines (unlines ls ++ rest)
  = (map (fun l => (l, false)) ls ++ getlines rest)%list.
Proof.
  induction 1 as [|l ls Hl _ IH]; [reflexivity|].
  cbn [unlines]. rewrite append_assoc. cbn [append].
  rewrite getlines_line by exact Hl. now rewrite IH.
Qed.

(** X8: a file of lines that each end in a newline is read back by
    [read_file_lines] as these lines; text after the last newline is one
    more line, and an empty rest is no line. *)
Theorem read_file_lines_round_trip :
  forall (fs : FileSystem) (file_path : string) (ls : list string)
         (last : string),
    Forall (free_of newline) ls ->
    free_of newline last ->
    ifstream_open fs file_path = Some (unlines ls ++ last) ->
    read_file_lines fs file_path
    = Ok (ls ++ (if empty last then [] else [last]))%list.
Proof.
  intros fs file_path ls last Hls Hlast Hopen.
  unfold read_file_lines. rewrite Hopen. f_equal.
  rewrite getlines_unlines_append by assumption.
  rewrite map_app, map_map, map_id. f_equal.
  destruct last as [|c r]; [reflexivity|].
  now rewrite getlines_last_line.
Qed.

Lemma read_file_lines_round_trip_witness :
  read_file_lines (Examples.one_file Examples.explorer_reg) Examples.reg_path
  = Ok Examples.explorer_reg.
Proof.
  rewrite <- (app_nil_r Examples.explorer_reg) at 2.
  apply (read_file_lines_round_trip
           (Examples.one_file Examples.explorer_reg) Examples.reg_path
           Examples.explorer_reg "").
  - repeat constructor; no_such_char.
  - intros [].
  - vm_compute. reflexivity.
Defined.

(** ** The lines of a key *)

Lemma keys_loop_section (key_name : string)
    (section : list (string * bool)) (rest : list (string * bool)) :
  Forall (fun l => fst l <> "" /\ snd l = false) section ->
  get_reg_keys_loop key_name true (section ++ rest)
  = (filter kept (map fst section) ++ get_reg_keys_loop key_name true rest)%list.
Proof.
  induction 1 as [|[l e] section [Hl He] _ IH]; [reflexivity|].
  simpl in Hl, He. subst e. cbn [app get_reg_keys_loop negb map fst filter].
  destruct l as [|c l']; [now elim Hl|]. cbn [empty orb].
  rewrite IH. unfold kept. now destruct (starts_with_char "#" (String c l')).
Qed.

(** X9: [get_reg_keys] is bounded by the key's section: after the first line
    that starts with the key it returns the lines up to the first line that
    is empty or was read with the end-of-file bit set, without those that
    start with the number sign, and nothing of what follows. *)
Theorem get_reg_keys_stops_at_section_end :
  forall (fs : FileSystem) (file_path key_name content : string)
         (pre : list (string * bool)) (hdr : string) (eh : bool)
         (section : list (string * bool)) (stop : string * bool)
         (later : list (string * bool)),
    ifstream_open fs file_path = Some content ->
    getlines content = (pre ++ (hdr, eh) :: section ++ stop :: later)%list ->
    no_header key_name pre ->
    starts_with key_name hdr = true ->
    Forall (fun l => fst l <> "" /\ snd l = false) section ->
    fst stop = "" \/ snd stop = true ->
    get_reg_keys fs file_path key_name
    = Ok (filter kept (map fst section)).
Proof.
  intros fs file_path key_name content pre hdr eh section [sl se] later
         Hopen Hlines Hpre Hhdr Hsection Hstop.
  unfold get_reg_keys. rewrite Hopen, Hlines. f_equal.
  rewrite keys_loop_header by assumption.
  rewrite keys_loop_section by assumption.
  cbn [get_reg_keys_loop negb]. simpl in Hstop.
  destruct Hstop as [->| ->]; [|rewrite orb_true_r]; apply app_nil_r.
Qed.

Lemma get_reg_keys_stops_at_section_end_witness :
  get_reg_keys (Examples.one_file Examples.explorer_reg) Examples.reg_path
    RegKeyVirtualDesktop
  = Ok [value_line "Desktop" "Default"].
Proof.
  apply (get_reg_keys_stops_at_section_end
           (Examples.one_file Examples.explorer_reg) Examples.reg_path
           RegKeyVirtualDesktop (unlines Examples.explorer_reg)
           [] (RegKeyVirtualDesktop ++ Examples.stamp) false
           [(value_line "Desktop" "Default", false)] ("", false)
           [((RegKeyVirtualDesktopResolution ++ Examples.stamp)%string, false);
            (value_line "Default" "1024x768", false); ("", false)]).
  - reflexivity.
  - reflexivity.
  - constructor.
  - reflexivity.
  - repeat constructor. discriminate.
  - now left.
Defined.

(** X10: a registry file that does not end in a newline loses the last line
    of its last section: [get_reg_keys] returns the kept lines before it,
    and not the line itself, which was read with the end-of-file bit set. *)
Theorem get_reg_keys_drops_unterminated_line :
  forall (fs : FileSystem) (file_path key_name hdr : string)
         (section : list string) (last : string),
    ifstream_open fs file_path = Some (unlines (hdr :: section) ++ last) ->
    starts_with key_name hdr = true ->
    Forall (fun l => free_of newline l /\ l <> "") (hdr :: section) ->
    free_of newline last ->
    last <> "" ->
    get_reg_keys fs file_path key_name = Ok (filter kept section).
Proof.
  intros fs file_path key_name hdr section last Hopen Hhdr Hlines Hfree Hlast.
  unfold get_reg_keys. rewrite Hopen. f_equal.
  assert (Hfrees : Forall (free_of newline) (hdr :: section))
    by (eapply Forall_impl; [|exact Hlines]; now intros l []).
  rewrite getlines_unlines_append by exact Hfrees.
  rewrite getlines_last_line by assumption.
  cbn [map app get_reg_keys_loop negb]. rewrite Hhdr.
  rewrite keys_loop_section.
  - cbn [get_reg_keys_loop negb]. rewrite orb_true_r, app_nil_r.
    now rewrite map_map, map_id.
  - inversion Hlines as [|? ? _ Hs]; subst.
    apply Forall_map. eapply Forall_impl; [|exact Hs].
    now intros l [_ Hne].
Qed.

Lemma get_reg_keys_drops_unterminated_line_witness :
  get_reg_keys
    (disk [(Examples.reg_path,
            unlines [RegKeyAudio; value_line "Audio" "alsa"]
            ++ value_line "MidiMap" "0")] [])
    Examples.reg_path RegKeyAudio
  = Ok [value_line "Audio" "alsa"].
Proof.
  apply (get_reg_keys_drops_unterminated_line
           (disk [(Examples.reg_path,
                   unlines [RegKeyAudio; value_line "Audio" "alsa"]
                   ++ value_line "MidiMap" "0")] [])
           Examples.reg_path RegKeyAudio RegKeyAudio
           [value_line "Audio" "alsa"] (value_line "MidiMap" "0")).
  - reflexivity.
  - reflexivity.
  - repeat constructor; try discriminate; no_such_char.
  - no_such_char.
  - discriminate.
Defined.

Lemma keys_loop_results (key_name : string) (matched : bool)
    (lines : list (string * bool)) :
  Forall (fun l => l <> "" /\ starts_with_char "#" l = false
                   /\ In l (map fst lines))
    (get_reg_keys_loop key_name matched lines).
Proof.
  revert matched. induction lines as [|[l e] lines IH]; intros matched;
    [constructor|].
  assert (Hweak : forall m,
             Forall (fun l0 => l0 <> "" /\ starts_with_char "#" l0 = false
                               /\ In l0 (map fst ((l, e) :: lines)))
               (get_reg_keys_loop key_name m lines)).
  { intros m. eapply Forall_impl; [|exact (IH m)].
    intros l0 (H1 & H2 & H3). repeat split; try assumption. now right. }
  cbn [get_reg_keys_loop].
  destruct matched; cbn [negb]; [|apply Hweak].
  destruct (empty l || e) eqn:Hstop; [constructor|].
  destruct (starts_with_char "#" l) eqn:Hsharp; cbn [negb]; [apply Hweak|].
  constructor; [|apply Hweak].
  repeat split; [|assumption|now left].
  intros ->. discriminate Hstop.
Qed.

(** X11: every line [get_reg_keys] returns is a line of the file that is not
    empty and does not start with the number sign. *)
Theorem get_reg_keys_results :
  forall (fs : FileSystem) (file_path key_name : string) (keys : list string),
    get_reg_keys fs file_path key_name = Ok keys ->
    exists content : string,
      ifstream_open fs file_path = Some content
      /\ Forall (fun l => l <> "" /\ starts_with_char "#" l = false
                          /\ In l (map fst (getlines content))) keys.
Proof.
  intros fs file_path key_name keys. unfold get_reg_keys.
  destruct (ifstream_open fs file_path) as [content|]; [|discriminate].
  intros H. injection H as <-. exists content. split; [reflexivity|].
  apply keys_loop_results.
Qed.

Lemma get_reg_keys_results_witness :
  exists content : string,
    ifstream_open MoreExamples.menu_bottle (join_path Examples.bottle UserReg)
    = Some content
    /\ Forall (fun l => l <> "" /\ starts_with_char "#" l = false
                        /\ In l (map fst (getlines content)))
         (skipn 5 (firstn 8 MoreExamples.menu_reg)).
Proof.
  apply (get_reg_keys_results MoreExamples.menu_bottle
           (join_path Examples.bottle UserReg) RegKeyMenuFiles).
  reflexivity.
Defined.

(** ** The data of the lines of a key *)

Lemma free_of_erase_remove (c : ascii) (s : string) :
  free_of c (erase_remove c s).
Proof.
  induction s as [|d s IH]; [intros []|]. simpl.
  destruct (Ascii.eqb_spec d c) as [->|Hd]; [exact IH|].
  apply free_of_cons. now split.
Qed.

Lemma free_of_erase_remove_other (d c : ascii) (s : string) :
  free_of d s -> free_of d (erase_remove c s).
Proof.
  induction s as [|e s IH]; intros Hs; [exact Hs|].
  apply free_of_cons in Hs. destruct Hs as [He Hs]. simpl.
  destruct (Ascii.eqb e c); [now apply IH|].
  apply free_of_cons. split; [assumption | now apply IH].
Qed.

Lemma split_pieces_free (s : string) (d : ascii) :
  Forall (free_of d) (split s d).
Proof.
  induction s as [|c r IH]; simpl.
  - constructor; [intros []|constructor].
  - destruct (Ascii.eqb_spec c d) as [->|Hc].
    + constructor; [intros []|assumption].
    + destruct (split r d) as [|h t]; [repeat constructor|].
      * apply free_of_cons. split; [assumption|intros []].
      * inversion IH; subst. constructor; [|assumption].
        now apply free_of_cons.
Qed.

Lemma join_split (s : string) (d : ascii) : join (split s d) d = s.
Proof.
  induction s as [|c r IH]; cbn [split]; [reflexivity|].
  destruct (Ascii.eqb_spec c d) as [->|_].
  - rewrite join_cons by apply split_not_nil. now rewrite IH.
  - pose proof (split_not_nil r d) as Hne.
    destruct (split r d) as [|h [|h' t]]; [now elim Hne| |];
      cbn [join append] in *; now rewrite IH.
Qed.

(** The second piece [split] returns is the text between the first
    delimiter and the next. *)
Lemma split_second_piece (s first second : string) (more : list string) :
  split s "=" = first :: second :: more ->
  between_equals_signs s second.
Proof.
  intros Hsplit.
  pose proof (join_split s "=") as Hjoin.
  pose proof (split_pieces_free s "=") as Hfree.
  rewrite Hsplit in Hjoin, Hfree.
  inversion Hfree as [|? ? Hfirst Hrest]; subst.
  inversion Hrest as [|? ? Hsecond _]; subst.
  exists first.
  destruct more as [|third more].
  - exists "". rewrite append_empty_r. repeat split; try assumption.
    now left.
  - exists (String "=" (join (third :: more) "=")).
    repeat split; try assumption. right. now eexists.
Qed.

Lemma empty_spec (s : string) : empty s = true -> s = "".
Proof. destruct s; [reflexivity | discriminate]. Qed.

Lemma data_loop_results (key_name key_value_filter ignore_filter : string)
    (matched : bool) (lines : list (string * bool)) :
  Forall (data_of key_value_filter ignore_filter (map fst lines))
    (get_reg_keys_data_loop key_name key_value_filter ignore_filter matched
       lines).
Proof.
  revert matched. induction lines as [|[l e] lines IH]; intros matched;
    [constructor|].
  assert (Hweak : forall m,
             Forall (data_of key_value_filter ignore_filter
                       (map fst ((l, e) :: lines)))
               (get_reg_keys_data_loop key_name key_value_filter ignore_filter
                  m lines)).
  { intros m. apply (Forall_impl _ (P := data_of key_value_filter
                                           ignore_filter (map fst lines)));
      [|apply IH].
    intros item (Hq & He & line & value & Hin & Hrest).
    split; [assumption|]. split; [assumption|].
    exists line, value. split; [now right | assumption]. }
  cbn [get_reg_keys_data_loop].
  destruct matched; cbn [negb]; [|apply Hweak].
  destruct (empty l || e); [constructor|].
  destruct (starts_with_char "#" (unescape_reg_key_data l)) eqn:Hhash;
    cbn [negb andb]; [apply Hweak|].
  destruct (empty key_value_filter
            || contains key_value_filter (unescape_reg_key_data l)) eqn:Hkeep;
    cbn [andb]; [|apply Hweak].
  destruct (empty ignore_filter
            || negb (contains ignore_filter (unescape_reg_key_data l)))
    eqn:Hignore; [|apply Hweak].
  pose proof (split_pieces_free (unescape_reg_key_data l) "=") as Hfree.
  pose proof (split_second_piece (unescape_reg_key_data l)) as Hsecond.
  destruct (split (unescape_reg_key_data l) "=") as [|first [|second more]];
    try apply Hweak.
  constructor; [|apply Hweak].
  inversion Hfree as [|? ? _ Hrest]; subst.
  inversion Hrest as [|? ? Hsec _]; subst.
  split; [apply free_of_erase_remove|].
  split; [now apply free_of_erase_remove_other|].
  exists l, second. split; [now left|]. split; [assumption|].
  split.
  { apply orb_true_iff in Hkeep. destruct Hkeep as [Hk|Hk];
      [left; now apply empty_spec | now right]. }
  split.
  { apply orb_true_iff in Hignore. destruct Hignore as [Hi|Hi];
      [left; now apply empty_spec | right; now apply negb_true_iff]. }
  split; [|reflexivity].
  now apply (Hsecond first second more).
Qed.

(** X12: every text [get_reg_keys_data_filter_ignore] returns comes from a
    line of the file that, once decoded, does not start with the number sign
    and passes the two filters; it is the part of the decoded line between
    the first and the second equals sign (or the end of the line), without
    its quotes; so it holds no double quote and no equals sign, and a value
    that holds an equals sign is cut there. *)
Theorem get_reg_keys_data_results :
  forall (fs : FileSystem) (file_path key_name key_value_filter ignore_filter
          : string) (items : list string),
    get_reg_keys_data_filter_ignore fs file_path key_name key_value_filter
      ignore_filter = Ok items ->
    exists content : string,
      ifstream_open fs file_path = Some content
      /\ Forall
           (data_of key_value_filter ignore_filter
              (map fst (getlines content)))
           items.
Proof.
  intros fs file_path key_name f i items.
  unfold get_reg_keys_data_filter_ignore.
  destruct (ifstream_open fs file_path) as [content|]; [|discriminate].
  intros H. injection H as <-. exists content. split; [reflexivity|].
  apply data_loop_results.
Qed.

Lemma get_reg_keys_data_results_witness :
  get_reg_keys_data (Examples.one_file MoreExamples.run_reg) Examples.reg_path
    "[Software\\Microsoft\\Windows\\CurrentVersion\\Run]"
  = Ok ["C:\updater.exe /mode"; "tray.exe"; "sync.exe /from"]
  /\ exists content : string,
       ifstream_open (Examples.one_file MoreExamples.run_reg) Examples.reg_path
       = Some content
       /\ Forall (data_of "" "" (map fst (getlines content)))
            ["C:\updater.exe /mode"; "tray.exe"; "sync.exe /from"].
Proof.
  split; [reflexivity|].
  apply (get_reg_keys_data_results (Examples.one_file MoreExamples.run_reg)
           Examples.reg_path
           "[Software\\Microsoft\\Windows\\CurrentVersion\\Run]" "" "").
  reflexivity.
Defined.

Lemma data_loop_subsequence (key_name key_value_filter ignore_filter : string)
    (matched : bool) (lines : list (string * bool)) :
  subsequence
    (get_reg_keys_data_loop key_name key_value_filter ignore_filter matched
       lines)
    (get_reg_keys_data_loop key_name "" "" matched lines).
Proof.
  revert matched. induction lines as [|[l e] lines IH]; intros matched;
    [constructor|].
  cbn [get_reg_keys_data_loop].
  destruct matched; cbn [negb]; [|apply IH].
  destruct (empty l || e); [constructor|].
  cbn [empty orb andb]. rewrite !andb_true_r.
  destruct (starts_with_char "#" (unescape_reg_key_data l)); cbn [negb andb];
    [apply IH|].
  destruct (split (unescape_reg_key_data l) "=") as [|first [|second more]];
    try (match goal with |- context [if ?c then _ else _] => destruct c end;
         apply IH).
  match goal with |- context [if ?c then _ else _] => destruct c end.
  - apply subsequence_keep, IH.
  - apply subsequence_skip, IH.
Qed.

(** X13: the two filters only leave lines out: what
    [get_reg_keys_data_filter_ignore] returns with filters, as
    [get_menu_items] calls it, is what [get_reg_keys_data] returns for the
    same file and key with some of the texts left out, in the same order. *)
Theorem get_reg_keys_data_filters_only_remove :
  forall (fs : FileSystem) (file_path key_name key_value_filter ignore_filter
          : string) (items : list string),
    get_reg_keys_data_filter_ignore fs file_path key_name key_value_filter
      ignore_filter = Ok items ->
    exists all : list string,
      get_reg_keys_data fs file_path key_name = Ok all
      /\ subsequence items all.
Proof.
  intros fs file_path key_name f i items.
  unfold get_reg_keys_data, get_reg_keys_data_filter,
    get_reg_keys_data_filter_ignore.
  destruct (ifstream_open fs file_path); [|discriminate].
  intros H. injection H as <-. eexists. split; [reflexivity|].
  apply data_loop_subsequence.
Qed.

Lemma get_reg_keys_data_filters_only_remove_witness :
  get_menu_items join_path MoreExamples.menu_bottle Examples.bottle
  = Ok ["C:\users\Public\Start Menu\Programs\Notepad.lnk"]
  /\ exists all : list string,
       get_reg_keys_data MoreExamples.menu_bottle
         (join_path Examples.bottle UserReg) RegKeyMenuFiles = Ok all
       /\ subsequence ["C:\users\Public\Start Menu\Programs\Notepad.lnk"] all.
Proof.
  split; [reflexivity|].
  apply (get_reg_keys_data_filters_only_remove MoreExamples.menu_bottle
           (join_path Examples.bottle UserReg) RegKeyMenuFiles
           "Start Menu" "applications-merged").
  reflexivity.
Defined.

(** ** The settings of a bottle *)

Lemma meta_loop_found pattern (pre : list (string * bool)) line el post pos :
  no_occurrence pattern pre -> find pattern line = Some pos ->
  get_reg_meta_data_loop pattern (pre ++ (line, el) :: post)
  = erase_remove dquote (substr (pos + String.length pattern) line).
Proof.
  induction 1 as [|[l e] pre Hl _ IH]; intros Hfind; simpl.
  - now rewrite Hfind.
  - simpl in Hl. rewrite Hl. now apply IH.
Qed.

Section SettingsFacts.

Variable build_filename : string -> string -> string.

(** X14: the bitness of a bottle is read from the first line of user.reg
    that contains [#arch=], wherever in the file it stands: when that line
    is the meta line of win32 or of win64, [get_windows_bitness] returns that
    bitness. *)
Theorem get_windows_bitness_of_arch_line :
  forall (fs : FileSystem) (prefix_path content : string) (bit : Bit)
         (pre : list (string * bool)) (el : bool)
         (post : list (string * bool)),
    ifstream_open fs (build_filename prefix_path UserReg) = Some content ->
    getlines content
    = (pre ++ (meta_line "arch" (arch_of bit), el) :: post)%list ->
    no_occurrence (meta_pattern_of "arch") pre ->
    get_windows_bitness build_filename fs prefix_path = Ok bit.
Proof.
  intros fs prefix_path content bit pre el post Hopen Hlines Hpre.
  unfold get_windows_bitness, get_reg_meta_data.
  rewrite Hopen, Hlines.
  rewrite meta_loop_found with (pos := 0);
    [|assumption|now destruct bit].
  now destruct bit.
Qed.

(** X15: [get_windows_bitness] returns a bitness exactly when the meta value
    [arch] of user.reg is the text [win32] or [win64] of that bitness; for
    every other value, the empty one of a file without the meta line
    included, and for a file that cannot be opened, it throws a
    [std::runtime_error]. *)
Theorem get_windows_bitness_exact :
  forall (fs : FileSystem) (prefix_path : string),
    (forall bit : Bit,
        get_windows_bitness build_filename fs prefix_path = Ok bit
        <-> get_reg_meta_data fs (build_filename prefix_path UserReg) "arch"
            = Ok (arch_of bit))
    /\ ((forall bit : Bit,
            get_reg_meta_data fs (build_filename prefix_path UserReg) "arch"
            <> Ok (arch_of bit)) ->
        exists what : string,
          get_windows_bitness build_filename fs prefix_path
          = Throw (runtime_error what)).
Proof.
  intros fs prefix_path. unfold get_windows_bitness.
  destruct (get_reg_meta_data fs (build_filename prefix_path UserReg) "arch")
    as [value|e] eqn:Hmeta; cbn [bind].
  - destruct (String.eqb_spec value "win32") as [->|H32].
    { cbn. split.
      - intros bit. split; intros H; destruct bit; simpl in *; congruence.
      - intros Hno. now elim (Hno win32). }
    destruct (String.eqb_spec value "win64") as [->|H64].
    { cbn. split.
      - intros bit. split; intros H; destruct bit; simpl in *; congruence.
      - intros Hno. now elim (Hno win64). }
    split.
    + intros bit. split.
      * destruct (negb (empty value)); discriminate.
      * intros H. injection H as H. destruct bit; simpl in H; congruence.
    + intros _. destruct (negb (empty value)); eexists; reflexivity.
  - split.
    + intros bit. split; discriminate.
    + intros _. unfold get_reg_meta_data in Hmeta.
      destruct (ifstream_open fs (build_filename prefix_path UserReg));
        [discriminate|].
      injection Hmeta as <-. eexists; reflexivity.
Qed.

(** X16: when user.reg can be opened [get_audio_driver] returns a driver and
    throws nothing; a driver other than PulseAudio is returned only when the
    [Audio] value of the drivers key is the text of that driver: an absent
    value and a text that is no driver's give PulseAudio. *)
Theorem get_audio_driver_defaults_to_pulseaudio :
  forall (fs : FileSystem) (prefix_path : string),
    (forall content : string,
        ifstream_open fs (build_filename prefix_path UserReg) = Some content ->
        exists driver : AudioDriver,
          get_audio_driver build_filename fs prefix_path = Ok driver)
    /\ (forall driver : AudioDriver,
           get_audio_driver build_filename fs prefix_path = Ok driver ->
           driver <> pulseaudio ->
           get_reg_value fs (build_filename prefix_path UserReg)
             RegKeyAudio RegNameAudio = Ok (audio_value_of driver)).
Proof.
  intros fs prefix_path. unfold get_audio_driver. split.
  - intros content Hopen. unfold get_reg_value. rewrite Hopen. cbn [bind].
    repeat match goal with
           | |- context [if ?c then _ else _] => destruct c
           end; eexists; reflexivity.
  - intros driver.
    destruct (get_reg_value fs (build_filename prefix_path UserReg)
                RegKeyAudio RegNameAudio) as [value|e]; cbn [bind];
      [|discriminate].
    destruct value as [|c v]; cbn [empty negb];
      [intros H Hne; injection H as <-; now elim Hne|].
    repeat match goal with
           | |- context [String.eqb ?a ?b] =>
               destruct (String.eqb_spec a b) as [->|?]
           end;
      intros H Hne; injection H as <-; try reflexivity; now elim Hne.
Qed.

Variable file_test_is_regular : string -> bool.
Variable WindowsEnumSize : nat.
Variable to_string : Windows -> string.
Variable WindowsOs : Windows.

(** X17: [get_bottle_status] is true exactly when the prefix and its
    dosdevices are directories, system.reg is a regular file, and
    [get_windows_version] returns a version; it is false when one of the
    three is missing or the version ends in a [std::runtime_error]; and a
    [std::out_of_range] of [get_windows_version] is not caught: the status
    check throws it on. *)
Theorem get_bottle_status_exact :
  forall (fs : FileSystem) (prefix_path : string),
    let present :=
      dir_exists fs prefix_path
      && dir_exists fs (build_filename prefix_path "dosdevices")
      && file_test_is_regular (build_filename prefix_path SystemReg) in
    let version :=
      get_windows_version build_filename WindowsEnumSize to_string WindowsOs
        fs prefix_path in
    (get_bottle_status build_filename file_test_is_regular WindowsEnumSize
       to_string WindowsOs fs prefix_path = Ok true
     <-> present = true /\ exists w, version = Ok w)
    /\ (get_bottle_status build_filename file_test_is_regular WindowsEnumSize
          to_string WindowsOs fs prefix_path = Ok false
        <-> present = false \/ exists what, version = Throw (runtime_error what))
    /\ (forall index size,
           get_bottle_status build_filename file_test_is_regular
             WindowsEnumSize to_string WindowsOs fs prefix_path
           = Throw (out_of_range index size)
           <-> present = true /\ version = Throw (out_of_range index size)).
Proof.
  intros fs prefix_path present version.
  unfold get_bottle_status, file_exists. fold present. fold version.
  destruct present; destruct version as [w|[what|index size|path]];
    (split; [|split; [|intros index' size']]); split; intros H;
    repeat match goal with
           | H : _ /\ _ |- _ => destruct H
           | H : exists _, _ |- _ => destruct H
           | H : _ \/ _ |- _ => destruct H
           end;
    try discriminate;
    repeat match goal with
           | H : Throw _ = Throw _ |- _ => injection H as -> ->
           end;
    try reflexivity;
    try (split; [reflexivity | first [now eexists | reflexivity]]);
    try (right; now eexists);
    try (now left).
Qed.

End SettingsFacts.

Lemma get_windows_bitness_of_arch_line_witness :
  get_windows_bitness join_path MoreExamples.menu_bottle Examples.bottle
  = Ok win64.
Proof.
  apply (get_windows_bitness_of_arch_line join_path MoreExamples.menu_bottle
           Examples.bottle (unlines MoreExamples.menu_reg) win64
           [("WINE REGISTRY Version 2", false)] false
           (skipn 2 (getlines (unlines MoreExamples.menu_reg)))).
  - reflexivity.
  - reflexivity.
  - each_line.
Defined.

Lemma get_windows_bitness_exact_witness :
  get_windows_bitness join_path MoreExamples.menu_bottle Examples.bottle
  = Ok win64
  /\ exists what : string,
       get_windows_bitness join_path
         (Examples.one_file Examples.explorer_reg) Examples.bottle
       = Throw (runtime_error what).
Proof.
  split.
  - apply (get_windows_bitness_exact join_path MoreExamples.menu_bottle
             Examples.bottle). reflexivity.
  - apply (get_windows_bitness_exact join_path
             (Examples.one_file Examples.explorer_reg) Examples.bottle).
    intros bit. destruct bit; discriminate.
Defined.

Lemma get_audio_driver_defaults_to_pulseaudio_witness :
  (exists driver : AudioDriver,
      get_audio_driver join_path MoreExamples.menu_bottle Examples.bottle
      = Ok driver)
  /\ get_audio_driver join_path MoreExamples.menu_bottle Examples.bottle
     = Ok pulseaudio.
Proof.
  split; [|reflexivity].
  apply (proj1 (get_audio_driver_defaults_to_pulseaudio join_path
                  MoreExamples.menu_bottle Examples.bottle)
           (unlines MoreExamples.menu_reg)).
  reflexivity.
Defined.

Lemma get_bottle_status_exact_witness :
  get_bottle_status join_path MoreExamples.is_registry_file 19 windows_name
    WindowsXP MoreExamples.nt_bottle Examples.bottle = Ok true
  /\ get_bottle_status join_path MoreExamples.is_registry_file 19 windows_name
       WindowsXP (Examples.bottle_with Examples.system_reg_nt) Examples.bottle
     = Ok false
  /\ get_bottle_status join_path MoreExamples.is_registry_file 19 windows_name
       WindowsXP MoreExamples.old_bottle Examples.bottle
     = Throw (out_of_range 2 2).
Proof.
  split; [|split].
  - apply (get_bottle_status_exact join_path MoreExamples.is_registry_file 19
             windows_name WindowsXP MoreExamples.nt_bottle Examples.bottle).
    split; [reflexivity | now eexists].
  - apply (get_bottle_status_exact join_path MoreExamples.is_registry_file 19
             windows_name WindowsXP
             (Examples.bottle_with Examples.system_reg_nt) Examples.bottle).
    now left.
  - apply (get_bottle_status_exact join_path MoreExamples.is_registry_file 19
             windows_name WindowsXP MoreExamples.old_bottle Examples.bottle).
    split; reflexivity.
Defined.

(** ** More on the version resolver *)

Lemma version_tag_loop_find (tag : string) (tbl : list WindowsVersionEntry) :
  version_tag_loop tag tbl
  = option_map windows
      (List.find (fun e => String.eqb (version e) tag) tbl).
Proof.
  induction tbl as [|e tbl IH]; simpl; [reflexivity|].
  now destruct (String.eqb (version e) tag).
Qed.

Lemma nt_build_loop_no_type (version_nt build_number_nt : string)
    (tbl : list WindowsVersionEntry) :
  nt_build_loop version_nt build_number_nt "" tbl
  = option_map windows
      (List.find (fun e => String.eqb (versionNumber e) version_nt
                           && String.eqb (buildNumber e) build_number_nt)
         tbl).
Proof.
  induction tbl as [|e tbl IH]; simpl; [reflexivity|].
  now destruct (String.eqb (versionNumber e) version_nt
                && String.eqb (buildNumber e) build_number_nt).
Qed.

Lemma nt_version_loop_no_type (version_nt : string)
    (tbl : list WindowsVersionEntry) :
  nt_version_loop version_nt "" tbl
  = option_map windows
      (List.find (fun e => String.eqb (versionNumber e) version_nt) tbl).
Proof.
  induction tbl as [|e tbl IH]; simpl; [reflexivity|].
  now destruct (String.eqb (versionNumber e) version_nt).
Qed.

Lemma legacy_loop_find (current_version current_build_number : string)
    (tbl : list WindowsVersionEntry) :
  legacy_loop current_version current_build_number tbl
  = option_map windows
      (List.find (fun e => String.eqb (versionNumber e) current_version
                           && String.eqb (buildNumber e) current_build_number)
         tbl).
Proof.
  induction tbl as [|e tbl IH]; simpl; [reflexivity|].
  now destruct (String.eqb (versionNumber e) current_version
                && String.eqb (buildNumber e) current_build_number).
Qed.

(** Every entry of the table has a version tag. *)
Lemma table_tag_not_empty (e : WindowsVersionEntry) :
  In e WindowsVersions -> version e <> "".
Proof.
  intros He. vm_compute in He.
  repeat (destruct He as [<-|He]; [discriminate|]). elim He.
Qed.

Lemma contains_at_start (p s : string) : contains p (p ++ s) = true.
Proof.
  unfold contains. now rewrite find_at_start by apply prefix_append.
Qed.

Lemma contains_append_l (p a s : string) :
  contains p s = true -> contains p (a ++ s) = true.
Proof.
  unfold contains. intros H. induction a as [|c a IH]; [exact H|].
  cbn [append find].
  destruct (String.prefix p (String c (a ++ s))); [reflexivity|].
  destruct (find p (a ++ s)); [reflexivity | discriminate IH].
Qed.

Lemma contains_append_r (p s b : string) :
  contains p s = true -> contains p (s ++ b) = true.
Proof.
  unfold contains. revert p. induction s as [|c s IH]; intros p H.
  - destruct p as [|d p]; [now destruct b | discriminate H].
  - cbn [append find]. cbn [find] in H.
    destruct (String.prefix p (String c s)) eqn:Hp.
    + apply prefix_inv in Hp. destruct Hp as [suffix Heq].
      change (String c (s ++ b)) with (String c s ++ b).
      rewrite Heq, append_assoc, prefix_append. reflexivity.
    + destruct (String.prefix p (String c (s ++ b))); [reflexivity|].
      specialize (IH p). destruct (find p s); [|discriminate H].
      now destruct (find p (s ++ b)); [|discriminate (IH eq_refl)].
Qed.

Section MoreResolverFacts.

Variable build_filename : string -> string -> string.
Variable WindowsEnumSize : nat.
Variable to_string : Windows -> string.
Variable WindowsOs : Windows.

(** With no known version tag in the user registry the resolver goes on to
    the system registry. *)
Lemma get_windows_version_unknown_tag (fs : FileSystem)
    (prefix_path tag : string) :
  get_reg_value fs (build_filename prefix_path UserReg)
    RegKeyWine RegNameWindowsVersion = Ok tag ->
  List.find (fun e => String.eqb (version e) tag) (visited WindowsEnumSize)
  = None ->
  get_windows_version build_filename WindowsEnumSize to_string WindowsOs
    fs prefix_path
  = system_registry build_filename WindowsEnumSize to_string WindowsOs
      fs prefix_path.
Proof.
  intros Huser Hfind. unfold get_windows_version.
  rewrite Huser. cbn [bind]. rewrite version_tag_loop_find, Hfind.
  now destruct (negb (empty tag)).
Qed.

(** X18: the user registry comes first: when the [Version] value under the
    Wine key of user.reg is the tag of an entry the loop visits, the
    resolver returns the Windows version of the first such entry, and
    system.reg is not read at all (it may be missing). *)
Theorem get_windows_version_user_tag_first :
  forall (fs : FileSystem) (prefix_path tag : string)
         (e : WindowsVersionEntry),
    WindowsEnumSize <= List.length WindowsVersions ->
    get_reg_value fs (build_filename prefix_path UserReg)
      RegKeyWine RegNameWindowsVersion = Ok tag ->
    List.find (fun e => String.eqb (version e) tag) (visited WindowsEnumSize)
    = Some e ->
    get_windows_version build_filename WindowsEnumSize to_string WindowsOs
      fs prefix_path = Ok (windows e).
Proof.
  intros fs prefix_path tag e _ Huser Hfind. unfold get_windows_version.
  rewrite Huser. cbn [bind]. rewrite version_tag_loop_find, Hfind.
  apply find_some in Hfind. destruct Hfind as [He Htag].
  apply String.eqb_eq in Htag. apply visited_in_table in He.
  pose proof (table_tag_not_empty e He) as Hne. rewrite Htag in Hne.
  now rewrite (empty_false _ Hne).
Qed.

(** X19: in the NT branch without a product type the resolver returns the
    first visited entry with the version number and the build number of the
    registry; when there is none, the first with the version number alone;
    and when no entry has the version number it throws the error of an
    undetermined version. *)
Theorem nt_without_product_type :
  forall (fs : FileSystem) (prefix_path tag version_nt build_number_nt
          : string),
    WindowsEnumSize <= List.length WindowsVersions ->
    get_reg_value fs (build_filename prefix_path UserReg)
      RegKeyWine RegNameWindowsVersion = Ok tag ->
    List.find (fun e => String.eqb (version e) tag) (visited WindowsEnumSize)
    = None ->
    get_reg_value fs (build_filename prefix_path SystemReg)
      RegKeyNameNT RegNameNTVersion = Ok version_nt ->
    version_nt <> "" ->
    get_reg_value fs (build_filename prefix_path SystemReg)
      RegKeyNameNT RegNameNTBuildNumber = Ok build_number_nt ->
    get_reg_value fs (build_filename prefix_path SystemReg)
      RegKeyType RegNameProductType = Ok "" ->
    get_windows_version build_filename WindowsEnumSize to_string WindowsOs
      fs prefix_path
    = match List.find
              (fun e => String.eqb (versionNumber e) version_nt
                        && String.eqb (buildNumber e) build_number_nt)
              (visited WindowsEnumSize) with
      | Some e => Ok (windows e)
      | None =>
          match List.find (fun e => String.eqb (versionNumber e) version_nt)
                  (visited WindowsEnumSize) with
          | Some e => Ok (windows e)
          | None =>
              Throw (runtime_error
                       (could_not_determine to_string WindowsOs prefix_path))
          end
      end.
Proof.
  intros fs prefix_path tag version_nt build_number_nt
         _ Huser Htag Hversion Hv Hbuild Htype.
  rewrite (get_windows_version_unknown_tag fs prefix_path tag Huser Htag).
  unfold system_registry.
  rewrite Hversion. cbn [bind]. rewrite (empty_false _ Hv). cbn [negb].
  rewrite Hbuild, Htype. cbn [bind].
  rewrite nt_build_loop_no_type, nt_version_loop_no_type. clear Htag.
  destruct (List.find (fun e => _ && _) _); [reflexivity|].
  now destruct (List.find _ _).
Qed.

(** X20: when the user registry gives no known tag and the system registry
    has neither the NT version nor the 9x version, the resolver throws a
    [std::runtime_error] whose text names the folder of the bottle and its
    full path. *)
Theorem get_windows_version_without_keys :
  forall (fs : FileSystem) (prefix_path tag : string),
    get_reg_value fs (build_filename prefix_path UserReg)
      RegKeyWine RegNameWindowsVersion = Ok tag ->
    List.find (fun e => String.eqb (version e) tag) (visited WindowsEnumSize)
    = None ->
    get_reg_value fs (build_filename prefix_path SystemReg)
      RegKeyNameNT RegNameNTVersion = Ok "" ->
    get_reg_value fs (build_filename prefix_path SystemReg)
      RegKeyName9x RegName9xVersion = Ok "" ->
    exists what : string,
      get_windows_version build_filename WindowsEnumSize to_string WindowsOs
        fs prefix_path = Throw (runtime_error what)
      /\ contains (get_folder_name prefix_path) what = true
      /\ contains prefix_path what = true.
Proof.
  intros fs prefix_path tag Huser Htag Hnt H9x.
  rewrite (get_windows_version_unknown_tag fs prefix_path tag Huser Htag).
  unfold system_registry. rewrite Hnt. cbn [bind empty negb].
  rewrite H9x. cbn [bind empty negb].
  eexists. split; [reflexivity|]. unfold could_not_determine. split.
  - do 3 apply contains_append_l. apply contains_at_start.
  - do 5 apply contains_append_l. rewrite <- (append_empty_r prefix_path) at 2.
    apply contains_at_start.
Qed.

(** X21: in the 9x branch a version of three or more parts never throws: the
    resolver returns the first visited entry whose version number is the
    first two parts joined by a dot and whose build number is the third
    part, and the default Windows version when there is none; parts after
    the third are not looked at. *)
Theorem legacy_three_part_version :
  forall (fs : FileSystem) (prefix_path tag version_9x major minor build
          : string) (more : list string),
    WindowsEnumSize <= List.length WindowsVersions ->
    get_reg_value fs (build_filename prefix_path UserReg)
      RegKeyWine RegNameWindowsVersion = Ok tag ->
    List.find (fun e => String.eqb (version e) tag) (visited WindowsEnumSize)
    = None ->
    get_reg_value fs (build_filename prefix_path SystemReg)
      RegKeyNameNT RegNameNTVersion = Ok "" ->
    get_reg_value fs (build_filename prefix_path SystemReg)
      RegKeyName9x RegName9xVersion = Ok version_9x ->
    split version_9x "." = major :: minor :: build :: more ->
    get_windows_version build_filename WindowsEnumSize to_string WindowsOs
      fs prefix_path
    = match List.find
              (fun e => String.eqb (versionNumber e) (major ++ "." ++ minor)
                        && String.eqb (buildNumber e) build)
              (visited WindowsEnumSize) with
      | Some e => Ok (windows e)
      | None => Ok WindowsOs
      end.
Proof.
  intros fs prefix_path tag version_9x major minor build more
         _ Huser Htag Hnt H9x Hsplit.
  rewrite (get_windows_version_unknown_tag fs prefix_path tag Huser Htag).
  unfold system_registry. rewrite Hnt. cbn [bind empty negb].
  rewrite H9x. cbn [bind].
  assert (Hne : empty version_9x = false)
    by (destruct version_9x; [discriminate Hsplit | reflexivity]).
  rewrite Hne. cbn [negb]. unfold legacy_branch. rewrite Hsplit.
  cbn. rewrite legacy_loop_find. clear Htag.
  now destruct (List.find _ _).
Qed.

End MoreResolverFacts.

Lemma get_windows_version_user_tag_first_witness :
  get_windows_version join_path 19 windows_name WindowsXP
    MoreExamples.win7_bottle Examples.bottle = Ok Windows7
  /\ ifstream_open MoreExamples.win7_bottle (join_path Examples.bottle SystemReg)
     = None.
Proof.
  split; [|reflexivity].
  apply (get_windows_version_user_tag_first join_path 19 windows_name
           WindowsXP MoreExamples.win7_bottle Examples.bottle "win7"
           (entry Windows7 "win7" "6.1" "7601" "WinNT")).
  - simpl. lia.
  - reflexivity.
  - reflexivity.
Defined.

Lemma nt_without_product_type_witness :
  get_windows_version join_path 19 windows_name WindowsXP
    (Examples.bottle_with MoreExamples.system_reg_new_build) Examples.bottle
  = Ok Windows10.
Proof.
  apply (nt_without_product_type join_path 19 windows_name WindowsXP
           (Examples.bottle_with MoreExamples.system_reg_new_build)
           Examples.bottle "" "10.0" "19044").
  - simpl. lia.
  - reflexivity.
  - reflexivity.
  - reflexivity.
  - discriminate.
  - reflexivity.
  - reflexivity.
Defined.

Lemma get_windows_version_without_keys_witness :
  exists what : string,
    get_windows_version join_path 19 windows_name WindowsXP
      (Examples.bottle_with MoreExamples.system_reg_no_version)
      Examples.bottle = Throw (runtime_error what)
    /\ contains "Steam" what = true
    /\ contains Examples.bottle what = true.
Proof.
  apply (get_windows_version_without_keys join_path 19 windows_name WindowsXP
           (Examples.bottle_with MoreExamples.system_reg_no_version)
           Examples.bottle ""); reflexivity.
Defined.

Lemma legacy_three_part_version_witness :
  get_windows_version join_path 19 windows_name WindowsXP
    (Examples.bottle_with MoreExamples.system_reg_win98) Examples.bottle
  = Ok Windows98.
Proof.
  apply (legacy_three_part_version join_path 19 windows_name WindowsXP
           (Examples.bottle_with MoreExamples.system_reg_win98)
           Examples.bottle "" "4.10.2222" "4" "10" "2222" []).
  - simpl. lia.
  - reflexivity.
  - reflexivity.
  - reflexivity.
  - reflexivity.
  - reflexivity.
Defined.

(** ** The folder name of a bottle *)

Lemma find_last_of_none (set s : string) :
  Forall (fun c => free_of c s) (list_ascii_of_string set) ->
  find_last_of set s = None.
Proof.
  intros Hfree. induction s as [|c s IH]; [reflexivity|]. simpl.
  rewrite IH.
  - destruct (existsb (Ascii.eqb c) (list_ascii_of_string set)) eqn:Hex;
      [|reflexivity].
    apply existsb_exists in Hex. destruct Hex as [d [Hd Heq]].
    apply Ascii.eqb_eq in Heq. subst d.
    rewrite Forall_forall in Hfree. specialize (Hfree c Hd).
    apply free_of_cons in Hfree. now destruct Hfree as [Hcc _].
  - eapply Forall_impl; [|exact Hfree].
    intros d Hd. apply free_of_cons in Hd. now destruct Hd.
Qed.

Lemma find_last_of_separator (set dir name : string) (sep : ascii) :
  In sep (list_ascii_of_string set) ->
  Forall (fun c => free_of c name) (list_ascii_of_string set) ->
  find_last_of set (dir ++ String sep name) = Some (String.length dir).
Proof.
  intros Hsep Hfree. induction dir as [|c dir IH].
  - cbn [append find_last_of]. rewrite find_last_of_none by assumption.
    replace (existsb (Ascii.eqb sep) (list_ascii_of_string set)) with true;
      [reflexivity|].
    symmetry. apply existsb_exists. exists sep. split; [assumption|].
    apply Ascii.eqb_refl.
  - cbn [append find_last_of]. now rewrite IH.
Qed.

Lemma substr_past_separator (dir name : string) (sep : ascii) :
  substr (String.length dir + 1) (dir ++ String sep name) = name.
Proof.
  induction dir as [|c dir IH]; [now destruct name | exact IH].
Qed.

(** X22: for a path that ends in a name after a slash or a backslash, the
    name holding neither, [get_bottle_dir_from_prefix] (and [get_folder_name])
    returns the name, without its first byte when that is a dot (one dot
    only); for a path with no slash and no backslash it returns the text
    [- Unknown -]. *)
Theorem get_bottle_dir_from_prefix_last_name :
  forall (dir name : string) (sep : ascii),
    sep = "/"%char \/ sep = backslash ->
    free_of "/" name -> free_of backslash name ->
    get_folder_name (dir ++ String sep name)
    = (if starts_with_char "." name then substr 1 name else name)
    /\ get_folder_name name = "- Unknown -".
Proof.
  intros dir name sep Hsep Hslash Hback.
  assert (Hfree : Forall (fun c => free_of c name)
                    (list_ascii_of_string "/\"))
    by (repeat constructor; assumption).
  unfold get_folder_name, get_bottle_dir_from_prefix. split.
  - rewrite find_last_of_separator;
      [|destruct Hsep as [->| ->]; simpl; auto|assumption].
    now rewrite substr_past_separator.
  - now rewrite find_last_of_none.
Qed.

Lemma get_bottle_dir_from_prefix_last_name_witness :
  get_folder_name "/home/user/.wine" = "wine"
  /\ get_folder_name ".wine" = "- Unknown -".
Proof.
  apply (get_bottle_dir_from_prefix_last_name "/home/user" ".wine" "/");
    [now left | no_such_char | no_such_char].
Defined.

(** ** The display name of an uninstaller *)

(** X23: [get_uninstaller] takes its argument for the beginning of a key:
    the first line of system.reg that starts with the uninstall key of the
    argument is the header, whatever follows the argument on that line, and
    the result is the value of the first [DisplayName] line after it,
    without its quotes. *)
Theorem get_uninstaller_display_name :
  forall (build_filename : string -> string -> string) (fs : FileSystem)
         (prefix_path uninstallerKey suffix content : string)
         (pre : list (string * bool)) (eh : bool)
         (skipped : list (string * bool)) (name : string) (el : bool)
         (post : list (string * bool)),
    ifstream_open fs (build_filename prefix_path SystemReg) = Some content ->
    getlines content
    = (pre ++ ((uninstall_key uninstallerKey ++ suffix)%string, eh)
           :: skipped ++ (value_line "DisplayName" name, el) :: post)%list ->
    no_header (uninstall_key uninstallerKey) pre ->
    no_occurrence (value_pattern_of "DisplayName") skipped ->
    get_uninstaller build_filename fs prefix_path uninstallerKey
    = Ok (erase_remove dquote name).
Proof.
  intros build_filename fs prefix_path uninstallerKey suffix content pre eh
         skipped name el post Hopen Hlines Hpre Hskipped.
  unfold get_uninstaller, get_reg_value. fold (uninstall_key uninstallerKey).
  rewrite Hopen, Hlines. f_equal.
  rewrite value_loop_header by (assumption || apply prefix_append).
  rewrite value_loop_found with (pos := 0);
    [|assumption
     |apply find_at_start; rewrite value_line_pattern; apply prefix_append].
  rewrite value_line_pattern, Nat.add_0_l, substr_append.
  apply erase_remove_quoted.
Qed.

Lemma get_uninstaller_display_name_witness :
  get_uninstaller join_path MoreExamples.uninstall_bottle Examples.bottle
    "7-Zip" = Ok "7-Zip Extra 9.20"
  /\ get_uninstaller join_path MoreExamples.uninstall_bottle Examples.bottle
       "7-Zip]" = Ok "7-Zip 21.07 (x64)".
Proof.
  split.
  - apply (get_uninstaller_display_name join_path
             MoreExamples.uninstall_bottle Examples.bottle "7-Zip"
             (" Extra]" ++ Examples.stamp)
             (unlines MoreExamples.uninstall_reg) [] false []
             "7-Zip Extra 9.20" false
             (skipn 2 (getlines (unlines MoreExamples.uninstall_reg))));
      try reflexivity; constructor.
  - apply (get_uninstaller_display_name join_path
             MoreExamples.uninstall_bottle Examples.bottle "7-Zip]"
             Examples.stamp
             (unlines MoreExamples.uninstall_reg)
             (firstn 3 (getlines (unlines MoreExamples.uninstall_reg))) false
             [(value_line "DisplayIcon" "C:\\Program Files\\7-Zip\\7zFM.exe",
               false)]
             "7-Zip 21.07 (x64)" false [("", false)]);
      try reflexivity; each_line.
Defined.

(** ** The version of Wine *)

Lemma split_length (s : string) (d : ascii) :
  List.length (split s d) = S (count_char d s).
Proof.
  induction s as [|c r IH]; simpl; [reflexivity|].
  destruct (Ascii.eqb c d); simpl; [now rewrite IH|].
  destruct (split r d); simpl in *; [discriminate IH | exact IH].
Qed.

Lemma count_char_zero (d : ascii) (s : string) :
  count_char d s = 0 <-> free_of d s.
Proof.
  induction s as [|c r IH]; simpl.
  - split; [intros _ [] | reflexivity].
  - rewrite free_of_cons. destruct (Ascii.eqb_spec c d) as [->|Hc]; simpl.
    + split; [discriminate | intros [H _]; now elim H].
    + rewrite IH. tauto.
Qed.

Lemma split_append_free (a b : string) (d : ascii) :
  free_of d a ->
  split (a ++ b) d
  = match split b d with
    | [] => [a]
    | h :: t => (a ++ h) :: t
    end.
Proof.
  induction a as [|c a IH]; intros Ha.
  - cbn [append]. pose proof (split_not_nil b d) as Hnil.
    destruct (split b d); [now elim Hnil | reflexivity].
  - apply free_of_cons in Ha. destruct Ha as [Hc Ha]. cbn [append split].
    destruct (Ascii.eqb_spec c d) as [->|_]; [now elim Hc|].
    rewrite IH by assumption. now destruct (split b d).
Qed.

Lemma free_of_append (d : ascii) (a b : string) :
  free_of d a -> free_of d b -> free_of d (a ++ b).
Proof.
  induction a as [|c a IH]; intros Ha Hb; [exact Hb|].
  apply free_of_cons in Ha. destruct Ha as [Hc Ha].
  cbn [append]. apply free_of_cons. split; [assumption | now apply IH].
Qed.

Lemma without_newlines_free (s : string) :
  free_of newline s -> without_newlines s = s.
Proof. apply erase_remove_absent. Qed.

Section CommandFacts.

Variable exec : string -> result string.

(** X24: when the output of [wine --version] is a name, a dash and a version
    that holds no dash, no space and no newline, followed by nothing, by a
    newline, or by a space or a dash and any text, [get_wine_version]
    returns that version: what stands after a second dash (as in 7.0-rc1) or
    after a space is cut off. *)
Theorem get_wine_version_of_output :
  forall (wine_64_bit : bool) (name version_text rest : string),
    exec (get_wine_executable_location wine_64_bit ++ " --version")
    = Ok (name ++ "-" ++ version_text ++ rest) ->
    free_of "-" name ->
    free_of "-" version_text -> free_of " " version_text ->
    free_of newline version_text ->
    rest = "" \/ rest = String newline ""
    \/ (exists t, rest = " " ++ t) \/ (exists t, rest = "-" ++ t) ->
    get_wine_version exec wine_64_bit = Ok version_text.
Proof.
  intros wine_64_bit name v rest Hexec Hname Hdash Hspace Hnl Hrest.
  unfold get_wine_version. rewrite Hexec. cbn [bind].
  assert (Hne : empty (name ++ "-" ++ v ++ rest) = false)
    by (destruct name; reflexivity).
  rewrite Hne. cbn [negb].
  change (name ++ "-" ++ v ++ rest) with (name ++ String "-" (v ++ rest)).
  rewrite split_append_delimiter by assumption.
  assert (Hfirst : exists piece more first more2,
             split (v ++ rest) "-" = piece :: more
             /\ split piece " " = first :: more2
             /\ without_newlines first = v).
  { destruct Hrest as [->|[->|[[t ->]|[t ->]]]].
    - rewrite append_empty_r, split_free by assumption.
      exists v, [], v, []. rewrite split_free by assumption.
      now rewrite without_newlines_free.
    - rewrite split_free
        by (apply free_of_append; [assumption | no_such_char]).
      exists (v ++ String newline ""), [], (v ++ String newline ""), [].
      rewrite split_free
        by (apply free_of_append; [assumption | no_such_char]).
      repeat split. unfold without_newlines.
      rewrite erase_remove_append, erase_remove_absent by assumption.
      apply append_empty_r.
    - rewrite split_append_free by assumption.
      cbn [append split]. change (Ascii.eqb " " "-") with false. cbv iota.
      destruct (split t "-") as [|h' t'].
      + exists (v ++ " "), [], v, [""]. repeat split.
        * change (v ++ " ") with (v ++ String " " "").
          now rewrite split_append_delimiter.
        * now apply without_newlines_free.
      + exists (v ++ String " " h'), t', v, (split h' " "). repeat split.
        * now rewrite split_append_delimiter.
        * now apply without_newlines_free.
    - cbn [append]. rewrite split_append_delimiter by assumption.
      exists v, (split t "-"), v, [].
      rewrite (split_free v " ") by assumption.
      now rewrite without_newlines_free. }
  destruct Hfirst as (piece & more & first & more2 & Hpieces & Hparts & Hv).
  rewrite Hpieces. cbn [List.length Nat.leb at_ nth_error bind].
  rewrite Hparts. cbn [List.length Nat.leb at_ nth_error bind].
  now rewrite Hv.
Qed.

(** X25: [get_wine_version] returns a version exactly when the output of the
    command holds a dash; for an output without one, the empty output
    included, it throws a [std::runtime_error], and an error of the command
    itself is thrown on. *)
Theorem get_wine_version_needs_dash :
  forall (wine_64_bit : bool),
    (forall output : string,
        exec (get_wine_executable_location wine_64_bit ++ " --version")
        = Ok output ->
        ((exists version_text,
             get_wine_version exec wine_64_bit = Ok version_text)
         <-> In "-"%char (list_ascii_of_string output))
        /\ (free_of "-" output ->
            exists what,
              get_wine_version exec wine_64_bit = Throw (runtime_error what)))
    /\ (forall e : exception,
           exec (get_wine_executable_location wine_64_bit ++ " --version")
           = Throw e ->
           get_wine_version exec wine_64_bit = Throw e).
Proof.
  intros wine_64_bit. unfold get_wine_version. split.
  - intros output ->. cbn [bind].
    destruct (count_char "-" output) as [|n] eqn:Hcount.
    + apply count_char_zero in Hcount.
      match goal with
      | |- ((exists v, ?X = Ok v) <-> _) /\ _ =>
          assert (Hthrow : exists what, X = Throw (runtime_error what))
      end.
      { destruct (negb (empty output)); [|eexists; reflexivity].
        cbv zeta. rewrite split_free by assumption.
        eexists; reflexivity. }
      destruct Hthrow as [what Hthrow]. split.
      * split; [|intros Hin; now elim Hcount].
        intros [v Hv]. rewrite Hthrow in Hv. discriminate Hv.
      * intros _. now exists what.
    + assert (Hin : In "-"%char (list_ascii_of_string output)).
      { destruct (in_dec ascii_dec "-"%char (list_ascii_of_string output))
          as [Hin|Hout]; [assumption|].
        apply count_char_zero in Hout. congruence. }
      assert (Hne : empty output = false)
        by (destruct output; [elim Hin | reflexivity]).
      rewrite Hne. cbn [negb]. cbv zeta.
      pose proof (split_length output "-") as Hlen. rewrite Hcount in Hlen.
      destruct (split output "-") as [|p1 [|p2 pieces]];
        try discriminate Hlen.
      cbn [List.length Nat.leb at_ nth_error bind].
      pose proof (split_not_nil p2 " ") as Hnil.
      destruct (split p2 " ") as [|q1 parts]; [now elim Hnil|].
      cbn [List.length Nat.leb at_ nth_error bind].
      split.
      * split; [intros _; exact Hin | intros _; now eexists].
      * intros Hfree. now elim Hfree.
  - intros e ->. reflexivity.
Qed.

(** X26: [determine_wine_executable] returns 0, 1 or -1 and nothing else;
    it returns 0 as soon as the shell finds the 32-bit wine, whatever the
    second command would give, and otherwise 1 or -1 as the shell finds the
    64-bit wine or not. *)
Theorem determine_wine_executable_cases :
  (forall status : Z,
      determine_wine_executable exec = Ok status ->
      (status = 0 \/ status = 1 \/ status = -1)%Z)
  /\ (forall output32 : string,
         exec (command_v WineExecutable) = Ok output32 ->
         without_newlines output32 = "0" ->
         determine_wine_executable exec = Ok 0%Z)
  /\ (forall output32 output64 : string,
         exec (command_v WineExecutable) = Ok output32 ->
         without_newlines output32 <> "0" ->
         exec (command_v WineExecutable64) = Ok output64 ->
         determine_wine_executable exec
         = Ok (if String.eqb (without_newlines output64) "0"
               then 1 else -1)%Z).
Proof.
  unfold determine_wine_executable, get_wine_executable_location.
  split; [|split].
  - intros status.
    destruct (exec (command_v WineExecutable)) as [o32|e]; cbn [bind];
      [|discriminate].
    destruct (negb (empty o32) && String.eqb (without_newlines o32) "0");
      cbn [Z.eqb bind Pos.eqb].
    + intros H. injection H as <-. now left.
    + destruct (exec (command_v WineExecutable64)) as [o64|e]; cbn [bind];
        [|discriminate].
      destruct (negb (empty o64) && String.eqb (without_newlines o64) "0");
        cbn [Z.eqb bind Pos.eqb]; intros H; injection H as <-; auto.
  - intros output32 -> Hzero. cbn [bind]. rewrite Hzero.
    destruct output32; [discriminate Hzero|]. reflexivity.
  - intros output32 output64 -> Hnot ->. cbn [bind].
    apply String.eqb_neq in Hnot. rewrite Hnot, andb_false_r.
    cbn [Z.eqb bind Pos.eqb].
    destruct (String.eqb_spec (without_newlines output64) "0") as [Hz|_].
    + destruct output64; [discriminate Hz|]. reflexivity.
    + rewrite andb_false_r. reflexivity.
Qed.

End CommandFacts.

Lemma get_wine_version_of_output_witness :
  get_wine_version MoreExamples.shell false = Ok "7.0".
Proof.
  apply (get_wine_version_of_output MoreExamples.shell false "wine" "7.0"
           ("-rc1 (Staging)" ++ String newline ""));
    try reflexivity; try no_such_char.
  right. right. right. now exists ("rc1 (Staging)" ++ String newline "").
Defined.

Lemma get_wine_version_needs_dash_witness :
  (exists version_text,
      get_wine_version MoreExamples.shell false = Ok version_text)
  /\ exists what,
       get_wine_version MoreExamples.shell true = Throw (runtime_error what).
Proof.
  split.
  - apply (proj1 (get_wine_version_needs_dash MoreExamples.shell false)
             ("wine-7.0-rc1 (Staging)" ++ String newline "") eq_refl).
    simpl. tauto.
  - apply (proj1 (get_wine_version_needs_dash MoreExamples.shell true)
             "" eq_refl).
    intros [].
Defined.

Lemma determine_wine_executable_cases_witness :
  determine_wine_executable MoreExamples.shell = Ok 0%Z.
Proof.
  apply (proj1 (proj2 (determine_wine_executable_cases MoreExamples.shell))
           ("0" ++ String newline "")); reflexivity.
Defined.

(** ** Values without quotes *)

Lemma value_loop_free_of_quote (key_name pattern : string) (matched : bool)
    (lines : list (string * bool)) :
  free_of dquote (get_reg_value_loop key_name pattern matched lines).
Proof.
  revert matched. induction lines as [|[l e] lines IH]; intros matched;
    [intros []|].
  cbn [get_reg_value_loop]. destruct matched; cbn [negb]; [|apply IH].
  destruct (find pattern l); [apply free_of_erase_remove | apply IH].
Qed.

Lemma meta_loop_free_of_quote (pattern : string)
    (lines : list (string * bool)) :
  free_of dquote (get_reg_meta_data_loop pattern lines).
Proof.
  induction lines as [|[l e] lines IH]; [intros []|].
  cbn [get_reg_meta_data_loop].
  destruct (find pattern l); [apply free_of_erase_remove | exact IH].
Qed.

(** X27: no value [get_reg_value] or [get_reg_meta_data] returns holds a
    double quote, whatever the file holds: a value that is compared with a
    text in quotes never matches. *)
Theorem registry_values_have_no_quote :
  forall (fs : FileSystem) (file_path key_name value_name value : string),
    (get_reg_value fs file_path key_name value_name = Ok value ->
     free_of dquote value)
    /\ (get_reg_meta_data fs file_path value_name = Ok value ->
        free_of dquote value).
Proof.
  intros fs file_path key_name value_name value.
  unfold get_reg_value, get_reg_meta_data.
  destruct (ifstream_open fs file_path); split; try discriminate;
    intros H; injection H as <-.
  - apply value_loop_free_of_quote.
  - apply meta_loop_free_of_quote.
Qed.

Lemma registry_values_have_no_quote_witness :
  free_of dquote "say \hi\".
Proof.
  apply (proj1 (registry_values_have_no_quote
                  (Examples.one_file Examples.shell_reg) Examples.reg_path
                  "[Software\\Classes\\txtfile" "Command" "say \hi\")).
  reflexivity.
Defined.

(** ** The values of a section *)

Lemma unescape_from_plain (s : string) :
  free_of backslash s -> free_of NUL s -> unescape_from s = s.
Proof.
  induction s as [|c s IH]; intros Hbs Hnul; [reflexivity|].
  apply free_of_cons in Hbs, Hnul.
  destruct Hbs as [Hc1 Hbs], Hnul as [Hc2 Hnul]. cbn [unescape_from].
  destruct (Ascii.eqb_spec c NUL) as [->|_]; [now elim Hc2|].
  destruct (Ascii.eqb_spec c backslash) as [->|_]; [now elim Hc1|].
  now rewrite IH.
Qed.

Lemma plain_value_line (name value : string) :
  plain name -> plain value ->
  unescape_reg_key_data (value_line name value) = value_line name value
  /\ split (value_line name value) "=" = [quoted name; quoted value]
  /\ starts_with_char "#" (value_line name value) = false.
Proof.
  intros (Hn1 & Hn2 & Hn3 & Hn4) (Hv1 & Hv2 & Hv3 & Hv4).
  assert (Hquoted : forall c s, c <> dquote -> free_of c s ->
                               free_of c (quoted s)).
  { intros c s Hc Hs. unfold quoted. apply free_of_cons. split; [congruence|].
    apply free_of_append; [assumption|].
    apply free_of_cons. split; [congruence | intros []]. }
  split; [|split; [|reflexivity]].
  - apply unescape_from_plain; unfold value_line;
      (apply free_of_append; [now apply Hquoted|]);
      (apply free_of_cons; split; [discriminate|]);
      now apply Hquoted.
  - unfold value_line. cbn [append].
    rewrite split_append_delimiter by now apply Hquoted.
    now rewrite split_free by now apply Hquoted.
Qed.

Lemma data_loop_plain_section (key_name : string)
    (pairs : list (string * string)) (rest : list (string * bool)) :
  Forall (fun p => plain (fst p) /\ plain (snd p)) pairs ->
  get_reg_keys_data_loop key_name "" "" true
    (map (fun p => (value_line (fst p) (snd p), false)) pairs ++ rest)
  = (map snd pairs ++ get_reg_keys_data_loop key_name "" "" true rest)%list.
Proof.
  induction 1 as [|[name value] pairs [Hname Hvalue] _ IH]; [reflexivity|].
  cbn [map app fst snd get_reg_keys_data_loop negb].
  destruct (plain_value_line name value Hname Hvalue) as (Hun & Hsplit & Hsharp).
  replace (empty (value_line name value)) with false by reflexivity.
  cbn [orb]. rewrite Hun, Hsharp, Hsplit. cbn [negb empty orb andb].
  rewrite IH, erase_remove_quoted.
  destruct Hvalue as (_ & _ & _ & Hq).
  now rewrite erase_remove_absent by exact Hq.
Qed.

(** X28: for a section whose lines give names and values that hold no
    backslash, NUL byte, equals sign or double quote, [get_reg_keys_data]
    returns the values, one for each line and in the order of the lines. *)
Theorem get_reg_keys_data_plain_values :
  forall (fs : FileSystem) (file_path key_name content : string)
         (pre : list (string * bool)) (hdr : string) (eh : bool)
         (pairs : list (string * string)) (stop : string * bool)
         (later : list (string * bool)),
    ifstream_open fs file_path = Some content ->
    getlines content
    = (pre ++ (hdr, eh)
           :: map (fun p => (value_line (fst p) (snd p), false)) pairs
           ++ stop :: later)%list ->
    no_header key_name pre ->
    starts_with key_name hdr = true ->
    Forall (fun p => plain (fst p) /\ plain (snd p)) pairs ->
    fst stop = "" \/ snd stop = true ->
    get_reg_keys_data fs file_path key_name = Ok (map snd pairs).
Proof.
  intros fs file_path key_name content pre hdr eh pairs [sl se] later
         Hopen Hlines Hpre Hhdr Hpairs Hstop.
  unfold get_reg_keys_data, get_reg_keys_data_filter,
    get_reg_keys_data_filter_ignore.
  rewrite Hopen, Hlines. f_equal.
  rewrite data_loop_header by assumption.
  rewrite data_loop_plain_section by assumption.
  cbn [get_reg_keys_data_loop negb]. simpl in Hstop.
  destruct Hstop as [->| ->]; [|rewrite orb_true_r]; apply app_nil_r.
Qed.

Ltac plain_text := repeat split; no_such_char.

Lemma get_reg_keys_data_plain_values_witness :
  get_reg_keys_data
    (Examples.bottle_with Examples.system_reg_nt)
    (join_path Examples.bottle SystemReg) RegKeyNameNT
  = Ok ["7601"; "7601"; "6.1"].
Proof.
  apply (get_reg_keys_data_plain_values
           (Examples.bottle_with Examples.system_reg_nt)
           (join_path Examples.bottle SystemReg) RegKeyNameNT
           (unlines Examples.system_reg_nt)
           (firstn 3 (getlines (unlines Examples.system_reg_nt)))
           (RegKeyNameNT ++ Examples.stamp) false
           [("CurrentBuild", "7601"); ("CurrentBuildNumber", "7601");
            ("CurrentVersion", "6.1")]
           ("", false) []).
  - reflexivity.
  - reflexivity.
  - each_line.
  - reflexivity.
  - repeat constructor; plain_text.
  - now left.
Defined.

(** ** The location of an image *)

Section ImageFacts.

Variable system_data_dirs : list string.
Variable build_path : list string -> string.
Variable build_filename : string -> string -> string.
Variable file_test_is_regular : string -> bool.

Lemma image_in_data_dirs_found (data_dirs : list string)
    (filename file_path : string) :
  image_in_data_dirs build_path file_test_is_regular data_dirs filename
  = Some file_path ->
  file_test_is_regular file_path = true
  /\ exists data_dir,
       In data_dir data_dirs
       /\ file_path = build_path [data_dir; "winegui"; "images"; filename].
Proof.
  induction data_dirs as [|d rest IH]; [discriminate|].
  cbn [image_in_data_dirs]. unfold file_exists.
  destruct (file_test_is_regular
              (build_path [d; "winegui"; "images"; filename])) eqn:Hd.
  - intros H. injection H as <-. split; [assumption|].
    exists d. split; [now left | reflexivity].
  - intros H. destruct (IH H) as [Hreg [d' [Hin Heq]]].
    split; [assumption|]. exists d'. split; [now right | assumption].
Qed.

Lemma image_in_data_dirs_none (data_dirs : list string) (filename : string) :
  image_in_data_dirs build_path file_test_is_regular data_dirs filename = None ->
  forall data_dir,
    In data_dir data_dirs ->
    file_test_is_regular
      (build_path [data_dir; "winegui"; "images"; filename]) = false.
Proof.
  induction data_dirs as [|d rest IH]; [intros _ d []|].
  cbn [image_in_data_dirs]. unfold file_exists.
  destruct (file_test_is_regular
              (build_path [d; "winegui"; "images"; filename])) eqn:Hd;
    [discriminate|].
  intros H d' [<-|Hin]; [assumption | now apply IH].
Qed.

(** X29: the path [get_image_location] returns is empty or the path of a
    regular file; and when the image is installed under one of the system
    data directories, the path returned is under a system data directory,
    whatever the local image directories hold. *)
Theorem get_image_location_exists :
  forall filename : string,
    let location :=
      get_image_location system_data_dirs build_path build_filename
        file_test_is_regular filename in
    (location <> "" -> file_test_is_regular location = true)
    /\ (forall data_dir,
           In data_dir system_data_dirs ->
           file_test_is_regular
             (build_path [data_dir; "winegui"; "images"; filename]) = true ->
           exists data_dir',
             In data_dir' system_data_dirs
             /\ location
                = build_path [data_dir'; "winegui"; "images"; filename]).
Proof.
  intros filename location. unfold location, get_image_location.
  destruct (image_in_data_dirs build_path file_test_is_regular
              system_data_dirs filename) as [file_path|] eqn:Hloop.
  - apply image_in_data_dirs_found in Hloop.
    destruct Hloop as [Hreg Hdir]. split; [intros _; exact Hreg|].
    intros _ _ _. exact Hdir.
  - split.
    + unfold file_exists.
      destruct (file_test_is_regular (build_filename "../images" filename))
        eqn:H1; [intros _; exact H1|].
      destruct (file_test_is_regular (build_filename "../../images" filename))
        eqn:H2; [intros _; exact H2|].
      intros H. now elim H.
    + intros d Hin Hreg.
      rewrite (image_in_data_dirs_none _ _ Hloop d Hin) in Hreg.
      discriminate Hreg.
Qed.

End ImageFacts.

Lemma get_image_location_exists_witness :
  get_image_location ["/usr/local/share"; "/usr/share"]
    (fun parts => join parts "/") join_path
    (fun path => String.eqb path "/usr/share/winegui/images/logo.png"
                 || String.eqb path "../images/logo.png")
    "logo.png"
  = "/usr/share/winegui/images/logo.png".
Proof.
  destruct (proj2 (get_image_location_exists
                     ["/usr/local/share"; "/usr/share"]
                     (fun parts => join parts "/") join_path
                     (fun path =>
                        String.eqb path "/usr/share/winegui/images/logo.png"
                        || String.eqb path "../images/logo.png")
                     "logo.png")
                  "/usr/share" (or_intror (or_introl eq_refl)) eq_refl)
    as [d [Hin Heq]].
  reflexivity.
Defined.

(** ** The encoding of a code point *)

Lemma code_to_char (z : Z) : (0 <= z < 256)%Z -> code (to_char z) = z.
Proof.
  intros Hz. unfold code, to_char.
  rewrite Z.mod_small by lia.
  rewrite N_ascii_embedding by lia.
  apply Z2N.id. lia.
Qed.

Lemma lor_lead (lead bound x : Z) :
  In (lead, bound) [(0xc0, 32); (0xe0, 16); (0xf0, 8); (0xf8, 4); (0xfc, 2);
                    (0x80, 64)]%Z ->
  (0 <= x < bound)%Z -> Z.lor lead x = (lead + x)%Z.
Proof.
  intros Hin Hx.
  assert (Hnat : exists n : nat, x = Z.of_nat n /\ (n < 64)%nat).
  { exists (Z.to_nat x). split; [lia|].
    simpl in Hin.
    repeat (destruct Hin as [Hin|Hin]; [injection Hin as <- <-; lia|]).
    elim Hin. }
  destruct Hnat as [n [-> Hn]].
  simpl in Hin.
  repeat (destruct Hin as [Hin|Hin];
          [injection Hin as <- <-;
           do 64 (destruct n as [|n]; [reflexivity || lia|]); lia|]).
  elim Hin.
Qed.

Lemma continuation_byte (x : Z) :
  (0 <= x)%Z ->
  code (to_char (Z.lor 0x80 (Z.land x 0x3f))) = (0x80 + x mod 64)%Z.
Proof.
  intros Hx. change 0x3f%Z with (Z.ones 6). rewrite Z.land_ones by lia.
  change (2 ^ 6)%Z with 64%Z.
  pose proof (Z.mod_pos_bound x 64 ltac:(lia)).
  rewrite (lor_lead 0x80 64) by (simpl; auto 10 || lia).
  apply code_to_char. lia.
Qed.

Lemma lead_byte (lead bound x : Z) :
  In (lead, bound) [(0xc0, 32); (0xe0, 16); (0xf0, 8); (0xf8, 4); (0xfc, 2)]%Z ->
  (0 <= x < bound)%Z ->
  code (to_char (Z.lor lead x)) = (lead + x)%Z.
Proof.
  intros Hin Hx.
  rewrite (lor_lead lead bound) by (simpl in *; intuition lia || assumption).
  apply code_to_char. simpl in Hin.
  repeat (destruct Hin as [Hin|Hin]; [injection Hin as <- <-; lia|]).
  elim Hin.
Qed.

Ltac zdiv := Z.div_mod_to_equations; lia.

Lemma utf8_value_wchar_to_utf8 (wc : Z) :
  (0 <= wc <= 0x7fffffff)%Z -> utf8_value (wchar_to_utf8 wc) = wc.
Proof.
  intros Hwc. unfold wchar_to_utf8.
  repeat match goal with
         | |- context [(?a <=? ?b)%Z] => destruct (Z.leb_spec a b); try lia
         end; cbn [andb]; unfold push, utf8_value, utf8_payload;
    cbn [list_ascii_of_string fold_left].
  all: rewrite ?Z.shiftr_div_pow2 by lia.
  all: change (2 ^ 6)%Z with 64%Z; change (2 ^ 12)%Z with 4096%Z;
       change (2 ^ 18)%Z with 262144%Z; change (2 ^ 24)%Z with 16777216%Z;
       change (2 ^ 30)%Z with 1073741824%Z.
  all: rewrite ?continuation_byte by zdiv.
  - apply code_to_char. lia.
  - rewrite (lead_byte 0xc0 32) by (simpl; auto || zdiv). zdiv.
  - rewrite (lead_byte 0xe0 16) by (simpl; auto || zdiv). zdiv.
  - rewrite (lead_byte 0xf0 8) by (simpl; auto || zdiv). zdiv.
  - rewrite (lead_byte 0xf8 4) by (simpl; auto || zdiv). zdiv.
  - rewrite (lead_byte 0xfc 2) by (simpl; auto 10 || zdiv). zdiv.
Qed.

(** X30: the encoding loses nothing: two code points from 0 to 0x7fffffff
    with the same bytes are the same code point, in all six ranges of
    [wchar_to_utf8]. *)
Theorem wchar_to_utf8_injective :
  forall a b : Z,
    (0 <= a <= 0x7fffffff)%Z -> (0 <= b <= 0x7fffffff)%Z ->
    wchar_to_utf8 a = wchar_to_utf8 b -> a = b.
Proof.
  intros a b Ha Hb Heq.
  rewrite <- (utf8_value_wchar_to_utf8 a Ha), <- (utf8_value_wchar_to_utf8 b Hb).
  now rewrite Heq.
Qed.

Lemma wchar_to_utf8_injective_witness :
  hex_digit (hex_digit (hex_digit (to_hex "2") "0ac") "ac") "c" = 0x20ac%Z.
Proof.
  apply wchar_to_utf8_injective; [vm_compute; split; discriminate
                                 |lia|reflexivity].
Defined.
